(** * Order-tracking status pages: the timeline synthesizer, the carrier
    classifier and the business-day calculator of [server.js].

    The development embeds the pure core of the server (date arithmetic,
    regular-expression classification, event synthesis, pickup-date
    validation and the create-status-page handler) and proves the
    properties the specification states about it. *)

From Stdlib Require Import ZArith List String Ascii Bool Lia.
From stdpp Require Import gmap strings pretty.
From Equations Require Import Equations.
Import ListNotations.

Local Open Scope Z_scope.

(** ** Dates

    A JavaScript [Date] holds a number of milliseconds since the epoch.
    The strings the server receives are taken as already parsed into
    valid time values.  [getDay], [setDate] and [setHours] work in the
    local time zone of the process, which is a fixed offset from UTC. *)

Definition Date := Z.

Class TimeZone := { tzOffset : Z }.

(** A process running in UTC. *)
Definition UTC : TimeZone := {| tzOffset := 0 |}.

Definition msPerDay : Z := 1000 * 60 * 60 * 24.

Section Calendar.
Context {tz : TimeZone}.

(** Number of the local calendar day that contains the instant [d]. *)
Definition localDay (d : Date) : Z := (d + tzOffset) / msPerDay.

(** [d.getDay()]: 0 is Sunday, 6 is Saturday; day 0 of the epoch was a
    Thursday. *)
Definition getDay (d : Date) : Z := (localDay d + 4) mod 7.

(** [d.setDate(d.getDate() + k)]: same local time of day, [k] calendar
    days later. *)
Definition shiftDate (d : Date) (k : Z) : Date := d + k * msPerDay.

(** The test [result.getDay() !== 0 && result.getDay() !== 6]. *)
Definition notWeekend (d : Date) : bool :=
  negb (getDay d =? 0) && negb (getDay d =? 6).

(** Iterations of the forward loop that cannot count: after a Friday two
    days are skipped, after a Saturday one. *)
Definition idleAhead (d : Date) : nat :=
  if getDay d =? 5 then 2%nat else if getDay d =? 6 then 1%nat else 0%nat.

(** Likewise for the backward loop: before a Monday two days are skipped,
    before a Sunday one. *)
Definition idleBehind (d : Date) : nat :=
  if getDay d =? 1 then 2%nat else if getDay d =? 0 then 1%nat else 0%nat.

Lemma getDay_range d : 0 <= getDay d < 7.
Proof. unfold getDay. apply Z.mod_pos_bound. lia. Qed.

Lemma localDay_shift d k : localDay (shiftDate d k) = localDay d + k.
Proof.
  unfold localDay, shiftDate.
  replace (d + k * msPerDay + tzOffset) with (d + tzOffset + k * msPerDay) by ring.
  rewrite Z.div_add by (unfold msPerDay; lia). reflexivity.
Qed.

Lemma getDay_next d : getDay (shiftDate d 1) = (getDay d + 1) mod 7.
Proof.
  unfold getDay. rewrite localDay_shift.
  replace (localDay d + 1 + 4) with (localDay d + 4 + 1) by ring.
  rewrite Z.add_mod by lia. reflexivity.
Qed.

Lemma getDay_prev d : getDay (shiftDate d (-1)) = (getDay d + 6) mod 7.
Proof.
  unfold getDay. rewrite localDay_shift.
  replace (localDay d + -1 + 4) with (localDay d + 4 + 6 + (-1) * 7) by ring.
  rewrite Z.mod_add by lia.
  rewrite Z.add_mod by lia. reflexivity.
Qed.

(** *** The business-day loops *)

(** Keeps the equation of a test that a loop branches on. *)
Definition inspect {A : Type} (x : A) : { y : A | x = y } := exist _ x eq_refl.

(** The [while (addedDays < days)] loop of [addBusinessDays]. *)
Equations? addBusinessDays_loop (result : Date) (addedDays days : nat) : Date
  by wf (3 * (days - addedDays) + idleAhead result)%nat lt :=
  addBusinessDays_loop result addedDays days with inspect (addedDays <? days)%nat := {
    | exist _ false _ => result
    | exist _ true Hlt with inspect (notWeekend (shiftDate result 1)) := {
        | exist _ true _ => addBusinessDays_loop (shiftDate result 1) (S addedDays) days
        | exist _ false Hwe => addBusinessDays_loop (shiftDate result 1) addedDays days } }.
Proof.
  - apply Nat.ltb_lt in Hlt.
    assert (idleAhead (shiftDate result 1) <= 2)%nat
      by (unfold idleAhead; repeat case_match; lia).
    lia.
  - apply Nat.ltb_lt in Hlt.
    unfold notWeekend in Hwe. unfold idleAhead.
    rewrite getDay_next in *.
    pose proof (getDay_range result).
    assert (getDay result = 0 \/ getDay result = 1 \/ getDay result = 2 \/
            getDay result = 3 \/ getDay result = 4 \/ getDay result = 5 \/
            getDay result = 6) as Hd by lia.
    destruct Hd as [E|[E|[E|[E|[E|[E|E]]]]]]; rewrite E in *; simpl in *;
      try discriminate; lia.
Qed.

Definition addBusinessDays (date : Date) (days : nat) : Date :=
  addBusinessDays_loop date 0 days.

(** The [while (subtractedDays < days)] loop of [subtractBusinessDays]. *)
Equations? subtractBusinessDays_loop (result : Date) (subtractedDays days : nat) : Date
  by wf (3 * (days - subtractedDays) + idleBehind result)%nat lt :=
  subtractBusinessDays_loop result subtractedDays days
    with inspect (subtractedDays <? days)%nat := {
    | exist _ false _ => result
    | exist _ true Hlt with inspect (notWeekend (shiftDate result (-1))) := {
        | exist _ true _ =>
            subtractBusinessDays_loop (shiftDate result (-1)) (S subtractedDays) days
        | exist _ false Hwe =>
            subtractBusinessDays_loop (shiftDate result (-1)) subtractedDays days } }.
Proof.
  - apply Nat.ltb_lt in Hlt.
    assert (idleBehind (shiftDate result (-1)) <= 2)%nat
      by (unfold idleBehind; repeat case_match; lia).
    lia.
  - apply Nat.ltb_lt in Hlt.
    unfold notWeekend in Hwe. unfold idleBehind.
    rewrite getDay_prev in *.
    pose proof (getDay_range result).
    assert (getDay result = 0 \/ getDay result = 1 \/ getDay result = 2 \/
            getDay result = 3 \/ getDay result = 4 \/ getDay result = 5 \/
            getDay result = 6) as Hd by lia.
    destruct Hd as [E|[E|[E|[E|[E|[E|E]]]]]]; rewrite E in *; simpl in *;
      try discriminate; lia.
Qed.

Definition subtractBusinessDays (date : Date) (days : nat) : Date :=
  subtractBusinessDays_loop date 0 days.

(** *** Calendar fields

    Year, month (1 to 12) and day of the month of a day number in the
    proleptic Gregorian calendar, and back, as [Date] computes them. *)

Definition civilFromDays (z : Z) : Z * Z * Z :=
  let z := z + 719468 in
  let era := z / 146097 in
  let doe := z - era * 146097 in
  let yoe := (doe - doe / 1460 + doe / 36524 - doe / 146096) / 365 in
  let doy := doe - (365 * yoe + yoe / 4 - yoe / 100) in
  let mp := (5 * doy + 2) / 153 in
  let d := doy - (153 * mp + 2) / 5 + 1 in
  let m := if mp <? 10 then mp + 3 else mp - 9 in
  let y := yoe + era * 400 in
  (if m <=? 2 then y + 1 else y, m, d).

Definition daysFromCivil (y m d : Z) : Z :=
  let y := if m <=? 2 then y - 1 else y in
  let era := y / 400 in
  let yoe := y - era * 400 in
  let doy := (153 * (if 2 <? m then m - 3 else m + 9) + 2) / 5 + d - 1 in
  let doe := yoe * 365 + yoe / 4 - yoe / 100 + doy in
  era * 146097 + doe - 719468.

Definition getFullYear (d : Date) : Z := fst (fst (civilFromDays (localDay d))).
Definition getMonth1 (d : Date) : Z := snd (fst (civilFromDays (localDay d))).
Definition getDate (d : Date) : Z := snd (civilFromDays (localDay d)).

(** Milliseconds elapsed since local midnight. *)
Definition timeWithinDay (d : Date) : Z := (d + tzOffset) mod msPerDay.

(** [d.setFullYear(y)]: the same month, day of the month and local time in
    year [y]; a 29 February of a leap year overflows into 1 March. *)
Definition setFullYear (d : Date) (y : Z) : Date :=
  (daysFromCivil y (getMonth1 d) 1 + (getDate d - 1)) * msPerDay
  + timeWithinDay d - tzOffset.

(** [d.setHours(0, 0, 0, 0)]: local midnight of the day of [d]. *)
Definition setHoursZero (d : Date) : Date := localDay d * msPerDay - tzOffset.

Definition monthShort (m : Z) : string :=
  nth (Z.to_nat (m - 1))
    ["Jan"; "Feb"; "Mar"; "Apr"; "May"; "Jun";
     "Jul"; "Aug"; "Sep"; "Oct"; "Nov"; "Dec"] "".

Definition weekdayShort (w : Z) : string :=
  nth (Z.to_nat w) ["Sun"; "Mon"; "Tue"; "Wed"; "Thu"; "Fri"; "Sat"] "".

(** [d.toLocaleDateString('en-US', { weekday: 'short', year: 'numeric',
    month: 'short', day: 'numeric' })], as in "Mon, Jan 1, 2024". *)
Definition toLocaleDateStringLong (d : Date) : string :=
  weekdayShort (getDay d) +:+ ", " +:+ monthShort (getMonth1 d) +:+ " "
  +:+ pretty (getDate d) +:+ ", " +:+ pretty (getFullYear d).

(** [d.toLocaleDateString()] in the en-US locale, as in "1/31/2024". *)
Definition toLocaleDateString (d : Date) : string :=
  pretty (getMonth1 d) +:+ "/" +:+ pretty (getDate d) +:+ "/"
  +:+ pretty (getFullYear d).

End Calendar.

(** ** The random source

    [Math.random()] is a stream of draws threaded through the code; the
    only use the server makes of it is [Math.floor(Math.random() * k)],
    an integer below [k]. *)

Definition RandomSource := nat -> nat.

Definition Rand (A : Type) : Type := RandomSource -> A * RandomSource.

Definition ret {A} (a : A) : Rand A := fun s => (a, s).

Definition bind {A B} (m : Rand A) (k : A -> Rand B) : Rand B :=
  fun s => let (a, s') := m s in k a s'.

Notation "x <- m ;; k" := (bind m (fun x => k))
  (at level 100, m at next level, right associativity).

(** [Math.floor(Math.random() * k)]. *)
Definition randomBelow (k : nat) : Rand nat :=
  fun s => (match k with O => O | _ => s O mod k end, fun i => s (S i))%nat.

(** [getRandomBusinessDaysInterval()]: 3, 4 or 5. *)
Definition getRandomBusinessDaysInterval : Rand nat :=
  r <- randomBelow 3 ;; ret (r + 3)%nat.

(** ** Static tables *)

Definition shippingFacilities : gmap string (list string) :=
  list_to_map
    [("CA", ["Los Angeles Distribution Center"; "San Francisco Bay Area Facility";
             "Oakland Sorting Facility"]);
     ("NY", ["Queens Distribution Center"; "Brooklyn Sorting Facility";
             "Long Island Facility"]);
     ("TX", ["Dallas-Fort Worth Hub"; "Houston Distribution Center";
             "Austin Sorting Facility"]);
     ("FL", ["Miami Distribution Center"; "Orlando Sorting Facility";
             "Tampa Bay Facility"]);
     ("IL", ["Chicago O'Hare Hub"; "Rockford Distribution Center";
             "Schaumburg Facility"]);
     ("OH", ["Cincinnati Hub"; "Columbus Distribution Center";
             "Cleveland Sorting Facility"]);
     ("PA", ["Philadelphia Distribution Center"; "Pittsburgh Sorting Facility";
             "Allentown Hub"]);
     ("GA", ["Atlanta Distribution Center"; "Savannah Sorting Facility";
             "Augusta Hub"]);
     ("NC", ["Charlotte Hub"; "Raleigh Distribution Center";
             "Greensboro Sorting Facility"]);
     ("WA", ["Seattle Distribution Center"; "Spokane Sorting Facility";
             "Tacoma Hub"]);
     ("DEFAULT", ["Regional Distribution Center"; "Local Sorting Facility";
                  "Area Hub"])].

Definition majorTransitHubs : list string :=
  ["Memphis, TN Hub"; "Louisville, KY World Hub"; "Indianapolis, IN Hub";
   "Cincinnati, OH Air Hub"; "Phoenix, AZ Distribution Center"; "Denver, CO Hub";
   "Dallas, TX Hub"; "Atlanta, GA Hub"; "Chicago, IL Hub"; "Los Angeles, CA Hub"].

(** ** Events *)

(** The value of [template.status === 'Package Picked Up' &&
    customPickupDate]: [false], or the custom pickup date itself (which
    may be [null]). *)
Inductive PickupFlag :=
| FlagFalse
| FlagValue (customPickupDate : option Date).

(** A tracking event.  [ev_instant] is the [Date] the display strings
    [ev_date] and [ev_time] were produced for (the event's underlying
    date); the JavaScript object keeps only the strings. *)
Record TrackingEvent := mkEvent {
  ev_status : string;
  ev_date : string;
  ev_time : string;
  ev_location : option string;
  ev_completed : bool;
  ev_current : bool;
  ev_isDelivered : bool;
  ev_isCustomPickup : option PickupFlag;
  ev_instant : Date
}.

Record EventTemplate := mkTemplate {
  tpl_status : string;
  tpl_location : option string;
  tpl_fixedDate : option Date;
  tpl_businessDaysFromPrevious : option nat
}.

(** A fulfillment record of the commerce backend, with the fields the
    server reads; [None] stands for an absent or [null] field. *)
Record Fulfillment := mkFulfillment {
  tracking_number : option string;
  tracking_numbers : option (list string);
  created_at : Date
}.

(** Truthiness of a possibly absent string. *)
Definition truthy (o : option string) : bool :=
  match o with
  | Some s => negb (String.eqb s "")
  | None => false
  end.

(** [f.tracking_number || f.tracking_numbers?.length > 0]. *)
Definition hasTracking (f : Fulfillment) : bool :=
  truthy (tracking_number f) ||
  match tracking_numbers f with
  | Some l => (0 <? length l)%nat
  | None => false
  end.

(** [hay.includes(needle)]. *)
Fixpoint includes (needle hay : string) : bool :=
  String.prefix needle hay ||
  match hay with
  | EmptyString => false
  | String _ rest => includes needle rest
  end.

(** [s.padStart(2, '0')]. *)
Definition padStart2 (s : string) : string :=
  match String.length s with
  | O => "00"
  | S O => "0" +:+ s
  | _ => s
  end.

Definition generateRealisticTime (date : Date) (status : string) : Rand string :=
  hour <-
    (if String.eqb status "Order Confirmed" || String.eqb status "Order Processed"
     then r <- randomBelow 8 ;; ret (r + 9)%nat
     else if String.eqb status "Package Picked Up" || String.eqb status "Label Created"
     then r <- randomBelow 4 ;; ret (r + 6)%nat
     else if String.eqb status "Out for Delivery"
     then r <- randomBelow 3 ;; ret (r + 8)%nat
     else if String.eqb status "Delivered"
     then r <- randomBelow 8 ;; ret (r + 10)%nat
     else randomBelow 24) ;;
  minute <- randomBelow 60 ;;
  let '(hour, period) :=
    if (12 <? hour)%nat then ((hour - 12)%nat, "PM")
    else if (hour =? 12)%nat then (hour, "PM")
    else if (hour =? 0)%nat then (12%nat, "AM")
    else (hour, "AM") in
  ret (pretty hour +:+ ":" +:+ padStart2 (pretty minute) +:+ " " +:+ period).

(** ** The timeline synthesizer *)

Section Synthesizer.
Context {tz : TimeZone}.

(** The dates of Label Created and Package Picked Up (lines 354 to 397).
    A [null] or empty [fulfillments] behaves as the empty list. *)
Definition planLabelAndPickup (orderDateObj : Date)
    (fulfillments : list Fulfillment) (customPickupDate : option Date)
    : Rand (Date * Date) :=
  match customPickupDate with
  | Some custom =>
      let labelCreatedDate := custom in
      r <- randomBelow 2 ;;
      let packagePickupDate := addBusinessDays labelCreatedDate (r + 1) in
      if labelCreatedDate <=? orderDateObj then
        let labelCreatedDate := addBusinessDays orderDateObj 1 in
        let packagePickupDate := addBusinessDays labelCreatedDate 1 in
        ret (labelCreatedDate, packagePickupDate)
      else ret (labelCreatedDate, packagePickupDate)
  | None =>
      r1 <- randomBelow 3 ;;
      let labelCreatedDate := addBusinessDays orderDateObj (r1 + 1) in
      r2 <- randomBelow 2 ;;
      let packagePickupDate := addBusinessDays labelCreatedDate (r2 + 1) in
      match find hasTracking fulfillments with
      | Some shipmentFulfillment =>
          let fulfillmentDate := created_at shipmentFulfillment in
          let daysBetweenOrderAndFulfillment :=
            (fulfillmentDate - orderDateObj) / msPerDay in
          if (0 <? daysBetweenOrderAndFulfillment)
             && (daysBetweenOrderAndFulfillment <? 30) then
            let packagePickupDate := subtractBusinessDays fulfillmentDate 1 in
            r3 <- randomBelow 2 ;;
            let labelCreatedDate :=
              subtractBusinessDays packagePickupDate (r3 + 1) in
            if labelCreatedDate <=? orderDateObj then
              let labelCreatedDate := addBusinessDays orderDateObj 1 in
              let packagePickupDate := addBusinessDays labelCreatedDate 1 in
              ret (labelCreatedDate, packagePickupDate)
            else ret (labelCreatedDate, packagePickupDate)
          else ret (labelCreatedDate, packagePickupDate)
      | None => ret (labelCreatedDate, packagePickupDate)
      end
  end.

(** The array [eventTemplates] (lines 400 to 451). *)
Definition eventTemplates (orderConfirmedDate labelCreatedDate packagePickupDate : Date)
    (destinationFacility : option string) (destinationCity provinceCode : string)
    : Rand (list EventTemplate) :=
  r <- randomBelow 2 ;;
  let processedDate := addBusinessDays orderConfirmedDate (r + 1) in
  d1 <- getRandomBusinessDaysInterval ;;
  d2 <- getRandomBusinessDaysInterval ;;
  d3 <- getRandomBusinessDaysInterval ;;
  d4 <- getRandomBusinessDaysInterval ;;
  d5 <- getRandomBusinessDaysInterval ;;
  ret [ mkTemplate "Order Confirmed" (Some "Order Processing Center")
          (Some orderConfirmedDate) None;
        mkTemplate "Order Processed" (Some "Fulfillment Center")
          (Some processedDate) None;
        mkTemplate "Label Created" (Some "Origin Facility")
          (Some labelCreatedDate) None;
        mkTemplate "Package Picked Up" (Some "Local Pickup Facility")
          (Some packagePickupDate) None;
        mkTemplate "Departed Origin Facility" (Some "Origin Facility")
          None (Some 1%nat);
        mkTemplate "In Transit" None None (Some d1);
        mkTemplate "Arrived at Sorting Facility" None None (Some d2);
        mkTemplate "Departed Sorting Facility" None None (Some d3);
        mkTemplate "Arrived at Destination Facility" destinationFacility
          None (Some d4);
        mkTemplate "Out for Delivery"
          (Some (destinationCity +:+ ", " +:+ provinceCode)) None (Some d5) ].

(** The date of the event of [template], given the date of the previous
    one (lines 460 to 465).  A template without [businessDaysFromPrevious]
    makes the loop of [addBusinessDays] run zero times. *)
Definition nextEventDate (i : nat) (template : EventTemplate)
    (currentEventDate : Date) : Date :=
  match tpl_fixedDate template with
  | Some fixedDate => fixedDate
  | None =>
      if (0 <? i)%nat then
        addBusinessDays currentEventDate
          (default 0%nat (tpl_businessDaysFromPrevious template))
      else currentEventDate
  end.

(** The location of an event (lines 472 to 481). *)
Definition pickLocation (stateFacilities : list string) (template : EventTemplate)
    : Rand (option string) :=
  match tpl_location template with
  | Some location => ret (Some location)
  | None =>
      if includes "Transit" (tpl_status template) then
        r <- randomBelow (length majorTransitHubs) ;; ret (majorTransitHubs !! r)
      else if includes "Sorting" (tpl_status template) then
        r <- randomBelow (length stateFacilities) ;; ret (stateFacilities !! r)
      else ret None
  end.

(** The object pushed for [template] at the date [currentEventDate]
    (lines 483 to 497). *)
Definition pushedEvent (customPickupDate : option Date) (template : EventTemplate)
    (currentEventDate : Date) (location : option string) (time : string)
    : TrackingEvent :=
  {| ev_status := tpl_status template;
     ev_date := toLocaleDateStringLong currentEventDate;
     ev_time := time;
     ev_location := location;
     ev_completed := true;
     ev_current := false;
     ev_isDelivered := false;
     ev_isCustomPickup :=
       Some (if String.eqb (tpl_status template) "Package Picked Up"
             then FlagValue customPickupDate else FlagFalse);
     ev_instant := currentEventDate |}.

(** The [for] loop over the templates (lines 456 to 498), from index [i]
    on; the [break] returns the events pushed so far. *)
Fixpoint eventLoop (today : Date) (stateFacilities : list string)
    (customPickupDate : option Date) (i : nat) (templates : list EventTemplate)
    (currentEventDate : Date) (events : list TrackingEvent)
    : Rand (list TrackingEvent) :=
  match templates with
  | [] => ret events
  | template :: rest =>
      let currentEventDate := nextEventDate i template currentEventDate in
      if today <? currentEventDate then ret events
      else
        location <- pickLocation stateFacilities template ;;
        time <- generateRealisticTime currentEventDate (tpl_status template) ;;
        eventLoop today stateFacilities customPickupDate (S i) rest
          currentEventDate
          (events ++ [pushedEvent customPickupDate template currentEventDate
                        location time])
  end.

(** [e.current = true; e.completed = false]. *)
Definition markCurrent (e : TrackingEvent) : TrackingEvent :=
  {| ev_status := ev_status e; ev_date := ev_date e; ev_time := ev_time e;
     ev_location := ev_location e; ev_completed := false; ev_current := true;
     ev_isDelivered := ev_isDelivered e;
     ev_isCustomPickup := ev_isCustomPickup e; ev_instant := ev_instant e |}.

(** Lines 500 to 504: the last event becomes the current one. *)
Definition markLastCurrent (isDelivered : bool) (events : list TrackingEvent)
    : list TrackingEvent :=
  if (0 <? length events)%nat && negb isDelivered
  then alter markCurrent (length events - 1)%nat events
  else events.

(** Lines 506 to 523: the Delivered event. *)
Definition appendDelivered (destinationCity provinceCode : string)
    (isDelivered : bool) (deliveryDate : option Date)
    (events : list TrackingEvent) : Rand (list TrackingEvent) :=
  match isDelivered, deliveryDate with
  | true, Some actualDeliveryDate =>
      time <- generateRealisticTime actualDeliveryDate "Delivered" ;;
      ret (events ++
           [ {| ev_status := "Delivered";
                ev_date := toLocaleDateStringLong actualDeliveryDate;
                ev_time := time;
                ev_location := Some (destinationCity +:+ ", " +:+ provinceCode);
                ev_completed := true;
                ev_current := false;
                ev_isDelivered := true;
                ev_isCustomPickup := None;
                ev_instant := actualDeliveryDate |} ])
  | _, _ => ret events
  end.

(** Lines 336 to 451: the facilities of the destination state and the
    event templates.  [provinceCode] is looked up among the keys of the
    table itself. *)
Definition planEvents (orderDateObj : Date) (destinationCity provinceCode : string)
    (fulfillments : list Fulfillment) (customPickupDate : option Date)
    : Rand (list string * list EventTemplate) :=
  let stateFacilities :=
    default (default [] (shippingFacilities !! "DEFAULT"))
            (shippingFacilities !! provinceCode) in
  r <- randomBelow (length stateFacilities) ;;
  let destinationFacility := stateFacilities !! r in
  let orderConfirmedDate := orderDateObj in
  dates <- planLabelAndPickup orderDateObj fulfillments customPickupDate ;;
  templates <- eventTemplates orderConfirmedDate (fst dates) (snd dates)
                 destinationFacility destinationCity provinceCode ;;
  ret (stateFacilities, templates).

(** [generateRealisticTrackingEventsWithFulfillment]; [today] is the
    value of [new Date()] at the call. *)
Definition generateRealisticTrackingEventsWithFulfillment (today : Date)
    (orderDate : Date) (destinationCity provinceCode : string)
    (isDelivered : bool) (deliveryDate : option Date)
    (fulfillments : list Fulfillment) (customPickupDate : option Date)
    : Rand (list TrackingEvent) :=
  let orderDateObj := orderDate in
  plan <- planEvents orderDateObj destinationCity provinceCode fulfillments
            customPickupDate ;;
  events <- eventLoop today (fst plan) customPickupDate 0 (snd plan)
              orderDateObj [] ;;
  appendDelivered destinationCity provinceCode isDelivered deliveryDate
    (markLastCurrent isDelivered events).

End Synthesizer.

(** ** Regular expressions

    The patterns of the classifier use literals, character ranges,
    alternation and bounded repetition, and are anchored at both ends, so
    [pattern.test(s)] asks whether the whole of [s] is in the language.
    Matching is by derivatives. *)

Inductive regex :=
| Never
| Empty
| Lit (c : ascii)
| Range (lo hi : ascii)
| Seq (r1 r2 : regex)
| Or (r1 r2 : regex).

Definition inRange (lo hi c : ascii) : bool :=
  (N_of_ascii lo <=? N_of_ascii c)%N && (N_of_ascii c <=? N_of_ascii hi)%N.

Fixpoint nullable (r : regex) : bool :=
  match r with
  | Never => false
  | Empty => true
  | Lit _ => false
  | Range _ _ => false
  | Seq r1 r2 => nullable r1 && nullable r2
  | Or r1 r2 => nullable r1 || nullable r2
  end.

Fixpoint deriv (c : ascii) (r : regex) : regex :=
  match r with
  | Never => Never
  | Empty => Never
  | Lit c' => if Ascii.eqb c c' then Empty else Never
  | Range lo hi => if inRange lo hi c then Empty else Never
  | Seq r1 r2 =>
      if nullable r1 then Or (Seq (deriv c r1) r2) (deriv c r2)
      else Seq (deriv c r1) r2
  | Or r1 r2 => Or (deriv c r1) (deriv c r2)
  end.

Fixpoint matches (r : regex) (s : list ascii) : bool :=
  match s with
  | [] => nullable r
  | c :: s' => matches (deriv c r) s'
  end.

(** [r.test(s)] for an anchored pattern. *)
Definition test (r : regex) (s : string) : bool :=
  matches r (list_ascii_of_string s).

(** A literal string. *)
Fixpoint lits (s : string) : regex :=
  match s with
  | EmptyString => Empty
  | String c rest => Seq (Lit c) (lits rest)
  end.

(** [r{n}]. *)
Fixpoint times (n : nat) (r : regex) : regex :=
  match n with
  | O => Empty
  | S n' => Seq r (times n' r)
  end.

(** [r{0,n}]. *)
Fixpoint upto (n : nat) (r : regex) : regex :=
  match n with
  | O => Empty
  | S n' => Or Empty (Seq r (upto n' r))
  end.

(** [r{lo,hi}]. *)
Definition between (lo hi : nat) (r : regex) : regex :=
  Seq (times lo r) (upto (hi - lo) r).

(** [(r1|r2|...)]. *)
Definition alts (rs : list regex) : regex := fold_right Or Never rs.

(** [\d]. *)
Definition digit : regex := Range "0" "9".

(** ** The carrier classifier *)

Record Carrier := mkCarrier {
  c_pattern : regex;
  c_url : string;
  c_name : string
}.

Record CarrierInfo := mkCarrierInfo {
  carrier : string;
  trackingUrl : string;
  carrierCode : string
}.

(** [/^1Z[0-9A-Z]{16}$/]. *)
Definition upsPattern : regex :=
  Seq (lits "1Z") (times 16 (Or (Range "0" "9") (Range "A" "Z"))).

(** [/^(94|93|92|91|90|82|81|80|70|23|13|03|04)\d{18,20}$/]. *)
Definition uspsPattern : regex :=
  Seq (alts (map lits ["94"; "93"; "92"; "91"; "90"; "82"; "81"; "80"; "70";
                       "23"; "13"; "03"; "04"]))
      (between 18 20 digit).

(** [/^(\d{12}|\d{14}|\d{15}|\d{20}|\d{22})$/]. *)
Definition fedexPattern : regex :=
  alts [times 12 digit; times 14 digit; times 15 digit; times 20 digit;
        times 22 digit].

(** [/^(\d{10}|\d{11})$/]. *)
Definition dhlPattern : regex := alts [times 10 digit; times 11 digit].

(** [/^TBA\d{12}$/]. *)
Definition amazonPattern : regex := Seq (lits "TBA") (times 12 digit).

(** The object [carriers], as the list of its entries in insertion
    order, which is the order [Object.entries] enumerates them in. *)
Definition carriers (trackingNumber : string) : list (string * Carrier) :=
  [ ("UPS", mkCarrier upsPattern
       ("https://www.ups.com/track?track=yes&trackNums=" +:+ trackingNumber) "UPS");
    ("USPS", mkCarrier uspsPattern
       ("https://tools.usps.com/go/TrackConfirmAction?tLabels=" +:+ trackingNumber)
       "USPS");
    ("FedEx", mkCarrier fedexPattern
       ("https://www.fedex.com/fedextrack/?tracknumber=" +:+ trackingNumber) "FedEx");
    ("DHL", mkCarrier dhlPattern
       ("https://www.dhl.com/us-en/home/tracking.html?tracking-id=" +:+ trackingNumber)
       "DHL");
    ("Amazon", mkCarrier amazonPattern
       ("https://track.amazon.com/tracking/" +:+ trackingNumber) "Amazon Logistics") ].

(** The [for ... of Object.entries(carriers)] loop. *)
Fixpoint firstMatch (trackingNumber : string) (entries : list (string * Carrier))
    : option CarrierInfo :=
  match entries with
  | [] => None
  | (code, c) :: rest =>
      if test (c_pattern c) trackingNumber
      then Some {| carrier := c_name c; trackingUrl := c_url c; carrierCode := code |}
      else firstMatch trackingNumber rest
  end.

Definition detectCarrierAndGenerateUrl (trackingNumber : string) : CarrierInfo :=
  match firstMatch trackingNumber (carriers trackingNumber) with
  | Some info => info
  | None =>
      {| carrier := "Carrier";
         trackingUrl :=
           "https://www.google.com/search?q=track+package+" +:+ trackingNumber;
         carrierCode := "UNKNOWN" |}
  end.

(** ** Pickup-date validation and the create-status-page handler *)

Record Validation := mkValidation {
  isValid : bool;
  error : option string
}.

Record ShippingAddress := mkAddress {
  city : string;
  provinceCode : string;
  zip : string
}.

Record Customer := mkCustomer {
  firstName : string;
  lastName : string
}.

(** The order that [fetchShopifyOrder] returns. *)
Record Order := mkOrder {
  o_id : Z;
  o_orderNumber : string;
  o_createdAt : Date;
  o_fulfillmentStatus : option string;
  o_isDelivered : bool;
  o_deliveryDate : option Date;
  o_shippingAddress : ShippingAddress;
  o_customer : Customer;
  o_fulfillments : list Fulfillment
}.

Inductive ShopifyResult :=
| ShopifyOrder (order : Order)
| ShopifyError (error : string).

(** The replacement-tracking metafield. *)
Record Metafield := mkMetafield {
  mf_value : string;
  mf_updated_at : option Date
}.

Record StatusPage := mkStatusPage {
  sp_customerName : string;
  sp_orderNumber : string;
  sp_trackingNumber : string;
  sp_carrier : string;
  sp_carrierCode : string;
  sp_trackingUrl : string;
  sp_destination : string;
  sp_shippingAddress : ShippingAddress;
  sp_fulfillmentStatus : option string;
  sp_isDelivered : bool;
  sp_deliveryDate : option Date;
  sp_events : list TrackingEvent;
  sp_customPickupDate : option Date;
  sp_isReplacementTracking : bool;
  sp_replacementTrackingAddedDate : option Date;
  sp_createdAt : Date;
  sp_lastUpdated : Date;
  sp_saved : bool
}.

(** The body of a create-status-page request. *)
Record CreateRequest := mkRequest {
  rq_orderNumber : string;
  rq_trackingNumber : string;
  rq_pickupDate : option Date
}.

Inductive Response :=
| Rejected (httpStatus : nat) (error : string)
| Created (pageId : string) (data : StatusPage) (isReplacement : bool).

(** The double-quote character, as a string. *)
Definition dquote : string := String (ascii_of_nat 34) EmptyString.

Definition isSpace (c : ascii) : bool :=
  (N_of_ascii c =? 32)%N || ((9 <=? N_of_ascii c)%N && (N_of_ascii c <=? 13)%N).

Fixpoint trimStart (s : string) : string :=
  match s with
  | String c rest => if isSpace c then trimStart rest else s
  | EmptyString => EmptyString
  end.

Fixpoint trimEnd (s : string) : string :=
  match s with
  | String c rest =>
      match trimEnd rest with
      | EmptyString => if isSpace c then EmptyString else String c EmptyString
      | rest' => String c rest'
      end
  | EmptyString => EmptyString
  end.

(** [s.trim()]. *)
Definition trim (s : string) : string := trimEnd (trimStart s).

(** [getMainTrackingNumber(order)]: the loop over the fulfillments. *)
Fixpoint getMainTrackingNumber_loop (fulfillments : list Fulfillment) : option string :=
  match fulfillments with
  | [] => None
  | fulfillment :: rest =>
      if truthy (tracking_number fulfillment) then tracking_number fulfillment
      else match tracking_numbers fulfillment with
           | Some (first :: _) => Some first
           | _ => getMainTrackingNumber_loop rest
           end
  end.

Definition getMainTrackingNumber (order : Order) : option string :=
  getMainTrackingNumber_loop (o_fulfillments order).

Section Handler.
Context {tz : TimeZone}.

(** [validatePickupDate]; [now] is the value of [new Date()] during the
    call (the two reads of the clock are taken at the same instant). *)
Definition validatePickupDate (now : Date) (pickupDate : option Date)
    (orderCreatedAt : Date) : Validation :=
  match pickupDate with
  | None => mkValidation true None
  | Some pickup =>
      let pickupDateObj := setHoursZero pickup in
      let orderDateObj := setHoursZero orderCreatedAt in
      if pickupDateObj <? orderDateObj then
        mkValidation false
          (Some ("Pickup date (" +:+ toLocaleDateString pickupDateObj
                 +:+ ") cannot be before the order creation date ("
                 +:+ toLocaleDateString orderDateObj
                 +:+ "). Packages cannot be picked up before they are ordered."))
      else
        let oneYearFromNow :=
          setHoursZero (setFullYear now (getFullYear now + 1)) in
        if oneYearFromNow <? pickupDateObj then
          mkValidation false
            (Some "Pickup date cannot be more than 1 year in the future.")
        else
          let twoYearsAgo :=
            setHoursZero (setFullYear now (getFullYear now - 2)) in
          if pickupDateObj <? twoYearsAgo then
            mkValidation false
              (Some "Pickup date cannot be more than 2 years in the past.")
          else mkValidation true None
  end.

(** The date handed to validation and synthesis (lines 880 to 906), or
    [None] when the tracking number matches neither the replacement
    metafield nor the main tracking number. *)
Definition matchTracking (trackingNumber : string) (pickupDate : option Date)
    (order : Order) (replacementTrackingMetafield : option Metafield)
    : option (bool * option Date) :=
  let mainTrackingNumber := getMainTrackingNumber order in
  match replacementTrackingMetafield with
  | Some mf =>
      if String.eqb trackingNumber (mf_value mf) then
        Some (true,
              match mf_updated_at mf with
              | Some labelCreatedDate => Some labelCreatedDate
              | None => pickupDate
              end)
      else if truthy mainTrackingNumber
              && bool_decide (Some trackingNumber = mainTrackingNumber)
      then Some (false, pickupDate)
      else None
  | None =>
      if truthy mainTrackingNumber
         && bool_decide (Some trackingNumber = mainTrackingNumber)
      then Some (false, pickupDate)
      else None
  end.

(** The handler of [POST /api/create-status-page] for an authenticated
    request.  [shopifyResult] and [metafield] are the answers of the
    commerce backend, [pageId] the identifier drawn by [crypto], [now]
    the clock; the state is the map [tempStatusPages] and the random
    source.  The timer that later drops an unsaved page is not part of the
    handling of the request. *)
Definition createStatusPage (now : Date) (pageId : string) (body : CreateRequest)
    (shopifyResult : ShopifyResult) (metafield : option Metafield)
    (tempStatusPages : gmap string StatusPage)
    : Rand (Response * gmap string StatusPage) :=
  let orderNumber := rq_orderNumber body in
  let trackingNumber := rq_trackingNumber body in
  if String.eqb orderNumber "" || String.eqb trackingNumber "" then
    ret (Rejected 400 "Missing required fields: orderNumber and trackingNumber",
         tempStatusPages)
  else
    match shopifyResult with
    | ShopifyError err => ret (Rejected 404 err, tempStatusPages)
    | ShopifyOrder order =>
        match matchTracking trackingNumber (rq_pickupDate body) order metafield with
        | None =>
            ret (Rejected 400
                   ("Tracking number " +:+ dquote +:+ trackingNumber +:+ dquote
                    +:+ " does not match the order. Please verify the tracking number and try again."),
                 tempStatusPages)
        | Some (isReplacementTracking, effectivePickupDate) =>
            let pickupValidation :=
              validatePickupDate now effectivePickupDate (o_createdAt order) in
            if negb (isValid pickupValidation) then
              ret (Rejected 400 (default "" (error pickupValidation)),
                   tempStatusPages)
            else
              let carrierInfo := detectCarrierAndGenerateUrl trackingNumber in
              let address := o_shippingAddress order in
              trackingEvents <-
                generateRealisticTrackingEventsWithFulfillment now
                  (o_createdAt order) (city address) (provinceCode address)
                  (o_isDelivered order) (o_deliveryDate order)
                  (o_fulfillments order) effectivePickupDate ;;
              let statusPageData :=
                {| sp_customerName :=
                     trim (firstName (o_customer order) +:+ " "
                           +:+ lastName (o_customer order));
                   sp_orderNumber := o_orderNumber order;
                   sp_trackingNumber := trackingNumber;
                   sp_carrier := carrier carrierInfo;
                   sp_carrierCode := carrierCode carrierInfo;
                   sp_trackingUrl := trackingUrl carrierInfo;
                   sp_destination :=
                     city address +:+ ", " +:+ provinceCode address +:+ " "
                     +:+ zip address;
                   sp_shippingAddress := address;
                   sp_fulfillmentStatus := o_fulfillmentStatus order;
                   sp_isDelivered := o_isDelivered order;
                   sp_deliveryDate := o_deliveryDate order;
                   sp_events := trackingEvents;
                   sp_customPickupDate := effectivePickupDate;
                   sp_isReplacementTracking := isReplacementTracking;
                   sp_replacementTrackingAddedDate :=
                     if isReplacementTracking
                     then match metafield with
                          | Some mf => mf_updated_at mf
                          | None => None
                          end
                     else None;
                   sp_createdAt := now;
                   sp_lastUpdated := now;
                   sp_saved := false |} in
              ret (Created pageId statusPageData isReplacementTracking,
                   <[pageId := statusPageData]> tempStatusPages)
        end
    end.

End Handler.

(** ** The page stores: saving, expiry, reading and clean-up *)

(** A document of the [statusPages] collection: the fields of a page and
    the [savedAt] stamp that saving adds. *)
Record DbDoc := mkDbDoc {
  doc_page : StatusPage;
  doc_savedAt : Date
}.

(** [{ ...statusData, saved: b }]. *)
Definition withSaved (statusData : StatusPage) (b : bool) : StatusPage :=
  {| sp_customerName := sp_customerName statusData;
     sp_orderNumber := sp_orderNumber statusData;
     sp_trackingNumber := sp_trackingNumber statusData;
     sp_carrier := sp_carrier statusData;
     sp_carrierCode := sp_carrierCode statusData;
     sp_trackingUrl := sp_trackingUrl statusData;
     sp_destination := sp_destination statusData;
     sp_shippingAddress := sp_shippingAddress statusData;
     sp_fulfillmentStatus := sp_fulfillmentStatus statusData;
     sp_isDelivered := sp_isDelivered statusData;
     sp_deliveryDate := sp_deliveryDate statusData;
     sp_events := sp_events statusData;
     sp_customPickupDate := sp_customPickupDate statusData;
     sp_isReplacementTracking := sp_isReplacementTracking statusData;
     sp_replacementTrackingAddedDate := sp_replacementTrackingAddedDate statusData;
     sp_createdAt := sp_createdAt statusData;
     sp_lastUpdated := sp_lastUpdated statusData;
     sp_saved := b |}.

(** The object the status endpoint builds on a refresh (lines 1120 to
    1130): the stored fields, with the carrier, the order's status and
    delivery, the events and [lastUpdated] replaced. *)
Definition refreshedPage (statusData : StatusPage) (carrierInfo : CarrierInfo)
    (order : Order) (updatedEvents : list TrackingEvent) (now : Date)
    : StatusPage :=
  {| sp_customerName := sp_customerName statusData;
     sp_orderNumber := sp_orderNumber statusData;
     sp_trackingNumber := sp_trackingNumber statusData;
     sp_carrier := carrier carrierInfo;
     sp_carrierCode := carrierCode carrierInfo;
     sp_trackingUrl := trackingUrl carrierInfo;
     sp_destination := sp_destination statusData;
     sp_shippingAddress := sp_shippingAddress statusData;
     sp_fulfillmentStatus := o_fulfillmentStatus order;
     sp_isDelivered := o_isDelivered order;
     sp_deliveryDate := o_deliveryDate order;
     sp_events := updatedEvents;
     sp_customPickupDate := sp_customPickupDate statusData;
     sp_isReplacementTracking := sp_isReplacementTracking statusData;
     sp_replacementTrackingAddedDate := sp_replacementTrackingAddedDate statusData;
     sp_createdAt := sp_createdAt statusData;
     sp_lastUpdated := now;
     sp_saved := sp_saved statusData |}.

Inductive SaveResponse :=
| SaveRejected (httpStatus : nat) (error : string)
| SaveOk (message : string).

Inductive StatusResponse :=
| StatusRejected (httpStatus : nat) (error : string)
| StatusOk (data : StatusPage) (savedAt : option Date).

(** The handler of [POST /api/save-status-page/:pageId] for an
    authenticated request.  [db] is [None] when Firebase is not
    initialised; [dbWriteOk] tells whether the write to the collection
    goes through (a failed write is logged and otherwise ignored). *)
Definition saveStatusPage (now : Date) (pageId : string) (dbWriteOk : bool)
    (db : option (gmap string DbDoc)) (tempStatusPages : gmap string StatusPage)
    : SaveResponse * option (gmap string DbDoc) * gmap string StatusPage :=
  match tempStatusPages !! pageId with
  | None =>
      (SaveRejected 404 "Status page not found or already expired", db,
       tempStatusPages)
  | Some statusData =>
      let db' :=
        match db with
        | Some docs =>
            if dbWriteOk
            then Some (<[pageId := mkDbDoc (withSaved statusData true) now]> docs)
            else Some docs
        | None => None
        end in
      (SaveOk (match db with
               | Some _ => "Status page saved to Firebase successfully"
               | None => "Status page marked as saved (Firebase unavailable)"
               end),
       db', <[pageId := withSaved statusData true]> tempStatusPages)
  end.

(** The callback of the timer that the create handler sets (lines 960 to
    965): one hour later an unsaved page is dropped. *)
Definition expireTempPage (pageId : string)
    (tempStatusPages : gmap string StatusPage) : gmap string StatusPage :=
  match tempStatusPages !! pageId with
  | Some statusData =>
      if negb (sp_saved statusData) then delete pageId tempStatusPages
      else tempStatusPages
  | None => tempStatusPages
  end.

(** [cleanupExpiredPages]: the documents created more than thirty days
    before [now] are deleted; nothing happens without a database or when
    the query or the batch fails ([dbOk] false).  The stored creation
    stamps are ISO strings of fixed width, which the query orders as the
    instants they denote. *)
Definition cleanupExpiredPages (now : Date) (dbOk : bool)
    (db : option (gmap string DbDoc)) : option (gmap string DbDoc) :=
  match db with
  | None => None
  | Some docs =>
      if dbOk then
        let thirtyDaysAgo := shiftDate now (-30) in
        Some (filter (fun kv : string * DbDoc =>
                        ~ (sp_createdAt (doc_page (snd kv)) < thirtyDaysAgo))
                docs)
      else Some docs
  end.

(** The fields of a fulfillment of the backend's answer that
    [fetchShopifyOrder] reads to tell whether the order is delivered. *)
Record ShopifyFulfillment := mkShopifyFulfillment {
  f_status : option string;
  f_shipment_status : option string;
  f_updated_at : option Date
}.

(** Lines 226 to 238 of [fetchShopifyOrder]: the flag and the date of the
    first fulfillment that succeeded and is delivered. *)
Fixpoint deliveryOf (fulfillments : list ShopifyFulfillment) : bool * option Date :=
  match fulfillments with
  | [] => (false, None)
  | fulfillment :: rest =>
      if bool_decide (f_status fulfillment = Some "success")
         && bool_decide (f_shipment_status fulfillment = Some "delivered")
      then (true, f_updated_at fulfillment)
      else deliveryOf rest
  end.

Section Stores.
Context {tz : TimeZone}.

(** The handler of [GET /api/status/:pageId].  [dbReadOk] and
    [dbUpdateOk] tell whether the read and the update of the collection
    go through; [shopifyResult] and [metafield] are the answers of the
    commerce backend, asked only for a page last updated four hours ago
    or more; [now] is the clock.  The documents of the collection are
    written by the save handler, with [saved] set; were one not, the
    source would carry its [savedAt] stamp into the temporary map as
    well, which a map of pages does not record. *)
Definition getStatusPage (now : Date) (pageId : string)
    (dbReadOk dbUpdateOk : bool) (shopifyResult : ShopifyResult)
    (metafield : option Metafield) (db : option (gmap string DbDoc))
    (tempStatusPages : gmap string StatusPage)
    : Rand (StatusResponse * option (gmap string DbDoc) * gmap string StatusPage) :=
  let fromDb :=
    match db with
    | Some docs => if dbReadOk then docs !! pageId else None
    | None => None
    end in
  let statusData :=
    match fromDb with
    | Some doc => Some (doc_page doc, Some (doc_savedAt doc))
    | None =>
        match tempStatusPages !! pageId with
        | Some page => Some (page, None)
        | None => None
        end
    end in
  match statusData with
  | None => ret (StatusRejected 404 "Status page not found", db, tempStatusPages)
  | Some (statusData, savedAt) =>
      if 4 * (1000 * 60 * 60) <=? now - sp_lastUpdated statusData then
        match shopifyResult with
        | ShopifyOrder order =>
            let effectivePickupDate :=
              match metafield with
              | Some mf =>
                  if sp_isReplacementTracking statusData then mf_updated_at mf
                  else sp_customPickupDate statusData
              | None => sp_customPickupDate statusData
              end in
            let carrierInfo :=
              detectCarrierAndGenerateUrl (sp_trackingNumber statusData) in
            let address := o_shippingAddress order in
            updatedEvents <-
              generateRealisticTrackingEventsWithFulfillment now
                (o_createdAt order) (city address) (provinceCode address)
                (o_isDelivered order) (o_deliveryDate order)
                (o_fulfillments order) effectivePickupDate ;;
            let statusData :=
              refreshedPage statusData carrierInfo order updatedEvents now in
            match db with
            | Some docs =>
                if sp_saved statusData then
                  ret (StatusOk statusData savedAt,
                       Some (match docs !! pageId with
                             | Some old =>
                                 if dbUpdateOk
                                 then <[pageId := mkDbDoc statusData
                                                    (doc_savedAt old)]> docs
                                 else docs
                             | None => docs
                             end),
                       tempStatusPages)
                else
                  ret (StatusOk statusData savedAt, db,
                       <[pageId := statusData]> tempStatusPages)
            | None =>
                ret (StatusOk statusData savedAt, db,
                     <[pageId := statusData]> tempStatusPages)
            end
        | ShopifyError _ => ret (StatusOk statusData savedAt, db, tempStatusPages)
        end
      else ret (StatusOk statusData savedAt, db, tempStatusPages)
  end.

End Stores.

(** * Notions of the specification

    The definitions below are not code of the server: they word what the
    specification says, for the theorems to compare the code with. *)

(** Number of business days among the [k] calendar days that follow [d]:
    the days strictly after [d], up to and including [shiftDate d k]. *)
Definition businessDaysWithin {tz : TimeZone} (d : Date) (k : nat) : nat :=
  length (List.filter (fun i => notWeekend (shiftDate d (Z.of_nat i))) (seq 1 k)).

(** The language of a regular expression. *)
Fixpoint lang (r : regex) (w : list ascii) : Prop :=
  match r with
  | Never => False
  | Empty => w = []
  | Lit c => w = [c]
  | Range lo hi => exists c, w = [c] /\ inRange lo hi c = true
  | Seq r1 r2 => exists w1 w2, w = w1 ++ w2 /\ lang r1 w1 /\ lang r2 w2
  | Or r1 r2 => lang r1 w \/ lang r2 w
  end.

(** The shapes of tracking numbers, as the specification words them. *)

Definition isDigit (c : ascii) : bool := inRange "0" "9" c.

Definition isUpperAlnum (c : ascii) : bool := isDigit c || inRange "A" "Z" c.

(** [stripPrefix p w] is what follows [p] in [w], if [w] starts with [p]. *)
Fixpoint stripPrefix (p w : list ascii) : option (list ascii) :=
  match p, w with
  | [], _ => Some w
  | a :: p', b :: w' => if Ascii.eqb a b then stripPrefix p' w' else None
  | _ :: _, [] => None
  end.

Definition uspsPrefixes : list string :=
  ["94"; "93"; "92"; "91"; "90"; "82"; "81"; "80"; "70"; "23"; "13"; "03"; "04"].

(** [1Z] followed by 16 upper-case alphanumerics. *)
Definition upsShape (w : list ascii) : bool :=
  match stripPrefix (list_ascii_of_string "1Z") w with
  | Some t => (length t =? 16)%nat && forallb isUpperAlnum t
  | None => false
  end.

(** A prefix of the whitelist followed by 18 to 20 digits. *)
Definition uspsShape (w : list ascii) : bool :=
  existsb (fun p =>
    match stripPrefix (list_ascii_of_string p) w with
    | Some t => (18 <=? length t)%nat && (length t <=? 20)%nat && forallb isDigit t
    | None => false
    end) uspsPrefixes.

(** Digits only, of length 12, 14, 15, 20 or 22. *)
Definition fedexShape (w : list ascii) : bool :=
  forallb isDigit w && existsb (Nat.eqb (length w)) [12; 14; 15; 20; 22]%nat.

(** Digits only, of length 10 or 11. *)
Definition dhlShape (w : list ascii) : bool :=
  forallb isDigit w && existsb (Nat.eqb (length w)) [10; 11]%nat.

(** [TBA] followed by 12 digits. *)
Definition amazonShape (w : list ascii) : bool :=
  match stripPrefix (list_ascii_of_string "TBA") w with
  | Some t => (length t =? 12)%nat && forallb isDigit t
  | None => false
  end.

(** The carrier code the specification assigns: the first shape, in the
    order UPS, USPS, FedEx, DHL, Amazon, that the number has. *)
Definition classifyCode (trackingNumber : string) : string :=
  let w := list_ascii_of_string trackingNumber in
  if upsShape w then "UPS"
  else if uspsShape w then "USPS"
  else if fedexShape w then "FedEx"
  else if dhlShape w then "DHL"
  else if amazonShape w then "Amazon"
  else "UNKNOWN".

(** A regular expression for one character of a class. *)
Definition classOf (P : ascii -> bool) (r : regex) : Prop :=
  forall w, lang r w <-> exists c, w = [c] /\ P c = true.

(** The dates the loop computes for the templates when nothing is cut. *)
Fixpoint scheduledDates {tz : TimeZone} (i : nat) (templates : list EventTemplate)
    (currentEventDate : Date) : list Date :=
  match templates with
  | [] => []
  | template :: rest =>
      let d := nextEventDate i template currentEventDate in
      d :: scheduledDates (S i) rest d
  end.

(** The status labels of the templates, in order. *)
Definition statusVocabulary : list string :=
  ["Order Confirmed"; "Order Processed"; "Label Created"; "Package Picked Up";
   "Departed Origin Facility"; "In Transit"; "Arrived at Sorting Facility";
   "Departed Sorting Facility"; "Arrived at Destination Facility";
   "Out for Delivery"].

(** A list of dates that never decreases. *)
Fixpoint nonDecreasing (l : list Date) : Prop :=
  match l with
  | a :: (b :: _) as rest => a <= b /\ nonDecreasing rest
  | _ => True
  end.

(** A list without its second element. *)
Definition withoutSecond {A} (l : list A) : list A :=
  match l with
  | a :: _ :: rest => a :: rest
  | _ => l
  end.

(** What the specification says of the flags of a sequence returned for
    the delivery flag [isDelivered]: at most one event is current, and
    only when the shipment is not delivered; the events before the
    Delivered events are completed and not current, except that, when the
    shipment is not delivered, the last of them is current and not
    completed. *)
Definition flagsAsSpecified (isDelivered : bool) (out : list TrackingEvent) : Prop :=
  (length (List.filter ev_current out) <= 1)%nat /\
  (existsb ev_current out = true -> isDelivered = false) /\
  exists body tail,
    out = body ++ tail /\
    Forall (fun e => ev_status e <> "Delivered") body /\
    Forall (fun e => ev_status e = "Delivered") tail /\
    if isDelivered then
      Forall (fun e => ev_completed e = true /\ ev_current e = false) body
    else
      body = [] \/
      exists init last,
        body = init ++ [last] /\
        Forall (fun e => ev_completed e = true /\ ev_current e = false) init /\
        ev_completed last = false /\ ev_current last = true.

(** The number of the day that has the month and the day of the month of
    [now], [years] years later. *)
Definition sameDateInYear {tz : TimeZone} (now : Date) (years : Z) : Z :=
  daysFromCivil (getFullYear now + years) (getMonth1 now) 1 + (getDate now - 1).

(** At day granularity, the pickup date is before the order creation
    date, more than one year after today, or more than two years before
    today. *)
Definition pickupDateOutOfRange {tz : TimeZone} (now pickup orderCreatedAt : Date)
    : Prop :=
  localDay pickup < localDay orderCreatedAt \/
  sameDateInYear now 1 < localDay pickup \/
  localDay pickup < sameDateInYear now (-2).

(** ** Notions used to state the further properties *)

(** The hours, on the 24-hour clock, between which the time of an event
    of the given status is drawn. *)
Definition hourWindow (status : string) : nat * nat :=
  if String.eqb status "Order Confirmed" || String.eqb status "Order Processed"
  then (9, 16)%nat
  else if String.eqb status "Package Picked Up" || String.eqb status "Label Created"
  then (6, 9)%nat
  else if String.eqb status "Out for Delivery" then (8, 10)%nat
  else if String.eqb status "Delivered" then (10, 17)%nat
  else (0, 23)%nat.

(** The hour [h] and minute [m] of the 24-hour clock, written on the
    12-hour clock. *)
Definition clock12 (h m : nat) : string :=
  pretty ((h + 11) mod 12 + 1)%nat +:+ ":"
  +:+ (pretty (m / 10)%nat +:+ pretty (m mod 10)%nat)
  +:+ " " +:+ (if (h <? 12)%nat then "AM" else "PM").

(** Every document of the database is a page marked saved. *)
Definition allSaved (db : option (gmap string DbDoc)) : Prop :=
  forall docs id doc,
    db = Some docs -> docs !! id = Some doc -> sp_saved (doc_page doc) = true.

(** The document the database holds under an identifier, if any. *)
Definition docOf (db : option (gmap string DbDoc)) (id : string) : option DbDoc :=
  match db with
  | Some docs => docs !! id
  | None => None
  end.

(** The statuses whose events are dated by counting business days. *)
Definition countedStatuses : list string :=
  ["Order Processed"; "Package Picked Up"; "Departed Origin Facility";
   "In Transit"; "Arrived at Sorting Facility"; "Departed Sorting Facility";
   "Arrived at Destination Facility"; "Out for Delivery"].

(** * Properties *)

(** ** The date functions on known dates *)

Example getDay_epoch : getDay (tz:=UTC) 0 = 4.
Proof. reflexivity. Qed.

(** 03:00 UTC on 1 January 1970 is still Wednesday five hours west. *)
Example getDay_west :
  getDay (tz:={| tzOffset := -18000000 |}) 10800000 = 3.
Proof. reflexivity. Qed.

Example civilFromDays_leap_day : civilFromDays 19782 = (2024, 2, 29).
Proof. reflexivity. Qed.

Example daysFromCivil_leap_day : daysFromCivil 2024 2 29 = 19782.
Proof. reflexivity. Qed.

Example setFullYear_leap_day :
  toLocaleDateString (tz:=UTC) (setFullYear (tz:=UTC) (19782 * msPerDay + 5) 2025)
  = "3/1/2025".
Proof. vm_compute. reflexivity. Qed.

(** Friday 2 January 1970 plus one business day is Monday 5 January. *)
Example addBusinessDays_over_weekend :
  addBusinessDays (tz:=UTC) (1 * msPerDay) 1 = 4 * msPerDay.
Proof. vm_compute. reflexivity. Qed.

Example subtractBusinessDays_over_weekend :
  subtractBusinessDays (tz:=UTC) (4 * msPerDay) 1 = 1 * msPerDay.
Proof. vm_compute. reflexivity. Qed.

Example generateRealisticTime_afternoon :
  fst (generateRealisticTime 0 "Delivered" (fun i => (i * 7 + 3)%nat)) = "1:10 PM".
Proof. vm_compute. reflexivity. Qed.

(** ** The business-day calculator *)

Section BusinessDays.
Context {tz : TimeZone}.

Lemma shiftDate_0 d : shiftDate d 0 = d.
Proof. unfold shiftDate. lia. Qed.

Lemma shiftDate_shiftDate d a b : shiftDate (shiftDate d a) b = shiftDate d (a + b).
Proof. unfold shiftDate. lia. Qed.

Lemma getDay_shift d k : getDay (shiftDate d k) = (getDay d + k) mod 7.
Proof.
  unfold getDay. rewrite localDay_shift.
  replace (localDay d + k + 4) with (localDay d + 4 + k) by ring.
  rewrite Zplus_mod_idemp_l. reflexivity.
Qed.

Lemma getDay_cases d :
  getDay d = 0 \/ getDay d = 1 \/ getDay d = 2 \/ getDay d = 3 \/
  getDay d = 4 \/ getDay d = 5 \/ getDay d = 6.
Proof. pose proof (getDay_range d). lia. Qed.

(** One turn of each loop. *)
Lemma addBusinessDays_loop_eq r a n :
  addBusinessDays_loop r a n =
  if (a <? n)%nat then
    if notWeekend (shiftDate r 1)
    then addBusinessDays_loop (shiftDate r 1) (S a) n
    else addBusinessDays_loop (shiftDate r 1) a n
  else r.
Proof.
  apply (addBusinessDays_loop_elim (fun r a n res =>
    res = if (a <? n)%nat then
            if notWeekend (shiftDate r 1)
            then addBusinessDays_loop (shiftDate r 1) (S a) n
            else addBusinessDays_loop (shiftDate r 1) a n
          else r)); cbv zeta.
  - intros ? ? ? e _. rewrite e. reflexivity.
  - intros ? e ? ? Hlt _ _ _. rewrite Hlt, e. reflexivity.
  - intros ? e ? ? Hlt _ _ _. rewrite Hlt, e. reflexivity.
Qed.

Lemma subtractBusinessDays_loop_eq r a n :
  subtractBusinessDays_loop r a n =
  if (a <? n)%nat then
    if notWeekend (shiftDate r (-1))
    then subtractBusinessDays_loop (shiftDate r (-1)) (S a) n
    else subtractBusinessDays_loop (shiftDate r (-1)) a n
  else r.
Proof.
  apply (subtractBusinessDays_loop_elim (fun r a n res =>
    res = if (a <? n)%nat then
            if notWeekend (shiftDate r (-1))
            then subtractBusinessDays_loop (shiftDate r (-1)) (S a) n
            else subtractBusinessDays_loop (shiftDate r (-1)) a n
          else r)); cbv zeta.
  - intros ? ? ? e _. rewrite e. reflexivity.
  - intros ? e ? ? Hlt _ _ _. rewrite Hlt, e. reflexivity.
  - intros ? e ? ? Hlt _ _ _. rewrite Hlt, e. reflexivity.
Qed.

(** Induction along the runs of the loops. *)
Lemma addBusinessDays_loop_run (P : Date -> nat -> nat -> Date -> Prop) :
  (forall r a n, (n <= a)%nat -> P r a n r) ->
  (forall r a n, (a < n)%nat -> notWeekend (shiftDate r 1) = true ->
     P (shiftDate r 1) (S a) n (addBusinessDays_loop (shiftDate r 1) (S a) n) ->
     P r a n (addBusinessDays_loop (shiftDate r 1) (S a) n)) ->
  (forall r a n, (a < n)%nat -> notWeekend (shiftDate r 1) = false ->
     P (shiftDate r 1) a n (addBusinessDays_loop (shiftDate r 1) a n) ->
     P r a n (addBusinessDays_loop (shiftDate r 1) a n)) ->
  forall r a n, P r a n (addBusinessDays_loop r a n).
Proof.
  intros Hdone Hcount Hskip.
  apply (addBusinessDays_loop_elim P); cbv zeta.
  - intros r a n e _. apply Hdone. apply Nat.ltb_ge. exact e.
  - intros r e a n Hlt IH _ _. apply Hcount; auto. apply Nat.ltb_lt. exact Hlt.
  - intros r e a n Hlt IH _ _. apply Hskip; auto. apply Nat.ltb_lt. exact Hlt.
Qed.

Lemma subtractBusinessDays_loop_run (P : Date -> nat -> nat -> Date -> Prop) :
  (forall r a n, (n <= a)%nat -> P r a n r) ->
  (forall r a n, (a < n)%nat -> notWeekend (shiftDate r (-1)) = true ->
     P (shiftDate r (-1)) (S a) n
       (subtractBusinessDays_loop (shiftDate r (-1)) (S a) n) ->
     P r a n (subtractBusinessDays_loop (shiftDate r (-1)) (S a) n)) ->
  (forall r a n, (a < n)%nat -> notWeekend (shiftDate r (-1)) = false ->
     P (shiftDate r (-1)) a n (subtractBusinessDays_loop (shiftDate r (-1)) a n) ->
     P r a n (subtractBusinessDays_loop (shiftDate r (-1)) a n)) ->
  forall r a n, P r a n (subtractBusinessDays_loop r a n).
Proof.
  intros Hdone Hcount Hskip.
  apply (subtractBusinessDays_loop_elim P); cbv zeta.
  - intros r a n e _. apply Hdone. apply Nat.ltb_ge. exact e.
  - intros r e a n Hlt IH _ _. apply Hcount; auto. apply Nat.ltb_lt. exact Hlt.
  - intros r e a n Hlt IH _ _. apply Hskip; auto. apply Nat.ltb_lt. exact Hlt.
Qed.

Lemma addBusinessDays_loop_done r a n :
  (n <= a)%nat -> addBusinessDays_loop r a n = r.
Proof.
  intros Hle. rewrite addBusinessDays_loop_eq.
  apply Nat.ltb_ge in Hle. rewrite Hle. reflexivity.
Qed.

Lemma subtractBusinessDays_loop_done r a n :
  (n <= a)%nat -> subtractBusinessDays_loop r a n = r.
Proof.
  intros Hle. rewrite subtractBusinessDays_loop_eq.
  apply Nat.ltb_ge in Hle. rewrite Hle. reflexivity.
Qed.

Lemma addBusinessDays_0 d : addBusinessDays d 0 = d.
Proof. apply addBusinessDays_loop_done. lia. Qed.

Lemma subtractBusinessDays_0 d : subtractBusinessDays d 0 = d.
Proof. apply subtractBusinessDays_loop_done. lia. Qed.

(** The loops stop on a business day once they have run. *)
Lemma addBusinessDays_loop_lands r a n :
  (a < n)%nat -> notWeekend (addBusinessDays_loop r a n) = true.
Proof.
  revert r a n. apply (addBusinessDays_loop_run (fun r a n res =>
    (a < n)%nat -> notWeekend res = true)).
  - intros; lia.
  - intros r a n Hlt Hw IH _.
    destruct (Nat.eq_dec (S a) n) as [->|Hne].
    + rewrite addBusinessDays_loop_done by lia. exact Hw.
    + apply IH. lia.
  - intros r a n Hlt Hw IH _. apply IH. exact Hlt.
Qed.

Lemma subtractBusinessDays_loop_lands r a n :
  (a < n)%nat -> notWeekend (subtractBusinessDays_loop r a n) = true.
Proof.
  revert r a n. apply (subtractBusinessDays_loop_run (fun r a n res =>
    (a < n)%nat -> notWeekend res = true)).
  - intros; lia.
  - intros r a n Hlt Hw IH _.
    destruct (Nat.eq_dec (S a) n) as [->|Hne].
    + rewrite subtractBusinessDays_loop_done by lia. exact Hw.
    + apply IH. lia.
  - intros r a n Hlt Hw IH _. apply IH. exact Hlt.
Qed.

(** Only the number of days still to count matters. *)
Lemma addBusinessDays_loop_S r a n :
  addBusinessDays_loop r (S a) (S n) = addBusinessDays_loop r a n.
Proof.
  revert r a n. apply (addBusinessDays_loop_run (fun r a n res =>
    addBusinessDays_loop r (S a) (S n) = res)).
  - intros r a n Hle. apply addBusinessDays_loop_done. lia.
  - intros r a n Hlt Hw IH. rewrite addBusinessDays_loop_eq.
    replace (S a <? S n)%nat with true by (symmetry; apply Nat.ltb_lt; lia).
    rewrite Hw. exact IH.
  - intros r a n Hlt Hw IH. rewrite addBusinessDays_loop_eq.
    replace (S a <? S n)%nat with true by (symmetry; apply Nat.ltb_lt; lia).
    rewrite Hw. exact IH.
Qed.

Lemma subtractBusinessDays_loop_S r a n :
  subtractBusinessDays_loop r (S a) (S n) = subtractBusinessDays_loop r a n.
Proof.
  revert r a n. apply (subtractBusinessDays_loop_run (fun r a n res =>
    subtractBusinessDays_loop r (S a) (S n) = res)).
  - intros r a n Hle. apply subtractBusinessDays_loop_done. lia.
  - intros r a n Hlt Hw IH. rewrite subtractBusinessDays_loop_eq.
    replace (S a <? S n)%nat with true by (symmetry; apply Nat.ltb_lt; lia).
    rewrite Hw. exact IH.
  - intros r a n Hlt Hw IH. rewrite subtractBusinessDays_loop_eq.
    replace (S a <? S n)%nat with true by (symmetry; apply Nat.ltb_lt; lia).
    rewrite Hw. exact IH.
Qed.

(** Counting [S n] days is moving to the next business day, then counting
    [n]. *)
Lemma addBusinessDays_S d n :
  addBusinessDays d (S n) = addBusinessDays (addBusinessDays d 1) n.
Proof.
  unfold addBusinessDays.
  enough (Hgen : forall r a k, a = 0%nat -> k = 1%nat ->
            addBusinessDays_loop r 0 (S n) =
            addBusinessDays_loop (addBusinessDays_loop r a k) 0 n)
    by (apply Hgen; reflexivity).
  apply (addBusinessDays_loop_run (fun r a k res =>
    a = 0%nat -> k = 1%nat ->
    addBusinessDays_loop r 0 (S n) = addBusinessDays_loop res 0 n)).
  - intros; lia.
  - intros r a k _ Hw _ -> ->.
    rewrite (addBusinessDays_loop_eq r 0 (S n)). simpl. rewrite Hw.
    rewrite addBusinessDays_loop_S.
    rewrite (addBusinessDays_loop_done _ 1 1) by lia. reflexivity.
  - intros r a k _ Hw IH -> ->.
    rewrite (addBusinessDays_loop_eq r 0 (S n)). simpl. rewrite Hw.
    apply IH; reflexivity.
Qed.

Lemma subtractBusinessDays_S d n :
  subtractBusinessDays d (S n) = subtractBusinessDays (subtractBusinessDays d 1) n.
Proof.
  unfold subtractBusinessDays.
  enough (Hgen : forall r a k, a = 0%nat -> k = 1%nat ->
            subtractBusinessDays_loop r 0 (S n) =
            subtractBusinessDays_loop (subtractBusinessDays_loop r a k) 0 n)
    by (apply Hgen; reflexivity).
  apply (subtractBusinessDays_loop_run (fun r a k res =>
    a = 0%nat -> k = 1%nat ->
    subtractBusinessDays_loop r 0 (S n) = subtractBusinessDays_loop res 0 n)).
  - intros; lia.
  - intros r a k _ Hw _ -> ->.
    rewrite (subtractBusinessDays_loop_eq r 0 (S n)). simpl. rewrite Hw.
    rewrite subtractBusinessDays_loop_S.
    rewrite (subtractBusinessDays_loop_done _ 1 1) by lia. reflexivity.
  - intros r a k _ Hw IH -> ->.
    rewrite (subtractBusinessDays_loop_eq r 0 (S n)). simpl. rewrite Hw.
    apply IH; reflexivity.
Qed.

Lemma addBusinessDays_add d n m :
  addBusinessDays d (n + m) = addBusinessDays (addBusinessDays d n) m.
Proof.
  revert d. induction n as [|n IH]; intros d; simpl.
  - rewrite addBusinessDays_0. reflexivity.
  - rewrite addBusinessDays_S, IH, <- addBusinessDays_S. reflexivity.
Qed.

Lemma addBusinessDays_succ d n :
  addBusinessDays d (S n) = addBusinessDays (addBusinessDays d n) 1.
Proof. rewrite <- addBusinessDays_add. f_equal. lia. Qed.

(** Counting business days. *)
Lemma length_filter_map_S (f : nat -> bool) (l : list nat) :
  length (List.filter f (map S l)) = length (List.filter (fun i => f (S i)) l).
Proof.
  induction l as [|x l IH]; simpl; [reflexivity|].
  destruct (f (S x)); simpl; rewrite IH; reflexivity.
Qed.

Lemma businessDaysWithin_S d k :
  businessDaysWithin d (S k) =
  ((if notWeekend (shiftDate d 1) then 1 else 0)
   + businessDaysWithin (shiftDate d 1) k)%nat.
Proof.
  unfold businessDaysWithin.
  change (seq 1 (S k)) with (1%nat :: seq 2 k).
  rewrite <- (seq_shift k 1), <- List.seq_shift. simpl List.filter.
  change (Z.of_nat 1) with 1.
  assert (Htail :
    length (List.filter (fun i => notWeekend (shiftDate d (Z.of_nat i)))
              (map S (seq 1 k))) =
    length (List.filter
              (fun i => notWeekend (shiftDate (shiftDate d 1) (Z.of_nat i)))
              (seq 1 k))).
  { rewrite length_filter_map_S. f_equal. apply List.filter_ext.
    intros i. rewrite shiftDate_shiftDate. do 2 f_equal. lia. }
  rewrite List.seq_shift.
  destruct (notWeekend (shiftDate d 1)); simpl; rewrite <- Htail;
    rewrite <- List.seq_shift; reflexivity.
Qed.

Lemma addBusinessDays_loop_count r a n :
  (a <= n)%nat ->
  exists k : nat,
    addBusinessDays_loop r a n = shiftDate r (Z.of_nat k) /\
    businessDaysWithin r k = (n - a)%nat.
Proof.
  revert r a n. apply (addBusinessDays_loop_run (fun r a n res =>
    (a <= n)%nat ->
    exists k : nat, res = shiftDate r (Z.of_nat k) /\
                    businessDaysWithin r k = (n - a)%nat)).
  - intros r a n Hge Hle. exists 0%nat. split.
    + rewrite shiftDate_0. reflexivity.
    + unfold businessDaysWithin. simpl. lia.
  - intros r a n Hlt Hw IH _. destruct IH as (k & Hk & Hc); [lia|].
    exists (S k). split.
    + rewrite Hk, shiftDate_shiftDate. f_equal. lia.
    + rewrite businessDaysWithin_S, Hw, Hc. lia.
  - intros r a n Hlt Hw IH _. destruct IH as (k & Hk & Hc); [lia|].
    exists (S k). split.
    + rewrite Hk, shiftDate_shiftDate. f_equal. lia.
    + rewrite businessDaysWithin_S, Hw, Hc. lia.
Qed.

Lemma notWeekend_iff d : notWeekend d = true <-> 1 <= getDay d <= 5.
Proof.
  unfold notWeekend. pose proof (getDay_range d).
  rewrite andb_true_iff, !negb_true_iff, !Z.eqb_neq. lia.
Qed.

Lemma notWeekend_shift d k :
  notWeekend (shiftDate d k) =
  negb ((getDay d + k) mod 7 =? 0) && negb ((getDay d + k) mod 7 =? 6).
Proof. unfold notWeekend. rewrite getDay_shift. reflexivity. Qed.

(** Moving by one business day. *)
Lemma addBusinessDays_1 d :
  addBusinessDays d 1 =
  if notWeekend (shiftDate d 1) then shiftDate d 1
  else addBusinessDays (shiftDate d 1) 1.
Proof.
  unfold addBusinessDays. rewrite addBusinessDays_loop_eq at 1. simpl.
  rewrite (addBusinessDays_loop_done _ 1 1) by lia. reflexivity.
Qed.

Lemma subtractBusinessDays_1 d :
  subtractBusinessDays d 1 =
  if notWeekend (shiftDate d (-1)) then shiftDate d (-1)
  else subtractBusinessDays (shiftDate d (-1)) 1.
Proof.
  unfold subtractBusinessDays. rewrite subtractBusinessDays_loop_eq at 1. simpl.
  rewrite (subtractBusinessDays_loop_done _ 1 1) by lia. reflexivity.
Qed.

Ltac weekday E :=
  repeat (rewrite ?shiftDate_shiftDate; rewrite notWeekend_shift, E;
          cbn [Z.add Z.pos_sub Z.succ_double Z.pred_double Z.double Z.opp
               Pos.add Pos.succ Pos.pred_double];
          match goal with
          | |- context [negb (?a mod 7 =? 0) && negb (?a mod 7 =? 6)] =>
              let b := eval vm_compute in
                (negb (a mod 7 =? 0) && negb (a mod 7 =? 6)) in
              change (negb (a mod 7 =? 0) && negb (a mod 7 =? 6)) with b
          end; cbv iota).

Lemma add_after_subtract_1 d :
  notWeekend d = true -> addBusinessDays (subtractBusinessDays d 1) 1 = d.
Proof.
  intros Hd. pose proof (proj1 (notWeekend_iff d) Hd) as Hr.
  assert (getDay d = 1 \/ getDay d = 2 \/ getDay d = 3 \/ getDay d = 4 \/
          getDay d = 5) as Hc by lia.
  destruct Hc as [E|[E|[E|[E|E]]]].
  - rewrite subtractBusinessDays_1. weekday E.
    rewrite subtractBusinessDays_1. weekday E.
    rewrite subtractBusinessDays_1. weekday E.
    rewrite addBusinessDays_1. weekday E.
    rewrite addBusinessDays_1. weekday E.
    rewrite addBusinessDays_1. weekday E.
    apply shiftDate_0.
  - rewrite subtractBusinessDays_1. weekday E.
    rewrite addBusinessDays_1. weekday E. apply shiftDate_0.
  - rewrite subtractBusinessDays_1. weekday E.
    rewrite addBusinessDays_1. weekday E. apply shiftDate_0.
  - rewrite subtractBusinessDays_1. weekday E.
    rewrite addBusinessDays_1. weekday E. apply shiftDate_0.
  - rewrite subtractBusinessDays_1. weekday E.
    rewrite addBusinessDays_1. weekday E. apply shiftDate_0.
Qed.

(** The forward loop never moves back. *)
Lemma addBusinessDays_loop_ge r a n : r <= addBusinessDays_loop r a n.
Proof.
  revert r a n. apply (addBusinessDays_loop_run (fun r a n res => r <= res)).
  - intros; lia.
  - intros r a n _ _ IH. unfold shiftDate, msPerDay in *. lia.
  - intros r a n _ _ IH. unfold shiftDate, msPerDay in *. lia.
Qed.

Lemma addBusinessDays_loop_gt r a n :
  (a < n)%nat -> r < addBusinessDays_loop r a n.
Proof.
  intros Hlt. rewrite addBusinessDays_loop_eq.
  apply Nat.ltb_lt in Hlt. rewrite Hlt.
  destruct (notWeekend (shiftDate r 1));
    match goal with
    | |- _ < addBusinessDays_loop ?x ?y ?z =>
        pose proof (addBusinessDays_loop_ge x y z)
    end; unfold shiftDate, msPerDay in *; lia.
Qed.

Lemma subtractBusinessDays_loop_le r a n : subtractBusinessDays_loop r a n <= r.
Proof.
  revert r a n. apply (subtractBusinessDays_loop_run (fun r a n res => res <= r)).
  - intros; lia.
  - intros r a n _ _ IH. unfold shiftDate, msPerDay in *. lia.
  - intros r a n _ _ IH. unfold shiftDate, msPerDay in *. lia.
Qed.

Lemma addBusinessDays_ge d n : d <= addBusinessDays d n.
Proof. apply addBusinessDays_loop_ge. Qed.

Lemma addBusinessDays_gt d n : (0 < n)%nat -> d < addBusinessDays d n.
Proof. apply addBusinessDays_loop_gt. Qed.

Lemma subtractBusinessDays_le d n : subtractBusinessDays d n <= d.
Proof. apply subtractBusinessDays_loop_le. Qed.

End BusinessDays.

(** C5 (amended): [addBusinessDays d 0] is [d] itself; for [n >= 1] the
    result of [addBusinessDays d n] falls neither on a Sunday nor on a
    Saturday; and for every [n] the result lies a whole number [k] of
    calendar days after [d], with exactly [n] business days among the
    days strictly after [d] up to and including the result. *)
Theorem addBusinessDays_lands_and_counts {tz : TimeZone} (d : Date) (n : nat) :
  match n with
  | O => addBusinessDays d n = d
  | S _ => getDay (addBusinessDays d n) <> 0 /\ getDay (addBusinessDays d n) <> 6
  end /\
  exists k : nat,
    addBusinessDays d n = shiftDate d (Z.of_nat k) /\ businessDaysWithin d k = n.
Proof.
  split.
  - destruct n as [|n].
    + apply addBusinessDays_0.
    + assert (Hw : notWeekend (addBusinessDays d (S n)) = true)
        by (apply addBusinessDays_loop_lands; lia).
      apply notWeekend_iff in Hw. lia.
  - destruct (addBusinessDays_loop_count d 0 n) as (k & Hk & Hc); [lia|].
    exists k. split; [exact Hk|]. rewrite Hc. lia.
Qed.

(** C5, as stated, fails for [n = 0] on a weekend day: 3 January 1970 was
    a Saturday, and adding zero business days returns it unchanged. *)
Lemma addBusinessDays_zero_keeps_saturday :
  addBusinessDays (tz:=UTC) 172800000 0 = 172800000 /\
  getDay (tz:=UTC) (addBusinessDays (tz:=UTC) 172800000 0) = 6.
Proof. split; vm_compute; reflexivity. Qed.

(** C10: [subtractBusinessDays d 0] is [d] itself, and for [n >= 1] the
    result of [subtractBusinessDays d n] falls neither on a Sunday nor on
    a Saturday. *)
Theorem subtractBusinessDays_lands {tz : TimeZone} (d : Date) (n : nat) :
  match n with
  | O => subtractBusinessDays d n = d
  | S _ =>
      getDay (subtractBusinessDays d n) <> 0 /\
      getDay (subtractBusinessDays d n) <> 6
  end.
Proof.
  destruct n as [|n].
  - apply subtractBusinessDays_0.
  - assert (Hw : notWeekend (subtractBusinessDays d (S n)) = true)
      by (apply subtractBusinessDays_loop_lands; lia).
    apply notWeekend_iff in Hw. lia.
Qed.

(** C6: on a date that falls on a business day (Monday to Friday),
    adding [n] business days to the result of subtracting [n] business
    days gives the date back. *)
Theorem addBusinessDays_subtractBusinessDays {tz : TimeZone} (d : Date) (n : nat) :
  1 <= getDay d <= 5 ->
  addBusinessDays (subtractBusinessDays d n) n = d.
Proof.
  revert d. induction n as [|n IH]; intros d Hd.
  - rewrite subtractBusinessDays_0. apply addBusinessDays_0.
  - rewrite subtractBusinessDays_S, addBusinessDays_succ, IH.
    + apply add_after_subtract_1. apply notWeekend_iff. exact Hd.
    + apply notWeekend_iff. apply subtractBusinessDays_loop_lands. lia.
Qed.

(** Monday 5 January 1970, three business days back and forth. *)
Lemma addBusinessDays_subtractBusinessDays_witness :
  1 <= getDay (tz:=UTC) 345600000 <= 5 /\
  addBusinessDays (tz:=UTC) (subtractBusinessDays (tz:=UTC) 345600000 3) 3
  = 345600000.
Proof.
  assert (Hd : 1 <= getDay (tz:=UTC) 345600000 <= 5)
    by (vm_compute; split; discriminate).
  split; [exact Hd|].
  apply (addBusinessDays_subtractBusinessDays (tz:=UTC) 345600000 3 Hd).
Defined.




(** ** The carrier classifier *)

Section Matching.

Lemma nullable_lang r : nullable r = true <-> lang r [].
Proof.
  induction r as [| | c | lo hi | r1 IH1 r2 IH2 | r1 IH1 r2 IH2]; simpl.
  - split; [discriminate | tauto].
  - split; auto.
  - split; discriminate.
  - split; [discriminate | intros (c & Hc & _); discriminate].
  - rewrite andb_true_iff, IH1, IH2. split.
    + intros [H1 H2]. exists [], []. auto.
    + intros (w1 & w2 & Hw & H1 & H2).
      symmetry in Hw. apply app_eq_nil in Hw as [-> ->]. auto.
  - rewrite orb_true_iff, IH1, IH2. tauto.
Qed.

Lemma deriv_lang c r : forall w, lang (deriv c r) w <-> lang r (c :: w).
Proof.
  induction r as [| | c' | lo hi | r1 IH1 r2 IH2 | r1 IH1 r2 IH2]; intros w; simpl.
  - tauto.
  - split; [tauto | discriminate].
  - destruct (Ascii.eqb_spec c c') as [->|Hne]; simpl.
    + split; [intros ->; reflexivity | intros [= ->]; reflexivity].
    + split; [tauto | intros [= -> _]; congruence].
  - destruct (inRange lo hi c) eqn:Hin; simpl.
    + split.
      * intros ->. exists c. auto.
      * intros (c0 & [= -> ->] & _). reflexivity.
    + split; [tauto|]. intros (c0 & [= -> ->] & Hc). congruence.
  - assert (Hhead : (exists w1 w2, w = w1 ++ w2 /\ lang (deriv c r1) w1 /\ lang r2 w2)
                    <-> (exists w1 w2, c :: w = (c :: w1) ++ w2 /\
                                       lang r1 (c :: w1) /\ lang r2 w2)).
    { split; intros (w1 & w2 & Hw & H1 & H2); exists w1, w2.
      - subst w. rewrite <- IH1. auto.
      - injection Hw as ->. rewrite IH1. auto. }
    destruct (nullable r1) eqn:Hn; simpl.
    + rewrite IH2, Hhead. split.
      * intros [(w1 & w2 & Hw & H1 & H2) | H2].
        -- exists (c :: w1), w2. auto.
        -- exists [], (c :: w). repeat split; auto. apply nullable_lang. exact Hn.
      * intros (w1 & w2 & Hw & H1 & H2). destruct w1 as [|a w1].
        -- right. simpl in Hw. rewrite Hw. exact H2.
        -- left. injection Hw as <- ->. exists w1, w2. auto.
    + rewrite Hhead. split.
      * intros (w1 & w2 & Hw & H1 & H2). exists (c :: w1), w2. auto.
      * intros (w1 & w2 & Hw & H1 & H2). destruct w1 as [|a w1].
        -- apply nullable_lang in H1. congruence.
        -- injection Hw as <- ->. exists w1, w2. auto.
  - rewrite IH1, IH2. tauto.
Qed.

(** The matcher decides membership in the language. *)
Lemma matches_lang w : forall r, matches r w = true <-> lang r w.
Proof.
  induction w as [|c w IH]; intros r; simpl.
  - apply nullable_lang.
  - rewrite IH. apply deriv_lang.
Qed.

Lemma lang_lits s w : lang (lits s) w <-> w = list_ascii_of_string s.
Proof.
  revert w. induction s as [|c s IH]; intros w; simpl.
  - tauto.
  - split.
    + intros (w1 & w2 & -> & -> & H2). apply IH in H2. subst. reflexivity.
    + intros ->. exists [c], (list_ascii_of_string s). repeat split. apply IH.
      reflexivity.
Qed.

Lemma stripPrefix_spec p : forall w t, stripPrefix p w = Some t <-> w = p ++ t.
Proof.
  induction p as [|a p IH]; intros w t; simpl.
  - split; [intros [= ->]; reflexivity | intros ->; reflexivity].
  - destruct w as [|b w].
    + split; discriminate.
    + destruct (Ascii.eqb_spec a b) as [->|Hne].
      * rewrite IH. split; [intros ->; reflexivity | intros [= ->]; reflexivity].
      * split; [discriminate | intros [= -> _]; congruence].
Qed.

Lemma lang_seq_lits s r w :
  lang (Seq (lits s) r) w <->
  exists t, stripPrefix (list_ascii_of_string s) w = Some t /\ lang r t.
Proof.
  simpl. split.
  - intros (w1 & w2 & -> & H1 & H2). apply lang_lits in H1. subst w1.
    exists w2. split; [apply stripPrefix_spec; reflexivity | exact H2].
  - intros (t & Hp & Ht). apply stripPrefix_spec in Hp. subst w.
    exists (list_ascii_of_string s), t. repeat split; auto.
    apply lang_lits. reflexivity.
Qed.

Lemma classOf_digit : classOf isDigit digit.
Proof. intros w. simpl. reflexivity. Qed.

Lemma classOf_upperAlnum : classOf isUpperAlnum (Or (Range "0" "9") (Range "A" "Z")).
Proof.
  intros w. simpl. unfold isUpperAlnum, isDigit. split.
  - intros [(c & -> & Hc) | (c & -> & Hc)]; exists c; rewrite Hc;
      split; auto using orb_true_r.
  - intros (c & -> & Hc). apply orb_true_iff in Hc as [Hc|Hc]; [left|right];
      exists c; auto.
Qed.

Lemma lang_times P r n : classOf P r ->
  forall w, lang (times n r) w <-> length w = n /\ forallb P w = true.
Proof.
  intros Hr. induction n as [|n IH]; intros w; simpl.
  - split.
    + intros ->. auto.
    + intros [Hl _]. destruct w; [reflexivity | discriminate].
  - split.
    + intros (w1 & w2 & -> & H1 & H2). apply Hr in H1 as (c & -> & Hc).
      apply IH in H2 as [Hl Hf]. simpl. rewrite Hc, Hf, Hl. auto.
    + intros [Hl Hf]. destruct w as [|c w]; [discriminate|].
      simpl in Hf. apply andb_true_iff in Hf as [Hc Hf].
      exists [c], w. repeat split.
      * apply Hr. exists c. auto.
      * apply IH. simpl in Hl. split; [lia | exact Hf].
Qed.

Lemma lang_upto P r n : classOf P r ->
  forall w, lang (upto n r) w <-> (length w <= n)%nat /\ forallb P w = true.
Proof.
  intros Hr. induction n as [|n IH]; intros w; simpl.
  - split.
    + intros ->. auto.
    + intros [Hl _]. destruct w; [reflexivity | simpl in Hl; lia].
  - split.
    + intros [-> | (w1 & w2 & -> & H1 & H2)].
      * simpl. split; [lia | reflexivity].
      * apply Hr in H1 as (c & -> & Hc). apply IH in H2 as [Hl Hf].
        simpl. rewrite Hc, Hf. split; [lia | reflexivity].
    + intros [Hl Hf]. destruct w as [|c w]; [left; reflexivity | right].
      simpl in Hf. apply andb_true_iff in Hf as [Hc Hf].
      exists [c], w. repeat split.
      * apply Hr. exists c. auto.
      * apply IH. simpl in Hl. split; [lia | exact Hf].
Qed.

Lemma lang_between P r lo hi : classOf P r -> (lo <= hi)%nat ->
  forall w, lang (between lo hi r) w <->
            (lo <= length w <= hi)%nat /\ forallb P w = true.
Proof.
  intros Hr Hle w. unfold between. simpl. split.
  - intros (w1 & w2 & -> & H1 & H2).
    apply (lang_times P r lo Hr) in H1 as [Hl1 Hf1].
    apply (lang_upto P r (hi - lo) Hr) in H2 as [Hl2 Hf2].
    rewrite length_app, forallb_app, Hf1, Hf2. split; [lia | reflexivity].
  - intros [Hl Hf]. exists (firstn lo w), (skipn lo w).
    rewrite <- (firstn_skipn lo w) in Hf. rewrite forallb_app in Hf.
    apply andb_true_iff in Hf as [Hf1 Hf2].
    split; [symmetry; apply firstn_skipn|]. split.
    + apply (lang_times P r lo Hr). split; [|exact Hf1].
      rewrite length_firstn. lia.
    + apply (lang_upto P r (hi - lo) Hr). split; [|exact Hf2].
      rewrite length_skipn. lia.
Qed.

Lemma lang_alts rs w : lang (alts rs) w <-> exists r, In r rs /\ lang r w.
Proof.
  induction rs as [|r rs IH]; simpl.
  - split; [tauto | intros (r & [] & _)].
  - rewrite IH. split.
    + intros [Hr | (r' & Hin & Hr')]; [exists r | exists r']; auto.
    + intros (r' & [<- | Hin] & Hr'); [left | right; exists r']; auto.
Qed.

(** Each pattern of the classifier recognises the shape the
    specification gives for it. *)
Lemma test_upsPattern s : test upsPattern s = upsShape (list_ascii_of_string s).
Proof.
  apply eq_iff_eq_true. unfold test, upsPattern, upsShape.
  rewrite matches_lang, lang_seq_lits. split.
  - intros (t & -> & Ht).
    apply (lang_times isUpperAlnum _ 16 classOf_upperAlnum) in Ht as [Hl Hf].
    rewrite Hf, Hl. reflexivity.
  - destruct (stripPrefix _ _) as [t|]; [|discriminate].
    intros Ht. apply andb_true_iff in Ht as [Hl Hf]. apply Nat.eqb_eq in Hl.
    exists t. split; [reflexivity|].
    apply (lang_times isUpperAlnum _ 16 classOf_upperAlnum). auto.
Qed.

Lemma test_amazonPattern s :
  test amazonPattern s = amazonShape (list_ascii_of_string s).
Proof.
  apply eq_iff_eq_true. unfold test, amazonPattern, amazonShape.
  rewrite matches_lang, lang_seq_lits. split.
  - intros (t & -> & Ht).
    apply (lang_times isDigit _ 12 classOf_digit) in Ht as [Hl Hf].
    rewrite Hf, Hl. reflexivity.
  - destruct (stripPrefix _ _) as [t|]; [|discriminate].
    intros Ht. apply andb_true_iff in Ht as [Hl Hf]. apply Nat.eqb_eq in Hl.
    exists t. split; [reflexivity|].
    apply (lang_times isDigit _ 12 classOf_digit). auto.
Qed.

Lemma lang_digit_lengths ns w :
  lang (alts (map (fun n => times n digit) ns)) w <->
  forallb isDigit w && existsb (Nat.eqb (length w)) ns = true.
Proof.
  rewrite lang_alts, andb_true_iff, existsb_exists. split.
  - intros (r & Hin & Hr). apply in_map_iff in Hin as (n & <- & Hn).
    apply (lang_times isDigit _ n classOf_digit) in Hr as [Hl Hf].
    split; [exact Hf|]. exists n. split; [exact Hn | apply Nat.eqb_eq; exact Hl].
  - intros (Hf & n & Hn & Hl). apply Nat.eqb_eq in Hl.
    exists (times n digit). split.
    + apply in_map_iff. exists n. auto.
    + apply (lang_times isDigit _ n classOf_digit). auto.
Qed.

Lemma test_fedexPattern s : test fedexPattern s = fedexShape (list_ascii_of_string s).
Proof.
  apply eq_iff_eq_true. unfold test, fedexShape. rewrite matches_lang.
  apply (lang_digit_lengths [12; 14; 15; 20; 22]%nat).
Qed.

Lemma test_dhlPattern s : test dhlPattern s = dhlShape (list_ascii_of_string s).
Proof.
  apply eq_iff_eq_true. unfold test, dhlShape. rewrite matches_lang.
  apply (lang_digit_lengths [10; 11]%nat).
Qed.

Lemma test_uspsPattern s : test uspsPattern s = uspsShape (list_ascii_of_string s).
Proof.
  apply eq_iff_eq_true. unfold test, uspsPattern, uspsShape.
  fold uspsPrefixes. rewrite matches_lang, existsb_exists.
  cbn [lang]. split.
  - intros (w1 & w2 & Hw & H1 & H2).
    apply lang_alts in H1 as (r & Hin & Hr).
    apply in_map_iff in Hin as (p & <- & Hp). apply lang_lits in Hr. subst w1.
    apply (lang_between isDigit _ 18 20 classOf_digit) in H2 as [Hl Hf]; [|lia].
    exists p. split; [exact Hp|].
    apply stripPrefix_spec in Hw. rewrite Hw, Hf.
    destruct Hl as [Hl1 Hl2].
    apply Nat.leb_le in Hl1, Hl2. rewrite Hl1, Hl2. reflexivity.
  - intros (p & Hp & Ht).
    destruct (stripPrefix _ _) as [t|] eqn:Hs; [|discriminate].
    apply stripPrefix_spec in Hs.
    apply andb_true_iff in Ht as [Ht Hf]. apply andb_true_iff in Ht as [Hl1 Hl2].
    apply Nat.leb_le in Hl1, Hl2.
    exists (list_ascii_of_string p), t. split; [exact Hs|]. split.
    + apply lang_alts. exists (lits p). split.
      * apply in_map_iff. exists p. auto.
      * apply lang_lits. reflexivity.
    + apply (lang_between isDigit _ 18 20 classOf_digit); [lia|]. auto.
Qed.

Lemma upsShape_length w : upsShape w = true -> length w = 18%nat.
Proof.
  unfold upsShape. destruct (stripPrefix _ _) as [t|] eqn:Hs; [|discriminate].
  apply stripPrefix_spec in Hs. subst w. intros Ht.
  apply andb_true_iff in Ht as [Hl _]. apply Nat.eqb_eq in Hl.
  rewrite length_app, Hl. reflexivity.
Qed.

Lemma uspsShape_length w : uspsShape w = true -> (20 <= length w <= 22)%nat.
Proof.
  unfold uspsShape. rewrite existsb_exists. intros (p & Hp & Ht).
  destruct (stripPrefix _ _) as [t|] eqn:Hs; [|discriminate].
  apply stripPrefix_spec in Hs. subst w.
  apply andb_true_iff in Ht as [Ht _]. apply andb_true_iff in Ht as [Hl1 Hl2].
  apply Nat.leb_le in Hl1, Hl2. rewrite length_app.
  assert (length (list_ascii_of_string p) = 2%nat) as ->; [|lia].
  unfold uspsPrefixes in Hp. simpl in Hp.
  repeat (destruct Hp as [<- | Hp]; [reflexivity|]). destruct Hp.
Qed.

Lemma fedexShape_length w :
  fedexShape w = true -> In (length w) [12; 14; 15; 20; 22]%nat.
Proof.
  unfold fedexShape. rewrite andb_true_iff, existsb_exists.
  intros (_ & n & Hn & Hl). apply Nat.eqb_eq in Hl. rewrite Hl. exact Hn.
Qed.

(** The classifier, with each test replaced by the shape it decides. *)
Lemma detectCarrierAndGenerateUrl_by_shape s :
  detectCarrierAndGenerateUrl s =
  let w := list_ascii_of_string s in
  if upsShape w then
    mkCarrierInfo "UPS" ("https://www.ups.com/track?track=yes&trackNums=" +:+ s) "UPS"
  else if uspsShape w then
    mkCarrierInfo "USPS"
      ("https://tools.usps.com/go/TrackConfirmAction?tLabels=" +:+ s) "USPS"
  else if fedexShape w then
    mkCarrierInfo "FedEx" ("https://www.fedex.com/fedextrack/?tracknumber=" +:+ s)
      "FedEx"
  else if dhlShape w then
    mkCarrierInfo "DHL"
      ("https://www.dhl.com/us-en/home/tracking.html?tracking-id=" +:+ s) "DHL"
  else if amazonShape w then
    mkCarrierInfo "Amazon Logistics" ("https://track.amazon.com/tracking/" +:+ s)
      "Amazon"
  else
    mkCarrierInfo "Carrier" ("https://www.google.com/search?q=track+package+" +:+ s)
      "UNKNOWN".
Proof.
  unfold detectCarrierAndGenerateUrl, carriers.
  cbn [firstMatch c_pattern c_url c_name].
  rewrite test_upsPattern, test_uspsPattern, test_fedexPattern, test_dhlPattern,
    test_amazonPattern.
  cbv zeta.
  repeat match goal with |- context [if ?b then _ else _] => destruct b end;
    reflexivity.
Qed.

End Matching.

(** C4: the classifier is total and returns the first match of the
    ordered rules UPS, USPS, FedEx, DHL, Amazon; so a number of the UPS
    shape is classified UPS, a string of 14 digits FedEx, a number of both
    the USPS and the FedEx shape USPS, and a number of no shape gets the
    carrier "Carrier", the code "UNKNOWN" and a web-search link that
    embeds the number. *)
Theorem detectCarrierAndGenerateUrl_first_match (trackingNumber : string) :
  carrierCode (detectCarrierAndGenerateUrl trackingNumber)
  = classifyCode trackingNumber /\
  (upsShape (list_ascii_of_string trackingNumber) = true ->
   carrierCode (detectCarrierAndGenerateUrl trackingNumber) = "UPS") /\
  (forallb isDigit (list_ascii_of_string trackingNumber) = true ->
   length (list_ascii_of_string trackingNumber) = 14%nat ->
   carrierCode (detectCarrierAndGenerateUrl trackingNumber) = "FedEx") /\
  (uspsShape (list_ascii_of_string trackingNumber) = true ->
   fedexShape (list_ascii_of_string trackingNumber) = true ->
   carrierCode (detectCarrierAndGenerateUrl trackingNumber) = "USPS") /\
  (classifyCode trackingNumber = "UNKNOWN" ->
   detectCarrierAndGenerateUrl trackingNumber =
   {| carrier := "Carrier";
      trackingUrl :=
        "https://www.google.com/search?q=track+package+" +:+ trackingNumber;
      carrierCode := "UNKNOWN" |}).
Proof.
  rewrite detectCarrierAndGenerateUrl_by_shape. unfold classifyCode. cbv zeta.
  set (w := list_ascii_of_string trackingNumber).
  repeat split.
  - repeat match goal with |- context [if ?b then _ else _] => destruct b end;
      reflexivity.
  - intros ->. reflexivity.
  - intros Hd Hl.
    destruct (upsShape w) eqn:Hups;
      [apply upsShape_length in Hups; lia|].
    destruct (uspsShape w) eqn:Husps;
      [apply uspsShape_length in Husps; lia|].
    unfold fedexShape. rewrite Hd, Hl. reflexivity.
  - intros Husps Hfedex.
    destruct (upsShape w) eqn:Hups.
    + apply upsShape_length in Hups. apply fedexShape_length in Hfedex.
      rewrite Hups in Hfedex. simpl in Hfedex.
      repeat (destruct Hfedex as [Hfedex | Hfedex]; [discriminate|]).
      destruct Hfedex.
    + rewrite Husps. reflexivity.
  - repeat match goal with |- context [if ?b then _ else _] => destruct b end;
      try discriminate; reflexivity.
Qed.

(** The sample numbers of the specification. *)
Example detectCarrierAndGenerateUrl_samples :
  map (fun s => carrierCode (detectCarrierAndGenerateUrl s))
    ["1Z12345E0205271688"; "TBA123456789012"; "12345678901234";
     "9400111899223344556677"; "1234567890"; "not a number"]
  = ["UPS"; "Amazon"; "FedEx"; "USPS"; "DHL"; "UNKNOWN"].
Proof. vm_compute. reflexivity. Qed.

(** ** The timeline synthesizer *)

Section Timeline.
Context {tz : TimeZone}.

Lemma eventLoop_cons today sf cpd i t rest cur events s :
  eventLoop today sf cpd i (t :: rest) cur events s =
  if today <? nextEventDate i t cur then (events, s)
  else
    eventLoop today sf cpd (S i) rest (nextEventDate i t cur)
      (events ++
       [pushedEvent cpd t (nextEventDate i t cur) (fst (pickLocation sf t s))
          (fst (generateRealisticTime (nextEventDate i t cur) (tpl_status t)
                  (snd (pickLocation sf t s))))])
      (snd (generateRealisticTime (nextEventDate i t cur) (tpl_status t)
              (snd (pickLocation sf t s)))).
Proof.
  simpl. destruct (today <? nextEventDate i t cur); [reflexivity|].
  unfold bind. destruct (pickLocation sf t s) as [loc s1]. simpl.
  destruct (generateRealisticTime _ _ s1) as [time s2]. reflexivity.
Qed.

(** The loop only appends to the events it starts from. *)
Lemma eventLoop_app today sf cpd templates :
  forall i cur events s,
    fst (eventLoop today sf cpd i templates cur events s) =
    events ++ fst (eventLoop today sf cpd i templates cur [] s).
Proof.
  induction templates as [|t rest IH]; intros i cur events s.
  - simpl. rewrite app_nil_r. reflexivity.
  - rewrite !eventLoop_cons.
    destruct (today <? nextEventDate i t cur).
    + simpl. rewrite app_nil_r. reflexivity.
    + rewrite IH. rewrite (IH _ _ ([] ++ _)). rewrite <- app_assoc. reflexivity.
Qed.

(** What holds of every event a template can produce holds of every
    event of the loop. *)
Lemma eventLoop_Forall today sf cpd (Q : TrackingEvent -> Prop) templates :
  (forall t d loc time, In t templates -> d <= today ->
     (forall f, tpl_fixedDate t = Some f -> d = f) ->
     Q (pushedEvent cpd t d loc time)) ->
  forall i cur s, Forall Q (fst (eventLoop today sf cpd i templates cur [] s)).
Proof.
  induction templates as [|t rest IH]; intros HQ i cur s.
  - simpl. constructor.
  - rewrite eventLoop_cons.
    destruct (today <? nextEventDate i t cur) eqn:Hfut.
    + simpl. constructor.
    + rewrite eventLoop_app. simpl. constructor.
      * apply HQ; [left; reflexivity | apply Z.ltb_ge; exact Hfut |].
        intros f Hf. unfold nextEventDate. rewrite Hf. reflexivity.
      * apply IH. intros t' d loc time Hin. apply HQ. right. exact Hin.
Qed.

(** The events of the loop are those of the longest prefix of the
    templates whose computed dates are not after [today]. *)
Lemma eventLoop_schedule today sf cpd templates :
  forall i cur s,
  exists k : nat,
    map ev_instant (fst (eventLoop today sf cpd i templates cur [] s))
      = firstn k (scheduledDates i templates cur) /\
    map ev_status (fst (eventLoop today sf cpd i templates cur [] s))
      = firstn k (map tpl_status templates) /\
    match nth_error (scheduledDates i templates cur) k with
    | Some d => today < d
    | None => k = length templates
    end.
Proof.
  induction templates as [|t rest IH]; intros i cur s.
  - exists 0%nat. simpl. auto.
  - rewrite eventLoop_cons.
    destruct (today <? nextEventDate i t cur) eqn:Hfut.
    + exists 0%nat. simpl. repeat split. apply Z.ltb_lt. exact Hfut.
    + rewrite eventLoop_app.
      match goal with
      | |- context [eventLoop today sf cpd (S i) rest ?d [] ?s'] =>
          destruct (IH (S i) d s') as (k & Hi & Hs & Hn)
      end.
      exists (S k). simpl. rewrite Hi, Hs. repeat split.
      destruct (nth_error _ k); [exact Hn | lia].
Qed.

Lemma markLastCurrent_delivered events : markLastCurrent true events = events.
Proof. unfold markLastCurrent. rewrite andb_false_r. reflexivity. Qed.

Lemma markLastCurrent_nil isDelivered : markLastCurrent isDelivered [] = [].
Proof. reflexivity. Qed.

Lemma markLastCurrent_snoc init last :
  markLastCurrent false (init ++ [last]) = init ++ [markCurrent last].
Proof.
  unfold markLastCurrent. rewrite length_app. simpl.
  replace (0 <? length init + 1)%nat with true
    by (symmetry; apply Nat.ltb_lt; lia).
  simpl. replace (length init + 1 - 1)%nat with (length init + 0)%nat by lia.
  induction init as [|x init IH]; simpl; [reflexivity|].
  f_equal. exact IH.
Qed.

Lemma markLastCurrent_instants isDelivered events :
  map ev_instant (markLastCurrent isDelivered events) = map ev_instant events.
Proof.
  destruct isDelivered; [rewrite markLastCurrent_delivered; reflexivity|].
  destruct events as [|last init _] using rev_ind; [reflexivity|].
  rewrite markLastCurrent_snoc, !map_app. reflexivity.
Qed.

Lemma eventTemplates_shape oc label pickup facility city province s :
  exists processed d1 d2 d3 d4 d5,
    fst (eventTemplates oc label pickup facility city province s) =
    [ mkTemplate "Order Confirmed" (Some "Order Processing Center") (Some oc) None;
      mkTemplate "Order Processed" (Some "Fulfillment Center") (Some processed) None;
      mkTemplate "Label Created" (Some "Origin Facility") (Some label) None;
      mkTemplate "Package Picked Up" (Some "Local Pickup Facility")
        (Some pickup) None;
      mkTemplate "Departed Origin Facility" (Some "Origin Facility")
        None (Some 1%nat);
      mkTemplate "In Transit" None None (Some d1);
      mkTemplate "Arrived at Sorting Facility" None None (Some d2);
      mkTemplate "Departed Sorting Facility" None None (Some d3);
      mkTemplate "Arrived at Destination Facility" facility None (Some d4);
      mkTemplate "Out for Delivery" (Some (city +:+ ", " +:+ province)) None
        (Some d5) ].
Proof.
  unfold eventTemplates, getRandomBusinessDaysInterval, bind, ret.
  destruct (randomBelow 2 s) as [r s0].
  destruct (randomBelow 3 s0) as [r1 s1].
  destruct (randomBelow 3 s1) as [r2 s2].
  destruct (randomBelow 3 s2) as [r3 s3].
  destruct (randomBelow 3 s3) as [r4 s4].
  destruct (randomBelow 3 s4) as [r5 s5].
  simpl. eauto 10.
Qed.

(** The templates of a plan, with the dates of the label and the pickup
    that [planLabelAndPickup] chose. *)
Lemma planEvents_templates order city province ff cpd s :
  exists facility s1 s2,
    snd (fst (planEvents order city province ff cpd s)) =
    fst (eventTemplates order
           (fst (fst (planLabelAndPickup order ff cpd s1)))
           (snd (fst (planLabelAndPickup order ff cpd s1)))
           facility city province s2).
Proof.
  unfold planEvents, bind, ret.
  destruct (randomBelow _ s) as [r s1].
  exists (default (default [] (shippingFacilities !! "DEFAULT"))
            (shippingFacilities !! province) !! r), s1.
  destruct (planLabelAndPickup order ff cpd s1) as [dates s2]. exists s2.
  destruct (eventTemplates _ _ _ _ _ _ s2) as [templates s3]. reflexivity.
Qed.

Lemma planEvents_statuses order city province ff cpd s :
  map tpl_status (snd (fst (planEvents order city province ff cpd s)))
  = statusVocabulary.
Proof.
  destruct (planEvents_templates order city province ff cpd s)
    as (facility & s1 & s2 & ->).
  match goal with
  | |- context [eventTemplates ?a ?b ?c ?d ?e ?f ?g] =>
      destruct (eventTemplates_shape a b c d e f g)
        as (p & d1 & d2 & d3 & d4 & d5 & ->)
  end.
  reflexivity.
Qed.

(** With a custom pickup date the label is dated by it, unless it is not
    after the order date. *)
Lemma planLabelAndPickup_custom order ff custom s :
  fst (fst (planLabelAndPickup order ff (Some custom) s)) =
  if custom <=? order then addBusinessDays order 1 else custom.
Proof.
  unfold planLabelAndPickup, bind, ret.
  destruct (randomBelow 2 s) as [r s1].
  destruct (custom <=? order); reflexivity.
Qed.

Lemma appendDelivered_shape city province isDelivered deliveryDate events s :
  exists tail,
    fst (appendDelivered city province isDelivered deliveryDate events s)
      = events ++ tail /\
    map (fun e => (ev_status e, ev_instant e)) tail =
      match isDelivered, deliveryDate with
      | true, Some d => [("Delivered", d)]
      | _, _ => []
      end /\
    Forall (fun e => ev_status e = "Delivered" /\ ev_completed e = true /\
                     ev_current e = false /\ ev_isDelivered e = true) tail.
Proof.
  unfold appendDelivered.
  destruct isDelivered, deliveryDate as [d|];
    try solve [exists []; rewrite app_nil_r; simpl; auto].
  unfold bind, ret. destruct (generateRealisticTime d "Delivered" s) as [time s1].
  simpl. eexists. split; [reflexivity|]. simpl. split; [reflexivity|].
  constructor; auto.
Qed.

(** The events of the synthesizer: those of the loop, the last of them
    marked, then the Delivered event. *)
Lemma synthesizer_decompose today order city province isDelivered deliveryDate
    ff cpd s :
  exists tail,
    fst (generateRealisticTrackingEventsWithFulfillment today order city province
           isDelivered deliveryDate ff cpd s) =
    markLastCurrent isDelivered
      (fst (eventLoop today
              (fst (fst (planEvents order city province ff cpd s))) cpd 0
              (snd (fst (planEvents order city province ff cpd s))) order []
              (snd (planEvents order city province ff cpd s)))) ++ tail /\
    map (fun e => (ev_status e, ev_instant e)) tail =
      match isDelivered, deliveryDate with
      | true, Some d => [("Delivered", d)]
      | _, _ => []
      end /\
    Forall (fun e => ev_status e = "Delivered" /\ ev_completed e = true /\
                     ev_current e = false /\ ev_isDelivered e = true) tail.
Proof.
  unfold generateRealisticTrackingEventsWithFulfillment, bind.
  destruct (planEvents order city province ff cpd s) as [plan s1].
  cbn [fst snd].
  destruct (eventLoop today (fst plan) cpd 0 (snd plan) order [] s1)
    as [events s2].
  cbn [fst snd]. apply appendDelivered_shape.
Qed.

(** The flags, dates and labels of the events of the loop. *)
Lemma eventLoop_events today sf cpd templates i cur s :
  Forall (fun e => ev_completed e = true /\ ev_current e = false /\
                   ev_isDelivered e = false /\ ev_instant e <= today /\
                   In (ev_status e) (map tpl_status templates))
    (fst (eventLoop today sf cpd i templates cur [] s)).
Proof.
  apply eventLoop_Forall. intros t d loc time Hin Hd _. simpl.
  repeat split; auto. apply in_map. exact Hin.
Qed.

Lemma not_delivered_in_vocabulary st : In st statusVocabulary -> st <> "Delivered".
Proof.
  unfold statusVocabulary. simpl. intros Hin.
  repeat (destruct Hin as [<- | Hin]; [discriminate|]). destruct Hin.
Qed.

Lemma filter_current_none (l : list TrackingEvent) :
  Forall (fun e => ev_current e = false) l -> List.filter ev_current l = [].
Proof.
  induction 1 as [|e l He _ IH]; simpl; [reflexivity|]. rewrite He. exact IH.
Qed.

Lemma existsb_current_none (l : list TrackingEvent) :
  Forall (fun e => ev_current e = false) l -> existsb ev_current l = false.
Proof.
  induction 1 as [|e l He _ IH]; simpl; [reflexivity|]. rewrite He. exact IH.
Qed.

Lemma markLastCurrent_statuses isDelivered events :
  map ev_status (markLastCurrent isDelivered events) = map ev_status events.
Proof.
  destruct isDelivered; [rewrite markLastCurrent_delivered; reflexivity|].
  destruct events as [|last init _] using rev_ind; [reflexivity|].
  rewrite markLastCurrent_snoc, !map_app. reflexivity.
Qed.

Lemma map_eq_Forall {A B} (f : A -> B) (P : B -> Prop) (l l' : list A) :
  map f l = map f l' -> Forall (fun x => P (f x)) l' -> Forall (fun x => P (f x)) l.
Proof.
  intros Hmap Hl'. apply List.Forall_map. rewrite Hmap. apply List.Forall_map. exact Hl'.
Qed.

Lemma markLastCurrent_In isDelivered events e :
  In e (markLastCurrent isDelivered events) ->
  exists e0, In e0 events /\ ev_status e = ev_status e0 /\
             ev_instant e = ev_instant e0.
Proof.
  destruct isDelivered.
  - rewrite markLastCurrent_delivered. intros Hin. exists e. auto.
  - destruct events as [|last init _] using rev_ind; [intros []|].
    rewrite markLastCurrent_snoc. intros Hin.
    apply in_app_or in Hin as [Hin | [<- | []]].
    + exists e. split; [apply in_or_app; left; exact Hin | auto].
    + exists last. split; [apply in_or_app; right; left; reflexivity | auto].
Qed.

(** The label is dated after the order, and the pickup not before the
    label. *)
Lemma planLabelAndPickup_ordered order ff cpd s :
  order < fst (fst (planLabelAndPickup order ff cpd s)) /\
  fst (fst (planLabelAndPickup order ff cpd s))
    <= snd (fst (planLabelAndPickup order ff cpd s)).
Proof.
  unfold planLabelAndPickup, bind, ret. destruct cpd as [custom|].
  - destruct (randomBelow 2 s) as [r s1].
    destruct (Z.leb_spec custom order); simpl.
    + split; [apply addBusinessDays_gt; lia | apply addBusinessDays_ge].
    + split; [lia | apply addBusinessDays_ge].
  - destruct (randomBelow 3 s) as [r1 s1].
    destruct (randomBelow 2 s1) as [r2 s2].
    assert (Hauto : order < addBusinessDays order (r1 + 1) /\
                    addBusinessDays order (r1 + 1)
                    <= addBusinessDays (addBusinessDays order (r1 + 1)) (r2 + 1))
      by (split; [apply addBusinessDays_gt; lia | apply addBusinessDays_ge]).
    destruct (find hasTracking ff) as [f|]; [|exact Hauto].
    destruct ((0 <? (created_at f - order) / msPerDay)
              && ((created_at f - order) / msPerDay <? 30)); [|exact Hauto].
    destruct (randomBelow 2 s2) as [r3 s3].
    destruct (Z.leb_spec
                (subtractBusinessDays (subtractBusinessDays (created_at f) 1)
                   (r3 + 1)) order); simpl.
    + split; [apply addBusinessDays_gt; lia | apply addBusinessDays_ge].
    + split; [lia | apply subtractBusinessDays_le].
Qed.

(** Apart from Order Processed, the dates of the events of the templates
    never decrease. *)
Lemma synthesizer_dates_apart_from_processed today order city province
    isDelivered deliveryDate ff cpd s :
  exists body tail,
    fst (generateRealisticTrackingEventsWithFulfillment today order city province
           isDelivered deliveryDate ff cpd s) = body ++ tail /\
    Forall (fun e => ev_status e = "Delivered") tail /\
    map ev_status body = firstn (length body) statusVocabulary /\
    nonDecreasing (withoutSecond (map ev_instant body)).
Proof.
  destruct (synthesizer_decompose today order city province isDelivered
              deliveryDate ff cpd s) as (tail & -> & _ & Hflags).
  eexists. exists tail. split; [reflexivity|]. split.
  { eapply List.Forall_impl; [|exact Hflags]. simpl. tauto. }
  rewrite markLastCurrent_statuses, markLastCurrent_instants.
  set (plan := planEvents order city province ff cpd s).
  destruct (eventLoop_schedule today (fst (fst plan)) cpd (snd (fst plan)) 0
              order (snd plan)) as (k & Hi & Hs & Hn).
  assert (Hlen : length (markLastCurrent isDelivered
                   (fst (eventLoop today (fst (fst plan)) cpd 0 (snd (fst plan))
                           order [] (snd plan)))) = length (firstn k statusVocabulary)).
  { rewrite <- (length_map ev_status), markLastCurrent_statuses, Hs.
    unfold plan. rewrite planEvents_statuses. reflexivity. }
  split.
  { rewrite Hs, Hlen. unfold plan. rewrite planEvents_statuses.
    rewrite length_firstn.
    destruct (Nat.le_gt_cases k (length statusVocabulary)) as [Hk|Hk].
    - rewrite Nat.min_l by exact Hk. reflexivity.
    - rewrite Nat.min_r by lia. rewrite firstn_all, firstn_all2 by lia.
      reflexivity. }
  rewrite Hi. clear Hi Hs Hn Hlen. unfold plan. clear plan.
  destruct (planEvents_templates order city province ff cpd s)
    as (facility & s1 & s2 & ->).
  destruct (planLabelAndPickup_ordered order ff cpd s1) as [Hlabel Hpickup].
  match goal with
  | |- context [eventTemplates ?a ?b ?c ?d ?e ?f ?g] =>
      destruct (eventTemplates_shape a b c d e f g)
        as (p & d1 & d2 & d3 & d4 & d5 & ->)
  end.
  set (label := fst (fst (planLabelAndPickup order ff cpd s1))) in *.
  set (pickup := snd (fst (planLabelAndPickup order ff cpd s1))) in *.
  cbn [scheduledDates nextEventDate tpl_fixedDate tpl_businessDaysFromPrevious
       Nat.ltb Nat.leb default from_option].
  set (e1 := addBusinessDays pickup 1).
  set (e2 := addBusinessDays e1 d1).
  set (e3 := addBusinessDays e2 d2).
  set (e4 := addBusinessDays e3 d3).
  set (e5 := addBusinessDays e4 d4).
  set (e6 := addBusinessDays e5 d5).
  pose proof (addBusinessDays_ge pickup 1) as G1. fold e1 in G1.
  pose proof (addBusinessDays_ge e1 d1) as G2. fold e2 in G2.
  pose proof (addBusinessDays_ge e2 d2) as G3. fold e3 in G3.
  pose proof (addBusinessDays_ge e3 d3) as G4. fold e4 in G4.
  pose proof (addBusinessDays_ge e4 d4) as G5. fold e5 in G5.
  pose proof (addBusinessDays_ge e5 d5) as G6. fold e6 in G6.
  do 10 (destruct k as [|k]; [simpl; intuition lia|]).
  cbn [firstn]. rewrite firstn_nil. simpl. intuition lia.
Qed.

End Timeline.

(** C2: the returned sequence is the events of the longest prefix of the
    templates whose computed dates are not after [today] (so none of
    their dates is after [today], and the first computed date after
    [today] ends them), followed by the Delivered event, dated by the
    delivery date as it is supplied, exactly when [isDelivered] holds and
    a delivery date is given. *)
Theorem synthesizer_cuts_future_events {tz : TimeZone} (today order : Date)
    (city province : string) (isDelivered : bool) (deliveryDate : option Date)
    (fulfillments : list Fulfillment) (customPickupDate : option Date)
    (s : RandomSource) :
  exists (k : nat) (body tail : list TrackingEvent),
    fst (generateRealisticTrackingEventsWithFulfillment today order city province
           isDelivered deliveryDate fulfillments customPickupDate s)
      = body ++ tail /\
    map ev_instant body =
      firstn k (scheduledDates 0
                  (snd (fst (planEvents order city province fulfillments
                               customPickupDate s))) order) /\
    map ev_status body = firstn k statusVocabulary /\
    Forall (fun e => ev_instant e <= today) body /\
    match nth_error
            (scheduledDates 0
               (snd (fst (planEvents order city province fulfillments
                            customPickupDate s))) order) k with
    | Some d => today < d
    | None => k = 10%nat
    end /\
    map (fun e => (ev_status e, ev_instant e)) tail =
      match isDelivered, deliveryDate with
      | true, Some d => [("Delivered", d)]
      | _, _ => []
      end.
Proof.
  destruct (synthesizer_decompose today order city province isDelivered
              deliveryDate fulfillments customPickupDate s)
    as (tail & Hout & Htail & _).
  set (plan := planEvents order city province fulfillments customPickupDate s) in *.
  destruct (eventLoop_schedule today (fst (fst plan)) customPickupDate
              (snd (fst plan)) 0 order (snd plan)) as (k & Hi & Hs & Hn).
  pose proof (eventLoop_events today (fst (fst plan)) customPickupDate
                (snd (fst plan)) 0 order (snd plan)) as Hev.
  set (body := fst (eventLoop today (fst (fst plan)) customPickupDate 0
                      (snd (fst plan)) order [] (snd plan))) in *.
  assert (Hvoc : map tpl_status (snd (fst plan)) = statusVocabulary)
    by apply planEvents_statuses.
  exists k, (markLastCurrent isDelivered body), tail.
  split; [exact Hout|]. split.
  { rewrite markLastCurrent_instants. exact Hi. }
  split.
  { rewrite markLastCurrent_statuses, Hs, Hvoc. reflexivity. }
  split.
  { apply (map_eq_Forall ev_instant (fun d => d <= today) _ body).
    - apply markLastCurrent_instants.
    - eapply List.Forall_impl; [|exact Hev]. simpl. tauto. }
  split; [|exact Htail].
  destruct (nth_error _ k); [exact Hn|].
  rewrite Hn, <- (length_map tpl_status), Hvoc. reflexivity.
Qed.

(** C3: the flags of every returned sequence are as specified. *)
Theorem synthesizer_flags {tz : TimeZone} (today order : Date)
    (city province : string) (isDelivered : bool) (deliveryDate : option Date)
    (fulfillments : list Fulfillment) (customPickupDate : option Date)
    (s : RandomSource) :
  flagsAsSpecified isDelivered
    (fst (generateRealisticTrackingEventsWithFulfillment today order city province
            isDelivered deliveryDate fulfillments customPickupDate s)).
Proof.
  destruct (synthesizer_decompose today order city province isDelivered
              deliveryDate fulfillments customPickupDate s)
    as (tail & -> & Htail & Hflags).
  set (plan := planEvents order city province fulfillments customPickupDate s) in *.
  pose proof (eventLoop_events today (fst (fst plan)) customPickupDate
                (snd (fst plan)) 0 order (snd plan)) as Hev.
  unfold plan at 1 in Hev. rewrite planEvents_statuses in Hev. fold plan in Hev.
  set (body := fst (eventLoop today (fst (fst plan)) customPickupDate 0
                      (snd (fst plan)) order [] (snd plan))) in *.
  assert (Hcur : Forall (fun e => ev_current e = false) body)
    by (eapply List.Forall_impl; [|exact Hev]; simpl; tauto).
  assert (Hdone : Forall (fun e => ev_completed e = true /\ ev_current e = false) body)
    by (eapply List.Forall_impl; [|exact Hev]; simpl; tauto).
  assert (Hst : Forall (fun e => ev_status e <> "Delivered") body).
  { eapply List.Forall_impl; [|exact Hev]. simpl.
    intros e (_ & _ & _ & _ & Hin). apply not_delivered_in_vocabulary. exact Hin. }
  assert (Htcur : Forall (fun e => ev_current e = false) tail)
    by (eapply List.Forall_impl; [|exact Hflags]; simpl; tauto).
  assert (Htst : Forall (fun e => ev_status e = "Delivered") tail)
    by (eapply List.Forall_impl; [|exact Hflags]; simpl; tauto).
  destruct isDelivered.
  - rewrite markLastCurrent_delivered. split; [|split].
    + rewrite List.filter_app, !filter_current_none by assumption. simpl. lia.
    + rewrite existsb_app, !existsb_current_none by assumption. discriminate.
    + exists body, tail. auto.
  - assert (tail = []) as -> by (destruct tail; [reflexivity | discriminate]).
    rewrite app_nil_r.
    destruct body as [|last init _] using rev_ind.
    + rewrite markLastCurrent_nil. split; [simpl; lia|]. split; [discriminate|].
      exists [], []. repeat split; auto.
    + rewrite markLastCurrent_snoc.
      apply List.Forall_app in Hcur as [Hcur _]. apply List.Forall_app in Hdone as [Hdone _].
      apply List.Forall_app in Hst as [Hst Hlast].
      split; [|split].
      * rewrite List.filter_app, filter_current_none by assumption. simpl. lia.
      * reflexivity.
      * exists (init ++ [markCurrent last]), []. rewrite app_nil_r.
        split; [reflexivity|]. split.
        -- apply List.Forall_app. split; [exact Hst|].
           inversion Hlast; subst. constructor; [assumption | constructor].
        -- split; [constructor|]. right. exists init, (markCurrent last). auto.
Qed.

(** C9: delivered, but without a delivery date: no Delivered event, no
    current event, and every event completed and not flagged delivered. *)
Theorem synthesizer_delivered_without_date {tz : TimeZone} (today order : Date)
    (city province : string) (fulfillments : list Fulfillment)
    (customPickupDate : option Date) (s : RandomSource) :
  Forall (fun e => ev_status e <> "Delivered" /\ ev_current e = false /\
                   ev_completed e = true /\ ev_isDelivered e = false)
    (fst (generateRealisticTrackingEventsWithFulfillment today order city province
            true None fulfillments customPickupDate s)).
Proof.
  destruct (synthesizer_decompose today order city province true None
              fulfillments customPickupDate s) as (tail & -> & Htail & _).
  assert (tail = []) as -> by (destruct tail; [reflexivity | discriminate]).
  rewrite app_nil_r, markLastCurrent_delivered.
  set (plan := planEvents order city province fulfillments customPickupDate s).
  pose proof (eventLoop_events today (fst (fst plan)) customPickupDate
                (snd (fst plan)) 0 order (snd plan)) as Hev.
  unfold plan at 1 in Hev. rewrite planEvents_statuses in Hev. fold plan in Hev.
  eapply List.Forall_impl; [|exact Hev]. simpl.
  intros e (Hc & Hcur & Hd & _ & Hin). repeat split; auto.
  apply not_delivered_in_vocabulary. exact Hin.
Qed.

(** C7: with a custom pickup date, the Label Created event is dated one
    business day after the order date when the custom date is not after
    the order date, and by the custom date itself otherwise. *)
Theorem synthesizer_label_created_custom {tz : TimeZone} (today order : Date)
    (city province : string) (isDelivered : bool) (deliveryDate : option Date)
    (fulfillments : list Fulfillment) (custom : Date) (s : RandomSource)
    (e : TrackingEvent) :
  In e (fst (generateRealisticTrackingEventsWithFulfillment today order city
               province isDelivered deliveryDate fulfillments (Some custom) s)) ->
  ev_status e = "Label Created" ->
  ev_instant e = if custom <=? order then addBusinessDays order 1 else custom.
Proof.
  intros Hin Hst.
  destruct (synthesizer_decompose today order city province isDelivered
              deliveryDate fulfillments (Some custom) s)
    as (tail & Hout & _ & Hflags).
  rewrite Hout in Hin. apply in_app_or in Hin as [Hin | Hin].
  2: { rewrite List.Forall_forall in Hflags. apply Hflags in Hin as (Hd & _).
       rewrite Hd in Hst. discriminate. }
  apply markLastCurrent_In in Hin as (e0 & Hin & Hst0 & Hi0).
  rewrite Hi0. rewrite Hst0 in Hst. clear Hst0 Hi0 Hout e.
  revert e0 Hin Hst.
  match goal with
  | |- forall e0, In e0 ?l -> ?P -> ?Q =>
      apply (proj1 (List.Forall_forall
                      (fun e0 => ev_status e0 = "Label Created" ->
                                 ev_instant e0 =
                                 if custom <=? order
                                 then addBusinessDays order 1 else custom) l))
  end.
  destruct (planEvents_templates order city province fulfillments (Some custom) s)
    as (facility & s1 & s2 & ->).
  rewrite planLabelAndPickup_custom.
  match goal with
  | |- context [eventTemplates ?a ?b ?c ?d ?e ?f ?g] =>
      destruct (eventTemplates_shape a b c d e f g)
        as (p & d1 & d2 & d3 & d4 & d5 & ->)
  end.
  apply eventLoop_Forall. intros t d loc time Ht _ Hfixed Hst.
  simpl in Ht, Hst.
  repeat (destruct Ht as [<- | Ht]; [try discriminate Hst|]).
  - apply Hfixed. reflexivity.
  - destruct Ht.
Qed.

(** An order of Monday 1 January 2024 with the custom pickup date equal
    to the order date, seen on 31 January: the label is dated one
    business day after the order. *)
Lemma synthesizer_label_created_custom_witness :
  In (nth 2 (fst (generateRealisticTrackingEventsWithFulfillment (tz:=UTC)
                    1706659200000 1704067200000 "Austin" "TX" false None []
                    (Some 1704067200000) (fun _ => 0%nat)))
        (mkEvent "" "" "" None false false false None 0))
     (fst (generateRealisticTrackingEventsWithFulfillment (tz:=UTC)
             1706659200000 1704067200000 "Austin" "TX" false None []
             (Some 1704067200000) (fun _ => 0%nat))) /\
  ev_status
    (nth 2 (fst (generateRealisticTrackingEventsWithFulfillment (tz:=UTC)
                   1706659200000 1704067200000 "Austin" "TX" false None []
                   (Some 1704067200000) (fun _ => 0%nat)))
       (mkEvent "" "" "" None false false false None 0)) = "Label Created" /\
  ev_instant
    (nth 2 (fst (generateRealisticTrackingEventsWithFulfillment (tz:=UTC)
                   1706659200000 1704067200000 "Austin" "TX" false None []
                   (Some 1704067200000) (fun _ => 0%nat)))
       (mkEvent "" "" "" None false false false None 0))
  = if 1704067200000 <=? 1704067200000
    then addBusinessDays (tz:=UTC) 1704067200000 1 else 1704067200000.
Proof.
  assert (Hin :
    In (nth 2 (fst (generateRealisticTrackingEventsWithFulfillment (tz:=UTC)
                      1706659200000 1704067200000 "Austin" "TX" false None []
                      (Some 1704067200000) (fun _ => 0%nat)))
          (mkEvent "" "" "" None false false false None 0))
       (fst (generateRealisticTrackingEventsWithFulfillment (tz:=UTC)
               1706659200000 1704067200000 "Austin" "TX" false None []
               (Some 1704067200000) (fun _ => 0%nat))))
    by (vm_compute; do 2 right; left; reflexivity).
  assert (Hst :
    ev_status
      (nth 2 (fst (generateRealisticTrackingEventsWithFulfillment (tz:=UTC)
                     1706659200000 1704067200000 "Austin" "TX" false None []
                     (Some 1704067200000) (fun _ => 0%nat)))
         (mkEvent "" "" "" None false false false None 0)) = "Label Created")
    by (vm_compute; reflexivity).
  split; [exact Hin|]. split; [exact Hst|].
  exact (synthesizer_label_created_custom (tz:=UTC) 1706659200000 1704067200000
           "Austin" "TX" false None [] 1704067200000 (fun _ => 0%nat) _ Hin Hst).
Defined.

(** The clamped label of that order is dated Tuesday 2 January 2024. *)
Example synthesizer_label_clamped :
  map (fun e => (ev_status e, ev_date e))
    (firstn 3 (fst (generateRealisticTrackingEventsWithFulfillment (tz:=UTC)
                      1706659200000 1704067200000 "Austin" "TX" false None []
                      (Some 1704067200000) (fun _ => 0%nat))))
  = [("Order Confirmed", "Mon, Jan 1, 2024");
     ("Order Processed", "Tue, Jan 2, 2024");
     ("Label Created", "Tue, Jan 2, 2024")].
Proof. vm_compute. reflexivity. Qed.

(** C1 fails on the code.  An order created on Monday 1 January 2024 at
    00:00 UTC, with the custom pickup date one hour later, seen on 31
    January: Order Processed is dated Tuesday 2 January, and the Label
    Created event that follows it Monday 1 January. *)
Lemma synthesizer_processed_after_label :
  map (fun e => (ev_status e, ev_instant e))
    (firstn 3 (fst (generateRealisticTrackingEventsWithFulfillment (tz:=UTC)
                      1706659200000 1704067200000 "Austin" "TX" false None []
                      (Some 1704070800000) (fun _ => 0%nat))))
  = [("Order Confirmed", 1704067200000);
     ("Order Processed", 1704153600000);
     ("Label Created", 1704070800000)].
Proof. vm_compute. reflexivity. Qed.

(** The same without a custom pickup date, when the draws date the label
    one business day after the order and Order Processed two. *)
Example synthesizer_processed_after_label_drawn :
  map (fun e => (ev_status e, ev_instant e))
    (firstn 3 (fst (generateRealisticTrackingEventsWithFulfillment (tz:=UTC)
                      1706659200000 1704067200000 "Austin" "TX" false None []
                      None (fun i => nth i [0; 0; 0; 1]%nat 0%nat))))
  = [("Order Confirmed", 1704067200000);
     ("Order Processed", 1704240000000);
     ("Label Created", 1704153600000)].
Proof. vm_compute. reflexivity. Qed.

(** ** Pickup-date validation *)

Section Validation.
Context {tz : TimeZone}.

Lemma setHoursZero_lt a b :
  setHoursZero a < setHoursZero b <-> localDay a < localDay b.
Proof. unfold setHoursZero, msPerDay. lia. Qed.

Lemma localDay_setFullYear now y :
  localDay (setFullYear now y) =
  daysFromCivil y (getMonth1 now) 1 + (getDate now - 1).
Proof.
  unfold setFullYear, localDay at 1, timeWithinDay.
  set (D := daysFromCivil y (getMonth1 now) 1 + (getDate now - 1)).
  assert (Hm : 0 < msPerDay) by (unfold msPerDay; lia).
  pose proof (Z.mod_pos_bound (now + tzOffset) msPerDay Hm) as Hb.
  symmetry. apply (Z.div_unique _ _ _ ((now + tzOffset) mod msPerDay)).
  - left. exact Hb.
  - lia.
Qed.

Lemma validatePickupDate_invalid_iff now pickup orderCreatedAt :
  isValid (validatePickupDate now (Some pickup) orderCreatedAt) = false <->
  pickupDateOutOfRange now pickup orderCreatedAt.
Proof.
  unfold validatePickupDate, pickupDateOutOfRange, sameDateInYear.
  rewrite <- !localDay_setFullYear, <- !setHoursZero_lt.
  replace (getFullYear now + -2) with (getFullYear now - 2) by lia.
  destruct (Z.ltb_spec (setHoursZero pickup) (setHoursZero orderCreatedAt));
    [simpl; tauto|].
  destruct (Z.ltb_spec
              (setHoursZero (setFullYear now (getFullYear now + 1)))
              (setHoursZero pickup)); [simpl; tauto|].
  destruct (Z.ltb_spec (setHoursZero pickup)
              (setHoursZero (setFullYear now (getFullYear now - 2))));
    [simpl; tauto|].
  simpl. split; [discriminate | lia].
Qed.

Lemma validatePickupDate_error now pickupDate orderCreatedAt :
  isValid (validatePickupDate now pickupDate orderCreatedAt) = false ->
  exists msg,
    error (validatePickupDate now pickupDate orderCreatedAt) = Some msg /\
    msg <> "".
Proof.
  unfold validatePickupDate. destruct pickupDate as [pickup|]; [|discriminate].
  repeat match goal with |- context [if ?b then _ else _] => destruct b end;
    simpl; try discriminate; intros _; eexists; (split; [reflexivity|]);
    discriminate.
Qed.

Lemma createStatusPage_invalid_pickup now pageId body order metafield
    isReplacement effectivePickupDate tempStatusPages s :
  rq_orderNumber body <> "" ->
  rq_trackingNumber body <> "" ->
  matchTracking (rq_trackingNumber body) (rq_pickupDate body) order metafield
    = Some (isReplacement, effectivePickupDate) ->
  isValid (validatePickupDate now effectivePickupDate (o_createdAt order)) = false ->
  createStatusPage now pageId body (ShopifyOrder order) metafield tempStatusPages s
  = (Rejected 400
       (default "" (error (validatePickupDate now effectivePickupDate
                             (o_createdAt order)))),
     tempStatusPages, s).
Proof.
  intros Ho Ht Hm Hv. unfold createStatusPage. cbv zeta.
  apply String.eqb_neq in Ho, Ht. rewrite Ho, Ht. cbn [orb].
  rewrite Hm, Hv. reflexivity.
Qed.

End Validation.

(** C8: [validatePickupDate] answers invalid exactly when a pickup date
    is supplied and is out of range at day granularity; the answer then
    carries a message; and a create-status-page request whose effective
    pickup date is invalid is answered by that message with status 400,
    leaving the stored pages and the random source as they were, so
    before any event is synthesized. *)
Theorem validatePickupDate_rejects {tz : TimeZone} (now : Date)
    (pickupDate : option Date) (orderCreatedAt : Date) :
  (isValid (validatePickupDate now pickupDate orderCreatedAt) = false <->
   exists pickup,
     pickupDate = Some pickup /\ pickupDateOutOfRange now pickup orderCreatedAt) /\
  (isValid (validatePickupDate now pickupDate orderCreatedAt) = false ->
   exists msg,
     error (validatePickupDate now pickupDate orderCreatedAt) = Some msg /\
     msg <> "") /\
  (forall pageId body order metafield isReplacement
          (tempStatusPages : gmap string StatusPage) (s : RandomSource),
     rq_orderNumber body <> "" ->
     rq_trackingNumber body <> "" ->
     o_createdAt order = orderCreatedAt ->
     matchTracking (rq_trackingNumber body) (rq_pickupDate body) order metafield
       = Some (isReplacement, pickupDate) ->
     isValid (validatePickupDate now pickupDate orderCreatedAt) = false ->
     createStatusPage now pageId body (ShopifyOrder order) metafield
       tempStatusPages s
     = (Rejected 400
          (default "" (error (validatePickupDate now pickupDate orderCreatedAt))),
        tempStatusPages, s)).
Proof.
  split; [|split].
  - destruct pickupDate as [pickup|].
    + rewrite validatePickupDate_invalid_iff. split.
      * intros Hr. exists pickup. auto.
      * intros (p & [= <-] & Hr). exact Hr.
    + simpl. split; [discriminate | intros (p & Hp & _); discriminate].
  - apply validatePickupDate_error.
  - intros pageId body order metafield isReplacement store s Ho Ht <- Hm Hv.
    apply (createStatusPage_invalid_pickup now pageId body order metafield
             isReplacement); assumption.
Qed.

(** A request for an order of 1 January 2024 whose pickup date is 20
    December 2023 is rejected, and nothing is stored. *)
Example createStatusPage_rejects_early_pickup :
  createStatusPage (tz:=UTC) 1706659200000 "00aa11bb22cc33dd"
    (mkRequest "#1001" "1Z12345E0205271688" (Some 1703070800000))
    (ShopifyOrder
       (mkOrder 1 "#1001" 1704067200000 (Some "fulfilled") false None
          (mkAddress "Austin" "TX" "73301") (mkCustomer "Ada" "Doe")
          [mkFulfillment (Some "1Z12345E0205271688") None 1704153600000]))
    None ∅ (fun _ => 0%nat)
  = (Rejected 400
       "Pickup date (12/20/2023) cannot be before the order creation date (1/1/2024). Packages cannot be picked up before they are ordered.",
     ∅, fun _ => 0%nat).
Proof. vm_compute. reflexivity. Qed.

(** * Further properties of the code *)

(** ** Business days: composition, the reverse round trip, whole weeks *)

Section BusinessDayArithmetic.
Context {tz : TimeZone}.

Lemma subtractBusinessDays_add d n m :
  subtractBusinessDays d (n + m)
  = subtractBusinessDays (subtractBusinessDays d n) m.
Proof.
  revert d. induction n as [|n IH]; intros d; simpl.
  - rewrite subtractBusinessDays_0. reflexivity.
  - rewrite subtractBusinessDays_S, IH, <- subtractBusinessDays_S. reflexivity.
Qed.

Lemma subtractBusinessDays_succ d n :
  subtractBusinessDays d (S n)
  = subtractBusinessDays (subtractBusinessDays d n) 1.
Proof. rewrite <- subtractBusinessDays_add. f_equal. lia. Qed.

(** Decides the weekend test of a day a known number of days away from a
    day whose weekday [E] gives. *)
Ltac weekday_from E :=
  repeat (rewrite ?shiftDate_shiftDate; rewrite notWeekend_shift, E;
          cbn [Z.add Z.pos_sub Z.succ_double Z.pred_double Z.double Z.opp
               Pos.add Pos.succ Pos.pred_double Pos.add_carry];
          match goal with
          | |- context [negb (?a mod 7 =? 0) && negb (?a mod 7 =? 6)] =>
              let b := eval vm_compute in
                (negb (a mod 7 =? 0) && negb (a mod 7 =? 6)) in
              change (negb (a mod 7 =? 0) && negb (a mod 7 =? 6)) with b
          end; cbv iota).

(** Runs the forward loop from a day whose weekday [E] gives. *)
Ltac run_forward E :=
  unfold addBusinessDays;
  repeat (rewrite addBusinessDays_loop_eq; cbn [Nat.ltb Nat.leb];
          try weekday_from E);
  rewrite ?shiftDate_shiftDate;
  cbn [Z.add Z.pos_sub Z.succ_double Z.pred_double Z.double Z.opp
       Pos.add Pos.succ Pos.pred_double Pos.add_carry].

Ltac run_backward E :=
  unfold subtractBusinessDays;
  repeat (rewrite subtractBusinessDays_loop_eq; cbn [Nat.ltb Nat.leb];
          try weekday_from E);
  rewrite ?shiftDate_shiftDate;
  cbn [Z.add Z.pos_sub Z.succ_double Z.pred_double Z.double Z.opp
       Pos.add Pos.succ Pos.pred_double Pos.add_carry].

Lemma subtract_after_add_1 d :
  notWeekend d = true -> subtractBusinessDays (addBusinessDays d 1) 1 = d.
Proof.
  intros Hd. pose proof (proj1 (notWeekend_iff d) Hd) as Hr.
  assert (getDay d = 1 \/ getDay d = 2 \/ getDay d = 3 \/ getDay d = 4 \/
          getDay d = 5) as Hc by lia.
  destruct Hc as [E|[E|[E|[E|E]]]];
    run_forward E; run_backward E; apply shiftDate_0.
Qed.

(** Up to five business days from any day: the calendar days they take. *)
Lemma addBusinessDays_short d r :
  (1 <= r <= 5)%nat ->
  exists j : Z, addBusinessDays d r = shiftDate d j /\ j <= Z.of_nat r + 2.
Proof.
  intros Hr.
  assert (r = 1 \/ r = 2 \/ r = 3 \/ r = 4 \/ r = 5)%nat as Hc by lia.
  destruct (getDay_cases d) as [E|[E|[E|[E|[E|[E|E]]]]]];
    destruct Hc as [->|[->|[->|[->| ->]]]];
    run_forward E; (eexists; split; [reflexivity | simpl; lia]).
Qed.

Lemma addBusinessDays_week d :
  notWeekend d = true -> addBusinessDays d 5 = shiftDate d 7.
Proof.
  intros Hd. pose proof (proj1 (notWeekend_iff d) Hd) as Hr.
  assert (getDay d = 1 \/ getDay d = 2 \/ getDay d = 3 \/ getDay d = 4 \/
          getDay d = 5) as Hc by lia.
  destruct Hc as [E|[E|[E|[E|E]]]]; run_forward E; reflexivity.
Qed.

Lemma subtractBusinessDays_week d :
  notWeekend d = true -> subtractBusinessDays d 5 = shiftDate d (-7).
Proof.
  intros Hd. pose proof (proj1 (notWeekend_iff d) Hd) as Hr.
  assert (getDay d = 1 \/ getDay d = 2 \/ getDay d = 3 \/ getDay d = 4 \/
          getDay d = 5) as Hc by lia.
  destruct Hc as [E|[E|[E|[E|E]]]]; run_backward E; reflexivity.
Qed.

Lemma notWeekend_shift_week d k :
  notWeekend (shiftDate d (7 * k)) = notWeekend d.
Proof.
  rewrite notWeekend_shift. unfold notWeekend.
  replace (getDay d + 7 * k) with (getDay d + k * 7) by lia.
  rewrite Z.mod_add by lia.
  rewrite (Z.mod_small (getDay d) 7) by apply getDay_range. reflexivity.
Qed.

Lemma businessDaysWithin_le d k : (businessDaysWithin d k <= k)%nat.
Proof.
  unfold businessDaysWithin.
  etransitivity; [apply List.filter_length_le|]. rewrite length_seq. lia.
Qed.

Lemma subtractBusinessDays_loop_back r a n :
  exists k : nat, subtractBusinessDays_loop r a n = shiftDate r (- Z.of_nat k).
Proof.
  revert r a n. apply (subtractBusinessDays_loop_run (fun r a n res =>
    exists k : nat, res = shiftDate r (- Z.of_nat k))).
  - intros r a n _. exists 0%nat. rewrite shiftDate_0. reflexivity.
  - intros r a n _ _ (k & ->). exists (S k).
    rewrite shiftDate_shiftDate. f_equal. lia.
  - intros r a n _ _ (k & ->). exists (S k).
    rewrite shiftDate_shiftDate. f_equal. lia.
Qed.

Lemma timeWithinDay_shift d k : timeWithinDay (shiftDate d k) = timeWithinDay d.
Proof.
  unfold timeWithinDay, shiftDate.
  replace (d + k * msPerDay + tzOffset) with (d + tzOffset + k * msPerDay) by ring.
  apply Z.mod_add. unfold msPerDay. lia.
Qed.

End BusinessDayArithmetic.

(** X1: on a date that falls on a business day, subtracting [n] business
    days from the result of adding [n] business days gives the date back. *)
Theorem subtractBusinessDays_addBusinessDays {tz : TimeZone} (d : Date) (n : nat) :
  1 <= getDay d <= 5 ->
  subtractBusinessDays (addBusinessDays d n) n = d.
Proof.
  revert d. induction n as [|n IH]; intros d Hd.
  - rewrite addBusinessDays_0. apply subtractBusinessDays_0.
  - rewrite addBusinessDays_S, subtractBusinessDays_succ, IH.
    + apply subtract_after_add_1. apply notWeekend_iff. exact Hd.
    + apply notWeekend_iff. apply addBusinessDays_loop_lands. lia.
Qed.

(** Friday 2 January 1970, four business days forth and back. *)
Lemma subtractBusinessDays_addBusinessDays_witness :
  1 <= getDay (tz:=UTC) 86400000 <= 5 /\
  subtractBusinessDays (tz:=UTC) (addBusinessDays (tz:=UTC) 86400000 4) 4
  = 86400000.
Proof.
  assert (Hd : 1 <= getDay (tz:=UTC) 86400000 <= 5)
    by (vm_compute; split; discriminate).
  split; [exact Hd|].
  apply (subtractBusinessDays_addBusinessDays (tz:=UTC) 86400000 4 Hd).
Defined.

(** X2: business days add up: moving by [n + m] business days is moving
    by [n] and then by [m], forward and backward. *)
Theorem businessDays_compose {tz : TimeZone} (d : Date) (n m : nat) :
  addBusinessDays d (n + m) = addBusinessDays (addBusinessDays d n) m /\
  subtractBusinessDays d (n + m)
  = subtractBusinessDays (subtractBusinessDays d n) m.
Proof. split; [apply addBusinessDays_add | apply subtractBusinessDays_add]. Qed.

(** X3: [addBusinessDays d n] lies a whole number [k] of calendar days
    after [d], with [n <= k <= n + 2 * ceil(n / 5)], and
    [subtractBusinessDays d n] a whole number of days before [d]; both
    keep the local time of day of [d]. *)
Theorem businessDays_span {tz : TimeZone} (d : Date) (n : nat) :
  (exists k : nat,
     addBusinessDays d n = shiftDate d (Z.of_nat k) /\
     (n <= k <= n + 2 * ((n + 4) / 5))%nat) /\
  (exists k : nat, subtractBusinessDays d n = shiftDate d (- Z.of_nat k)) /\
  timeWithinDay (addBusinessDays d n) = timeWithinDay d /\
  timeWithinDay (subtractBusinessDays d n) = timeWithinDay d.
Proof.
  assert (Hup : forall m x, exists j : Z,
            addBusinessDays x m = shiftDate x j /\
            j <= Z.of_nat (m + 2 * ((m + 4) / 5))).
  { intros m. induction m as [m IH] using lt_wf_ind. intros x.
    destruct (Nat.le_gt_cases m 5) as [Hsmall|Hbig].
    - destruct (Nat.eq_dec m 0%nat) as [->|Hm].
      + exists 0. rewrite addBusinessDays_0, shiftDate_0. split; [reflexivity|].
        simpl. lia.
      + destruct (addBusinessDays_short x m) as (j & Hj & Hb); [lia|].
        exists j. split; [exact Hj|].
        assert (1 <= (m + 4) / 5)%nat
          by (apply Nat.div_le_lower_bound; lia).
        lia.
    - assert (Hsplit : addBusinessDays x m
                       = addBusinessDays (addBusinessDays x 5) (m - 5))
        by (rewrite <- addBusinessDays_add; f_equal; lia).
      rewrite Hsplit.
      destruct (addBusinessDays_short x 5) as (j1 & -> & Hb1); [lia|].
      destruct (IH (m - 5)%nat ltac:(lia) (shiftDate x j1)) as (j2 & -> & Hb2).
      exists (j1 + j2). rewrite shiftDate_shiftDate. split; [reflexivity|].
      replace (m + 4)%nat with ((m - 5 + 4) + 1 * 5)%nat by lia.
      rewrite Nat.div_add by lia. lia. }
  destruct (addBusinessDays_loop_count d 0 n) as (k & Hk & Hc); [lia|].
  fold (addBusinessDays d n) in Hk.
  destruct (subtractBusinessDays_loop_back d 0 n) as (k' & Hk').
  fold (subtractBusinessDays d n) in Hk'.
  split; [|split; [|split]].
  - exists k. split; [exact Hk|]. split.
    + pose proof (businessDaysWithin_le d k). lia.
    + destruct (Hup n d) as (j & Hj & Hb). rewrite Hk in Hj.
      unfold shiftDate, msPerDay in Hj. lia.
  - exists k'. exact Hk'.
  - rewrite Hk. apply timeWithinDay_shift.
  - rewrite Hk'. apply timeWithinDay_shift.
Qed.

(** X4: from a business day, [5 * q] business days are exactly [q]
    calendar weeks, forward and backward. *)
Theorem businessDays_whole_weeks {tz : TimeZone} (d : Date) (q : nat) :
  1 <= getDay d <= 5 ->
  addBusinessDays d (5 * q) = shiftDate d (7 * Z.of_nat q) /\
  subtractBusinessDays d (5 * q) = shiftDate d (- (7 * Z.of_nat q)).
Proof.
  intros Hd. apply notWeekend_iff in Hd. revert d Hd.
  induction q as [|q IH]; intros d Hd.
  - simpl. rewrite addBusinessDays_0, subtractBusinessDays_0, !shiftDate_0. auto.
  - replace (5 * S q)%nat with (5 + 5 * q)%nat by lia.
    rewrite addBusinessDays_add, subtractBusinessDays_add.
    rewrite addBusinessDays_week, subtractBusinessDays_week by exact Hd.
    destruct (IH (shiftDate d 7)) as [-> _].
    { rewrite <- Hd. apply (notWeekend_shift_week d 1). }
    destruct (IH (shiftDate d (-7))) as [_ ->].
    { rewrite <- Hd. apply (notWeekend_shift_week d (-1)). }
    rewrite !shiftDate_shiftDate. split; f_equal; lia.
Qed.

(** Wednesday 7 January 1970: ten business days are two weeks. *)
Lemma businessDays_whole_weeks_witness :
  1 <= getDay (tz:=UTC) 518400000 <= 5 /\
  addBusinessDays (tz:=UTC) 518400000 (5 * 2) = shiftDate 518400000 (7 * Z.of_nat 2) /\
  subtractBusinessDays (tz:=UTC) 518400000 (5 * 2)
  = shiftDate 518400000 (- (7 * Z.of_nat 2)).
Proof.
  assert (Hd : 1 <= getDay (tz:=UTC) 518400000 <= 5)
    by (vm_compute; split; discriminate).
  split; [exact Hd|].
  apply (businessDays_whole_weeks (tz:=UTC) 518400000 2 Hd).
Defined.

(** ** The carrier classifier: alphabet, lengths and overlaps *)

Section Recognition.

Lemma isDigit_isUpperAlnum w :
  forallb isDigit w = true -> forallb isUpperAlnum w = true.
Proof.
  induction w as [|c w IH]; simpl; [reflexivity|].
  intros Hw. apply andb_true_iff in Hw as [Hc Hw].
  rewrite IH by exact Hw. unfold isUpperAlnum. rewrite Hc. reflexivity.
Qed.

Lemma length_list_ascii_of_string s :
  length (list_ascii_of_string s) = String.length s.
Proof. induction s as [|c s IH]; simpl; [reflexivity | rewrite IH; reflexivity]. Qed.

Lemma amazonShape_length w : amazonShape w = true -> length w = 15%nat.
Proof.
  unfold amazonShape. destruct (stripPrefix _ _) as [t|] eqn:Hs; [|discriminate].
  apply stripPrefix_spec in Hs. subst w. intros Ht.
  apply andb_true_iff in Ht as [Hl _]. apply Nat.eqb_eq in Hl.
  rewrite length_app, Hl. reflexivity.
Qed.

Lemma dhlShape_length w : dhlShape w = true -> In (length w) [10; 11]%nat.
Proof.
  unfold dhlShape. rewrite andb_true_iff, existsb_exists.
  intros (_ & n & Hn & Hl). apply Nat.eqb_eq in Hl. rewrite Hl. exact Hn.
Qed.

Lemma amazonShape_not_digits w :
  amazonShape w = true -> forallb isDigit w = false.
Proof.
  unfold amazonShape. destruct (stripPrefix _ _) as [t|] eqn:Hs; [|discriminate].
  apply stripPrefix_spec in Hs. subst w. reflexivity.
Qed.

Lemma upsShape_alphabet w : upsShape w = true -> forallb isUpperAlnum w = true.
Proof.
  unfold upsShape. destruct (stripPrefix _ _) as [t|] eqn:Hs; [|discriminate].
  apply stripPrefix_spec in Hs. subst w. intros Ht.
  apply andb_true_iff in Ht as [_ Hf]. simpl. exact Hf.
Qed.

Lemma amazonShape_alphabet w : amazonShape w = true -> forallb isUpperAlnum w = true.
Proof.
  unfold amazonShape. destruct (stripPrefix _ _) as [t|] eqn:Hs; [|discriminate].
  apply stripPrefix_spec in Hs. subst w. intros Ht.
  apply andb_true_iff in Ht as [_ Hf]. simpl. apply isDigit_isUpperAlnum. exact Hf.
Qed.

Lemma uspsShape_alphabet w : uspsShape w = true -> forallb isUpperAlnum w = true.
Proof.
  unfold uspsShape. rewrite existsb_exists. intros (p & Hp & Ht).
  destruct (stripPrefix _ _) as [t|] eqn:Hs; [|discriminate].
  apply stripPrefix_spec in Hs. subst w.
  apply andb_true_iff in Ht as [_ Hf]. rewrite forallb_app.
  rewrite (isDigit_isUpperAlnum t Hf), andb_true_r.
  unfold uspsPrefixes in Hp. simpl in Hp.
  repeat (destruct Hp as [<- | Hp]; [reflexivity|]). destruct Hp.
Qed.

End Recognition.

(** X5: a tracking number that gets a carrier is made of the characters
    0 to 9 and A to Z only and is 10 to 22 characters long; with any other
    character (a lower-case letter, a space, a dash) or any other length
    the answer is the fallback. *)
Theorem detectCarrierAndGenerateUrl_recognized (trackingNumber : string) :
  carrierCode (detectCarrierAndGenerateUrl trackingNumber) <> "UNKNOWN" ->
  (10 <= String.length trackingNumber <= 22)%nat /\
  forallb isUpperAlnum (list_ascii_of_string trackingNumber) = true.
Proof.
  rewrite detectCarrierAndGenerateUrl_by_shape. cbv zeta.
  rewrite <- length_list_ascii_of_string.
  set (w := list_ascii_of_string trackingNumber).
  destruct (upsShape w) eqn:Hups.
  { intros _. split; [rewrite (upsShape_length w Hups); lia|].
    apply upsShape_alphabet. exact Hups. }
  destruct (uspsShape w) eqn:Husps.
  { intros _. split; [pose proof (uspsShape_length w Husps); lia|].
    apply uspsShape_alphabet. exact Husps. }
  destruct (fedexShape w) eqn:Hfedex.
  { intros _. pose proof (fedexShape_length w Hfedex) as Hl.
    unfold fedexShape in Hfedex. apply andb_true_iff in Hfedex as [Hd _].
    split; [|apply isDigit_isUpperAlnum; exact Hd].
    simpl in Hl. intuition lia. }
  destruct (dhlShape w) eqn:Hdhl.
  { intros _. pose proof (dhlShape_length w Hdhl) as Hl.
    unfold dhlShape in Hdhl. apply andb_true_iff in Hdhl as [Hd _].
    split; [|apply isDigit_isUpperAlnum; exact Hd].
    simpl in Hl. intuition lia. }
  destruct (amazonShape w) eqn:Hamazon.
  { intros _. split; [rewrite (amazonShape_length w Hamazon); lia|].
    apply amazonShape_alphabet. exact Hamazon. }
  simpl. intros Hne. congruence.
Qed.

Lemma detectCarrierAndGenerateUrl_recognized_witness :
  carrierCode (detectCarrierAndGenerateUrl "TBA123456789012") <> "UNKNOWN" /\
  (10 <= String.length "TBA123456789012" <= 22)%nat /\
  forallb isUpperAlnum (list_ascii_of_string "TBA123456789012") = true.
Proof.
  assert (Hc : carrierCode (detectCarrierAndGenerateUrl "TBA123456789012")
               <> "UNKNOWN") by (vm_compute; discriminate).
  split; [exact Hc|].
  apply (detectCarrierAndGenerateUrl_recognized "TBA123456789012" Hc).
Defined.

(** X6: among the five patterns only those of USPS and FedEx can match
    the same tracking number; every other pair is disjoint, so the order
    of the rules matters for that pair alone. *)
Theorem carrier_patterns_overlap (trackingNumber : string) :
  test upsPattern trackingNumber && test uspsPattern trackingNumber = false /\
  test upsPattern trackingNumber && test fedexPattern trackingNumber = false /\
  test upsPattern trackingNumber && test dhlPattern trackingNumber = false /\
  test upsPattern trackingNumber && test amazonPattern trackingNumber = false /\
  test uspsPattern trackingNumber && test dhlPattern trackingNumber = false /\
  test uspsPattern trackingNumber && test amazonPattern trackingNumber = false /\
  test fedexPattern trackingNumber && test dhlPattern trackingNumber = false /\
  test fedexPattern trackingNumber && test amazonPattern trackingNumber = false /\
  test dhlPattern trackingNumber && test amazonPattern trackingNumber = false.
Proof.
  rewrite test_upsPattern, test_uspsPattern, test_fedexPattern, test_dhlPattern,
    test_amazonPattern.
  set (w := list_ascii_of_string trackingNumber).
  assert (Hups := upsShape_length w). assert (Husps := uspsShape_length w).
  assert (Hfedex := fedexShape_length w). assert (Hdhl := dhlShape_length w).
  assert (Hamazon := amazonShape_length w).
  assert (Hchars := amazonShape_not_digits w).
  assert (Hfd : fedexShape w = true -> forallb isDigit w = true)
    by (unfold fedexShape; intros Hf; apply andb_true_iff in Hf; tauto).
  simpl in Hfedex, Hdhl.
  destruct (upsShape w), (uspsShape w), (fedexShape w), (dhlShape w),
    (amazonShape w); simpl; repeat split;
    try reflexivity; exfalso;
    repeat match goal with
           | H : true = true -> _ |- _ => specialize (H eq_refl)
           | H : false = true -> _ |- _ => clear H
           end; try congruence; intuition lia.
Qed.

(** The overlap of USPS and FedEx is real: 22 digits that start with 94. *)
Example carrier_patterns_usps_fedex :
  test uspsPattern "9400111899223344556677"
  && test fedexPattern "9400111899223344556677" = true.
Proof. vm_compute. reflexivity. Qed.

(** ** Display times, delivery status and the main tracking number *)

Section DisplayAndStatus.

Lemma randomBelow_lt k s : (0 < k)%nat -> (fst (randomBelow k s) < k)%nat.
Proof.
  intros Hk. unfold randomBelow. destruct k as [|k]; [lia|].
  change (s 0%nat mod S k < S k)%nat.
  apply Nat.mod_upper_bound. lia.
Qed.

Lemma padStart2_minute m :
  (m < 60)%nat ->
  padStart2 (pretty m) = pretty (m / 10)%nat +:+ pretty (m mod 10)%nat.
Proof.
  intros Hm.
  do 60 (destruct m as [|m]; [vm_compute; reflexivity|]). lia.
Qed.

Lemma clock12_hour h period hour :
  (h < 24)%nat ->
  (if (12 <? h)%nat then ((h - 12)%nat, "PM")
   else if (h =? 12)%nat then (h, "PM")
   else if (h =? 0)%nat then (12%nat, "AM")
   else (h, "AM")) = (hour, period) ->
  hour = ((h + 11) mod 12 + 1)%nat /\
  period = (if (h <? 12)%nat then "AM" else "PM").
Proof.
  intros Hh.
  do 24 (destruct h as [|h]; [simpl; intros [= <- <-]; split; reflexivity|]).
  lia.
Qed.

End DisplayAndStatus.

(** X7: [generateRealisticTime] always writes a time of the 12-hour
    clock (hour 1 to 12, two-digit minute below 60, AM or PM), whose hour
    on the 24-hour clock lies in the window of the status: 9 to 16 for an
    order confirmed or processed, 6 to 9 for a label or a pickup, 8 to 10
    out for delivery, 10 to 17 delivered, any hour otherwise. *)
Theorem generateRealisticTime_clock (date : Date) (status : string)
    (s : RandomSource) :
  exists h m : nat,
    (fst (hourWindow status) <= h <= snd (hourWindow status))%nat /\
    (h < 24)%nat /\ (m < 60)%nat /\
    fst (generateRealisticTime date status s) = clock12 h m.
Proof.
  unfold generateRealisticTime, hourWindow, bind, ret.
  assert (Hfmt : forall h s1,
            (h < 24)%nat ->
            exists m, (m < 60)%nat /\
              fst (let (minute, s2) := randomBelow 60 s1 in
                   (let '(hour, period) :=
                      if (12 <? h)%nat then ((h - 12)%nat, "PM")
                      else if (h =? 12)%nat then (h, "PM")
                      else if (h =? 0)%nat then (12%nat, "AM")
                      else (h, "AM") in
                    fun s3 => (pretty hour +:+ ":" +:+ padStart2 (pretty minute)
                               +:+ " " +:+ period, s3)) s2) = clock12 h m).
  { intros h s1 Hh.
    pose proof (randomBelow_lt 60 s1 ltac:(lia)) as Hm.
    destruct (randomBelow 60 s1) as [minute s2]. simpl in Hm.
    exists minute. split; [exact Hm|].
    destruct (if (12 <? h)%nat then ((h - 12)%nat, "PM")
              else if (h =? 12)%nat then (h, "PM")
              else if (h =? 0)%nat then (12%nat, "AM")
              else (h, "AM")) as [hour period] eqn:Hclock.
    apply clock12_hour in Hclock as [-> ->]; [|exact Hh].
    cbn [fst]. unfold clock12. rewrite padStart2_minute by exact Hm.
    reflexivity. }
  destruct (String.eqb status "Order Confirmed" || String.eqb status "Order Processed").
  { pose proof (randomBelow_lt 8 s ltac:(lia)) as Hr.
    destruct (randomBelow 8 s) as [r s1]. simpl in Hr.
    destruct (Hfmt (r + 9)%nat s1 ltac:(lia)) as (m & Hm & Heq).
    exists (r + 9)%nat, m. cbn [fst snd]. repeat split; try lia. exact Heq. }
  destruct (String.eqb status "Package Picked Up" || String.eqb status "Label Created").
  { pose proof (randomBelow_lt 4 s ltac:(lia)) as Hr.
    destruct (randomBelow 4 s) as [r s1]. simpl in Hr.
    destruct (Hfmt (r + 6)%nat s1 ltac:(lia)) as (m & Hm & Heq).
    exists (r + 6)%nat, m. cbn [fst snd]. repeat split; try lia. exact Heq. }
  destruct (String.eqb status "Out for Delivery").
  { pose proof (randomBelow_lt 3 s ltac:(lia)) as Hr.
    destruct (randomBelow 3 s) as [r s1]. simpl in Hr.
    destruct (Hfmt (r + 8)%nat s1 ltac:(lia)) as (m & Hm & Heq).
    exists (r + 8)%nat, m. cbn [fst snd]. repeat split; try lia. exact Heq. }
  destruct (String.eqb status "Delivered").
  { pose proof (randomBelow_lt 8 s ltac:(lia)) as Hr.
    destruct (randomBelow 8 s) as [r s1]. simpl in Hr.
    destruct (Hfmt (r + 10)%nat s1 ltac:(lia)) as (m & Hm & Heq).
    exists (r + 10)%nat, m. cbn [fst snd]. repeat split; try lia. exact Heq. }
  pose proof (randomBelow_lt 24 s ltac:(lia)) as Hr.
  destruct (randomBelow 24 s) as [r s1]. simpl in Hr.
  destruct (Hfmt r s1 ltac:(lia)) as (m & Hm & Heq).
  exists r, m. cbn [fst snd]. repeat split; try lia. exact Heq.
Qed.

(** X8: the order is reported delivered exactly when one of its
    fulfillments succeeded and is delivered; the delivery date is then
    the update stamp of the first such fulfillment, and there is no
    delivery date for an order that is not delivered. *)
Theorem deliveryOf_first_delivered (fulfillments : list ShopifyFulfillment) :
  (fst (deliveryOf fulfillments) = true <->
   exists f, In f fulfillments /\ f_status f = Some "success" /\
             f_shipment_status f = Some "delivered") /\
  (fst (deliveryOf fulfillments) = false -> snd (deliveryOf fulfillments) = None) /\
  (forall before f after,
     fulfillments = before ++ f :: after ->
     f_status f = Some "success" ->
     f_shipment_status f = Some "delivered" ->
     fst (deliveryOf before) = false ->
     deliveryOf fulfillments = (true, f_updated_at f)).
Proof.
  split; [|split].
  - induction fulfillments as [|f rest IH]; simpl.
    + split; [discriminate | intros (f & [] & _)].
    + destruct (bool_decide (f_status f = Some "success")
                && bool_decide (f_shipment_status f = Some "delivered")) eqn:Hf.
      * simpl. split; [|reflexivity]. intros _.
        apply andb_true_iff in Hf as [H1 H2].
        apply bool_decide_eq_true in H1, H2. exists f. auto.
      * rewrite IH. split.
        -- intros (g & Hin & Hg). exists g. auto.
        -- intros (g & [<- | Hin] & H1 & H2).
           ++ rewrite (bool_decide_eq_true_2 _ H1),
                (bool_decide_eq_true_2 _ H2) in Hf. discriminate.
           ++ exists g. auto.
  - induction fulfillments as [|f rest IH]; simpl; [reflexivity|].
    destruct (bool_decide _ && bool_decide _); [discriminate | exact IH].
  - intros before f after -> H1 H2.
    induction before as [|g before IH]; simpl.
    + rewrite (bool_decide_eq_true_2 _ H1), (bool_decide_eq_true_2 _ H2).
      reflexivity.
    + destruct (bool_decide _ && bool_decide _); [discriminate | exact IH].
Qed.

(** X9: the main tracking number of an order is read off the first
    fulfillment that carries a tracking number, which is the fulfillment
    whose creation date the synthesizer anchors on: its [tracking_number]
    when that is not empty, else the first of its [tracking_numbers]; an
    order without such a fulfillment has no main tracking number. *)
Theorem getMainTrackingNumber_first_tracked (order : Order) :
  getMainTrackingNumber order =
  match find hasTracking (o_fulfillments order) with
  | Some f =>
      if truthy (tracking_number f) then tracking_number f
      else match tracking_numbers f with
           | Some (first :: _) => Some first
           | _ => None
           end
  | None => None
  end.
Proof.
  unfold getMainTrackingNumber.
  induction (o_fulfillments order) as [|f rest IH]; simpl; [reflexivity|].
  unfold hasTracking.
  destruct (truthy (tracking_number f)) eqn:Ht; simpl.
  - rewrite Ht. reflexivity.
  - destruct (tracking_numbers f) as [[|first others]|] eqn:Hn; simpl;
      try exact IH. rewrite Ht, Hn. reflexivity.
Qed.

(** ** The create handler: outcomes and replacement tracking *)

Section Creation.
Context {tz : TimeZone}.

(** What a created page is stored as. *)
Lemma createStatusPage_created now pageId body shopifyResult metafield
    (tempStatusPages : gmap string StatusPage) (s : RandomSource) id data
    isReplacement :
  fst (fst (createStatusPage now pageId body shopifyResult metafield
              tempStatusPages s)) = Created id data isReplacement ->
  snd (fst (createStatusPage now pageId body shopifyResult metafield
              tempStatusPages s)) = <[pageId := data]> tempStatusPages /\
  sp_saved data = false /\ sp_lastUpdated data = now.
Proof.
  unfold createStatusPage. cbv zeta.
  destruct (String.eqb (rq_orderNumber body) "" || String.eqb (rq_trackingNumber body) "");
    [discriminate|].
  destruct shopifyResult as [order|err]; [|discriminate].
  destruct (matchTracking _ _ _ _) as [[isReplacement' effective]|]; [|discriminate].
  destruct (isValid (validatePickupDate now effective (o_createdAt order)));
    cbn [negb]; unfold bind, ret; [|discriminate].
  destruct (generateRealisticTrackingEventsWithFulfillment _ _ _ _ _ _ _ _ s)
    as [events s1].
  cbn [fst snd]. intros [= <- <- <-]. auto.
Qed.

(** A rejected request leaves the stored pages as they were. *)
Lemma createStatusPage_rejected now pageId body shopifyResult metafield
    (tempStatusPages : gmap string StatusPage) (s : RandomSource) httpStatus err :
  fst (fst (createStatusPage now pageId body shopifyResult metafield
              tempStatusPages s)) = Rejected httpStatus err ->
  snd (fst (createStatusPage now pageId body shopifyResult metafield
              tempStatusPages s)) = tempStatusPages.
Proof.
  unfold createStatusPage. cbv zeta.
  destruct (String.eqb (rq_orderNumber body) "" || String.eqb (rq_trackingNumber body) "");
    [reflexivity|].
  destruct shopifyResult as [order|err']; [|reflexivity].
  destruct (matchTracking _ _ _ _) as [[isReplacement' effective]|]; [|reflexivity].
  destruct (isValid (validatePickupDate now effective (o_createdAt order)));
    cbn [negb]; unfold bind, ret; [|reflexivity].
  destruct (generateRealisticTrackingEventsWithFulfillment _ _ _ _ _ _ _ _ s)
    as [events s1].
  cbn [fst snd]. discriminate.
Qed.

End Creation.

(** X10: whatever the request and the answers of the backend, a rejected
    create request (status 400 or 404) leaves the stored pages and the
    random source as they were, and a created page is stored under the
    drawn identifier, unsaved, stamped with the clock, with the tracking
    number of the request, the carrier the classifier gives, a pickup date
    that passed validation and the events synthesized for it. *)
Theorem createStatusPage_outcomes {tz : TimeZone} (now : Date) (pageId : string)
    (body : CreateRequest) (shopifyResult : ShopifyResult)
    (metafield : option Metafield) (tempStatusPages : gmap string StatusPage)
    (s : RandomSource) :
  match fst (fst (createStatusPage now pageId body shopifyResult metafield
                    tempStatusPages s)) with
  | Rejected httpStatus _ =>
      (httpStatus = 400 \/ httpStatus = 404)%nat /\
      snd (fst (createStatusPage now pageId body shopifyResult metafield
                  tempStatusPages s)) = tempStatusPages /\
      snd (createStatusPage now pageId body shopifyResult metafield
             tempStatusPages s) = s
  | Created id data isReplacement =>
      id = pageId /\
      snd (fst (createStatusPage now pageId body shopifyResult metafield
                  tempStatusPages s)) = <[pageId := data]> tempStatusPages /\
      sp_saved data = false /\
      sp_createdAt data = now /\ sp_lastUpdated data = now /\
      sp_trackingNumber data = rq_trackingNumber body /\
      sp_isReplacementTracking data = isReplacement /\
      sp_carrierCode data
        = carrierCode (detectCarrierAndGenerateUrl (rq_trackingNumber body)) /\
      sp_trackingUrl data
        = trackingUrl (detectCarrierAndGenerateUrl (rq_trackingNumber body)) /\
      exists order,
        shopifyResult = ShopifyOrder order /\
        isValid (validatePickupDate now (sp_customPickupDate data)
                   (o_createdAt order)) = true /\
        sp_events data =
          fst (generateRealisticTrackingEventsWithFulfillment now
                 (o_createdAt order) (city (o_shippingAddress order))
                 (provinceCode (o_shippingAddress order)) (o_isDelivered order)
                 (o_deliveryDate order) (o_fulfillments order)
                 (sp_customPickupDate data) s)
  end.
Proof.
  unfold createStatusPage. cbv zeta.
  destruct (String.eqb (rq_orderNumber body) "" || String.eqb (rq_trackingNumber body) "");
    [simpl; auto|].
  destruct shopifyResult as [order|err]; [|simpl; auto].
  destruct (matchTracking _ _ _ _) as [[isReplacement effective]|]; [|simpl; auto].
  destruct (isValid (validatePickupDate now effective (o_createdAt order))) eqn:Hv;
    cbn [negb]; unfold bind, ret; [|cbn [fst snd]; auto].
  destruct (generateRealisticTrackingEventsWithFulfillment now (o_createdAt order)
              (city (o_shippingAddress order))
              (provinceCode (o_shippingAddress order)) (o_isDelivered order)
              (o_deliveryDate order) (o_fulfillments order) effective s)
    as [events s1] eqn:Hsynth.
  cbn [fst snd sp_saved sp_createdAt sp_lastUpdated sp_trackingNumber
       sp_isReplacementTracking sp_carrierCode sp_trackingUrl
       sp_customPickupDate sp_events].
  repeat split. exists order. rewrite Hsynth. auto.
Qed.

(** X11: when the tracking number of the request is the value of the
    replacement-tracking metafield and the metafield carries an update
    stamp, the pickup date of the request plays no part: the outcome is
    the same for any two pickup dates, and a created page is flagged as a
    replacement with the stamp of the metafield as its pickup date. *)
Theorem createStatusPage_replacement_date {tz : TimeZone} (now : Date)
    (pageId orderNumber trackingNumber : string) (p1 p2 : option Date)
    (shopifyResult : ShopifyResult) (mf : Metafield) (stamp : Date)
    (tempStatusPages : gmap string StatusPage) (s : RandomSource) :
  mf_value mf = trackingNumber ->
  mf_updated_at mf = Some stamp ->
  createStatusPage now pageId (mkRequest orderNumber trackingNumber p1)
    shopifyResult (Some mf) tempStatusPages s
  = createStatusPage now pageId (mkRequest orderNumber trackingNumber p2)
      shopifyResult (Some mf) tempStatusPages s /\
  match fst (fst (createStatusPage now pageId
                    (mkRequest orderNumber trackingNumber p1)
                    shopifyResult (Some mf) tempStatusPages s)) with
  | Created _ data isReplacement =>
      isReplacement = true /\ sp_customPickupDate data = Some stamp
  | Rejected _ _ => True
  end.
Proof.
  intros Hv Hs. unfold createStatusPage. cbv zeta.
  cbn [rq_orderNumber rq_trackingNumber rq_pickupDate].
  destruct (String.eqb orderNumber "" || String.eqb trackingNumber "");
    [simpl; auto|].
  destruct shopifyResult as [order|err]; [|simpl; auto].
  unfold matchTracking. rewrite Hv, String.eqb_refl, Hs.
  destruct (isValid (validatePickupDate now (Some stamp) (o_createdAt order)));
    cbn [negb]; unfold bind, ret; [|cbn [fst snd]; auto].
  destruct (generateRealisticTrackingEventsWithFulfillment _ _ _ _ _ _ _ _ s)
    as [events s1].
  cbn [fst snd sp_customPickupDate]. auto.
Qed.

(** An order of 1 January 2024 whose replacement tracking was recorded on
    10 January: the pickup dates 2 and 5 January of the request make no
    difference. *)
Lemma createStatusPage_replacement_date_witness :
  mf_value (mkMetafield "TBA123456789012" (Some 1704844800000))
  = "TBA123456789012" /\
  mf_updated_at (mkMetafield "TBA123456789012" (Some 1704844800000))
  = Some 1704844800000 /\
  createStatusPage (tz:=UTC) 1706659200000 "00aa11bb22cc33dd"
    (mkRequest "#1001" "TBA123456789012" (Some 1704153600000))
    (ShopifyOrder
       (mkOrder 1 "#1001" 1704067200000 (Some "fulfilled") false None
          (mkAddress "Austin" "TX" "73301") (mkCustomer "Ada" "Doe")
          [mkFulfillment (Some "1Z12345E0205271688") None 1704153600000]))
    (Some (mkMetafield "TBA123456789012" (Some 1704844800000))) ∅
    (fun _ => 0%nat)
  = createStatusPage (tz:=UTC) 1706659200000 "00aa11bb22cc33dd"
      (mkRequest "#1001" "TBA123456789012" (Some 1704412800000))
      (ShopifyOrder
         (mkOrder 1 "#1001" 1704067200000 (Some "fulfilled") false None
            (mkAddress "Austin" "TX" "73301") (mkCustomer "Ada" "Doe")
            [mkFulfillment (Some "1Z12345E0205271688") None 1704153600000]))
      (Some (mkMetafield "TBA123456789012" (Some 1704844800000))) ∅
      (fun _ => 0%nat).
Proof.
  split; [reflexivity|]. split; [reflexivity|].
  exact (proj1 (createStatusPage_replacement_date (tz:=UTC) 1706659200000
                  "00aa11bb22cc33dd" "#1001" "TBA123456789012"
                  (Some 1704153600000) (Some 1704412800000) _
                  (mkMetafield "TBA123456789012" (Some 1704844800000))
                  1704844800000 ∅ (fun _ => 0%nat) eq_refl eq_refl)).
Defined.

(** ** The page stores: lifecycle, saving, reading, clean-up *)

(** X12: the life of a created page.  It can be read back from the
    temporary store; if it is not saved, the timer drops it and the store
    is as if nothing had been created; once saved, it is marked saved,
    the timer leaves it alone, and with a working database the
    collection holds the same page, stamped with the time of the save. *)
Theorem created_page_lifecycle {tz : TimeZone} (now : Date) (pageId : string)
    (body : CreateRequest) (shopifyResult : ShopifyResult)
    (metafield : option Metafield) (tempStatusPages : gmap string StatusPage)
    (s : RandomSource) (id : string) (data : StatusPage) (isReplacement : bool)
    (later : Date) (dbWriteOk : bool) (db : option (gmap string DbDoc)) :
  fst (fst (createStatusPage now pageId body shopifyResult metafield
              tempStatusPages s)) = Created id data isReplacement ->
  snd (fst (createStatusPage now pageId body shopifyResult metafield
              tempStatusPages s)) !! pageId = Some data /\
  expireTempPage pageId
    (snd (fst (createStatusPage now pageId body shopifyResult metafield
                 tempStatusPages s)))
  = delete pageId tempStatusPages /\
  snd (saveStatusPage later pageId dbWriteOk db
         (snd (fst (createStatusPage now pageId body shopifyResult metafield
                      tempStatusPages s)))) !! pageId
  = Some (withSaved data true) /\
  expireTempPage pageId
    (snd (saveStatusPage later pageId dbWriteOk db
            (snd (fst (createStatusPage now pageId body shopifyResult metafield
                         tempStatusPages s)))))
  = snd (saveStatusPage later pageId dbWriteOk db
           (snd (fst (createStatusPage now pageId body shopifyResult metafield
                        tempStatusPages s)))) /\
  docOf (snd (fst (saveStatusPage later pageId dbWriteOk db
                     (snd (fst (createStatusPage now pageId body shopifyResult
                                  metafield tempStatusPages s)))))) pageId
  = match db with
    | Some _ =>
        if dbWriteOk then Some (mkDbDoc (withSaved data true) later)
        else docOf db pageId
    | None => None
    end.
Proof.
  intros Hcreated.
  destruct (createStatusPage_created now pageId body shopifyResult metafield
              tempStatusPages s id data isReplacement Hcreated)
    as (Hstore & Hsaved & _).
  rewrite Hstore. clear Hstore Hcreated.
  assert (Hget : <[pageId := data]> tempStatusPages !! pageId = Some data)
    by apply lookup_insert_eq.
  split; [exact Hget|]. split.
  { unfold expireTempPage. rewrite Hget, Hsaved. simpl.
    apply delete_insert_eq. }
  unfold saveStatusPage. rewrite Hget. cbn [fst snd].
  split; [apply lookup_insert_eq|]. split.
  { unfold expireTempPage. rewrite lookup_insert_eq. reflexivity. }
  unfold docOf. destruct db as [docs|]; [|reflexivity].
  destruct dbWriteOk; [apply lookup_insert_eq | reflexivity].
Qed.

(** The request of the example, created, saved and expired. *)
Lemma created_page_lifecycle_witness :
  exists data,
    fst (fst (createStatusPage (tz:=UTC) 1706659200000 "00aa11bb22cc33dd"
                (mkRequest "#1001" "1Z12345E0205271688" None)
                (ShopifyOrder
                   (mkOrder 1 "#1001" 1704067200000 (Some "fulfilled") false None
                      (mkAddress "Austin" "TX" "73301") (mkCustomer "Ada" "Doe")
                      [mkFulfillment (Some "1Z12345E0205271688") None
                         1704153600000]))
                None ∅ (fun _ => 0%nat)))
    = Created "00aa11bb22cc33dd" data false /\
    expireTempPage "00aa11bb22cc33dd"
      (snd (fst (createStatusPage (tz:=UTC) 1706659200000 "00aa11bb22cc33dd"
                   (mkRequest "#1001" "1Z12345E0205271688" None)
                   (ShopifyOrder
                      (mkOrder 1 "#1001" 1704067200000 (Some "fulfilled") false
                         None (mkAddress "Austin" "TX" "73301")
                         (mkCustomer "Ada" "Doe")
                         [mkFulfillment (Some "1Z12345E0205271688") None
                            1704153600000]))
                   None ∅ (fun _ => 0%nat))))
    = delete "00aa11bb22cc33dd" ∅.
Proof.
  eexists. split; [vm_compute; reflexivity|].
  refine (proj1 (proj2 (created_page_lifecycle (tz:=UTC) 1706659200000
                          "00aa11bb22cc33dd" _ _ None ∅ (fun _ => 0%nat) _ _ _
                          1706662800000 true None _))).
  vm_compute. reflexivity.
Defined.

(** X13: saving a page that the temporary store does not hold answers
    404 and changes nothing; saving a page it holds answers success
    whether or not the database is there and the write went through, and
    saving it again leaves the temporary store as the first save left
    it. *)
Theorem saveStatusPage_repeat (now later : Date) (pageId : string)
    (dbWriteOk dbWriteOk' : bool) (db : option (gmap string DbDoc))
    (tempStatusPages : gmap string StatusPage) :
  match tempStatusPages !! pageId with
  | None =>
      saveStatusPage now pageId dbWriteOk db tempStatusPages
      = (SaveRejected 404 "Status page not found or already expired", db,
         tempStatusPages)
  | Some _ =>
      exists message,
        fst (fst (saveStatusPage now pageId dbWriteOk db tempStatusPages))
        = SaveOk message
  end /\
  snd (saveStatusPage later pageId dbWriteOk'
         (snd (fst (saveStatusPage now pageId dbWriteOk db tempStatusPages)))
         (snd (saveStatusPage now pageId dbWriteOk db tempStatusPages)))
  = snd (saveStatusPage now pageId dbWriteOk db tempStatusPages).
Proof.
  destruct (tempStatusPages !! pageId) as [page|] eqn:Hpage.
  - assert (Hfirst : exists message db',
              saveStatusPage now pageId dbWriteOk db tempStatusPages
              = (SaveOk message, db',
                 <[pageId := withSaved page true]> tempStatusPages))
      by (unfold saveStatusPage; rewrite Hpage; eauto).
    destruct Hfirst as (message & db' & ->). cbn [fst snd].
    split; [eauto|]. unfold saveStatusPage.
    rewrite lookup_insert_eq. cbn [snd]. rewrite insert_insert_eq. reflexivity.
  - assert (Hfirst : saveStatusPage now pageId dbWriteOk db tempStatusPages
                     = (SaveRejected 404 "Status page not found or already expired",
                        db, tempStatusPages))
      by (unfold saveStatusPage; rewrite Hpage; reflexivity).
    rewrite Hfirst. cbn [fst snd]. split; [reflexivity|].
    unfold saveStatusPage. rewrite Hpage. reflexivity.
Qed.

(** X14: the handlers and the clean-up only ever leave saved pages in
    the database: if every document is marked saved before a save, a
    read or a clean-up, every document is marked saved after it. *)
Theorem database_holds_saved_pages {tz : TimeZone} (now : Date) (pageId : string)
    (ok ok' : bool) (shopifyResult : ShopifyResult) (metafield : option Metafield)
    (db : option (gmap string DbDoc)) (tempStatusPages : gmap string StatusPage)
    (s : RandomSource) :
  allSaved db ->
  allSaved (snd (fst (saveStatusPage now pageId ok db tempStatusPages))) /\
  allSaved (snd (fst (fst (getStatusPage now pageId ok ok' shopifyResult
                             metafield db tempStatusPages s)))) /\
  allSaved (cleanupExpiredPages now ok db).
Proof.
  intros Hdb. split; [|split].
  - unfold saveStatusPage.
    destruct (tempStatusPages !! pageId) as [page|]; [|exact Hdb].
    cbn [fst snd]. destruct db as [docs|]; [|exact Hdb].
    destruct ok; [|exact Hdb].
    intros docs' id doc [= <-] Hdoc.
    destruct (decide (pageId = id)) as [->|Hne].
    + rewrite lookup_insert_eq in Hdoc. injection Hdoc as <-. reflexivity.
    + rewrite lookup_insert_ne in Hdoc by exact Hne. eapply Hdb; eauto.
  - unfold getStatusPage. cbv zeta.
    destruct (match match db with
                    | Some docs => if ok then docs !! pageId else None
                    | None => None
                    end with
              | Some doc => Some (doc_page doc, Some (doc_savedAt doc))
              | None =>
                  match tempStatusPages !! pageId with
                  | Some page => Some (page, None)
                  | None => None
                  end
              end) as [[page savedAt]|]; [|exact Hdb].
    destruct (4 * (1000 * 60 * 60) <=? now - sp_lastUpdated page); [|exact Hdb].
    destruct shopifyResult as [order|err]; [|exact Hdb].
    unfold bind, ret.
    destruct (generateRealisticTrackingEventsWithFulfillment _ _ _ _ _ _ _ _ s)
      as [events s1].
    destruct db as [docs|]; [|exact Hdb].
    destruct (sp_saved (refreshedPage page _ order events now)) eqn:Hsaved;
      [|exact Hdb].
    cbn [fst snd].
    destruct (docs !! pageId) as [old|]; [|exact Hdb].
    destruct ok'; [|exact Hdb].
    intros docs' id doc [= <-] Hdoc.
    destruct (decide (pageId = id)) as [->|Hne].
    + rewrite lookup_insert_eq in Hdoc. injection Hdoc as <-. exact Hsaved.
    + rewrite lookup_insert_ne in Hdoc by exact Hne. eapply Hdb; eauto.
  - unfold cleanupExpiredPages. destruct db as [docs|]; [|exact Hdb].
    destruct ok; [|exact Hdb].
    intros docs' id doc [= <-] Hdoc.
    apply map_lookup_filter_Some in Hdoc as [Hdoc _]. eapply Hdb; eauto.
Qed.

(** A database with one saved page. *)
Lemma database_holds_saved_pages_witness :
  allSaved
    (Some {[ "00aa11bb22cc33dd" :=
               mkDbDoc (mkStatusPage "Ada Doe" "#1001" "1Z12345E0205271688" "UPS"
                          "UPS" "" "Austin, TX 73301"
                          (mkAddress "Austin" "TX" "73301") None false None []
                          None false None 1706659200000 1706659200000 true)
                 1706662800000 ]}) /\
  allSaved
    (cleanupExpiredPages 1709251200000 true
       (Some {[ "00aa11bb22cc33dd" :=
                  mkDbDoc (mkStatusPage "Ada Doe" "#1001" "1Z12345E0205271688"
                             "UPS" "UPS" "" "Austin, TX 73301"
                             (mkAddress "Austin" "TX" "73301") None false None []
                             None false None 1706659200000 1706659200000 true)
                    1706662800000 ]})).
Proof.
  assert (H : allSaved
    (Some {[ "00aa11bb22cc33dd" :=
               mkDbDoc (mkStatusPage "Ada Doe" "#1001" "1Z12345E0205271688" "UPS"
                          "UPS" "" "Austin, TX 73301"
                          (mkAddress "Austin" "TX" "73301") None false None []
                          None false None 1706659200000 1706659200000 true)
                 1706662800000 ]})).
  { intros docs id doc [= <-] Hdoc.
    apply lookup_singleton_Some in Hdoc as [_ <-]. reflexivity. }
  split; [exact H|].
  exact (proj2 (proj2 (database_holds_saved_pages (tz:=UTC) 1709251200000 ""
                         true true (ShopifyError "") None _ ∅ (fun _ => 0%nat) H))).
Defined.

Section Reading.
Context {tz : TimeZone}.

(** A read of a page of the temporary store that the database does not
    hold, less than four hours after its last update. *)
Lemma getStatusPage_fresh_temp now pageId dbReadOk dbUpdateOk shopifyResult
    metafield db tempStatusPages s page :
  docOf db pageId = None ->
  tempStatusPages !! pageId = Some page ->
  now - sp_lastUpdated page < 4 * (1000 * 60 * 60) ->
  getStatusPage now pageId dbReadOk dbUpdateOk shopifyResult metafield db
    tempStatusPages s
  = (StatusOk page None, db, tempStatusPages, s).
Proof.
  intros Hdb Htemp Hfresh. unfold getStatusPage. cbv zeta.
  assert (Hread : match db with
                  | Some docs => if dbReadOk then docs !! pageId else None
                  | None => None
                  end = None).
  { destruct db as [docs|]; [|reflexivity]. simpl in Hdb. rewrite Hdb.
    destruct dbReadOk; reflexivity. }
  rewrite Hread, Htemp.
  rewrite (proj2 (Z.leb_gt _ _) Hfresh). reflexivity.
Qed.

(** A read of a document of the database, less than four hours after its
    last update. *)
Lemma getStatusPage_fresh_doc now pageId dbUpdateOk shopifyResult metafield
    docs tempStatusPages s doc :
  docs !! pageId = Some doc ->
  now - sp_lastUpdated (doc_page doc) < 4 * (1000 * 60 * 60) ->
  getStatusPage now pageId true dbUpdateOk shopifyResult metafield (Some docs)
    tempStatusPages s
  = (StatusOk (doc_page doc) (Some (doc_savedAt doc)), Some docs,
     tempStatusPages, s).
Proof.
  intros Hdoc Hfresh. unfold getStatusPage. cbv zeta. rewrite Hdoc.
  rewrite (proj2 (Z.leb_gt _ _) Hfresh). reflexivity.
Qed.

End Reading.



(** X16: a saved page is served from the database: after a save whose
    write went through, a read less than four hours after the last
    update of the page answers with the page marked saved and the stamp
    of the save, and changes nothing. *)
Theorem saved_page_read_back {tz : TimeZone} (saveTime now : Date)
    (pageId : string) (dbUpdateOk : bool) (shopifyResult : ShopifyResult)
    (metafield : option Metafield) (docs : gmap string DbDoc)
    (tempStatusPages : gmap string StatusPage) (page : StatusPage)
    (s : RandomSource) :
  tempStatusPages !! pageId = Some page ->
  now - sp_lastUpdated page < 4 * (1000 * 60 * 60) ->
  getStatusPage now pageId true dbUpdateOk shopifyResult metafield
    (snd (fst (saveStatusPage saveTime pageId true (Some docs) tempStatusPages)))
    (snd (saveStatusPage saveTime pageId true (Some docs) tempStatusPages)) s
  = (StatusOk (withSaved page true) (Some saveTime),
     snd (fst (saveStatusPage saveTime pageId true (Some docs) tempStatusPages)),
     snd (saveStatusPage saveTime pageId true (Some docs) tempStatusPages), s).
Proof.
  intros Hpage Hfresh. unfold saveStatusPage. rewrite Hpage. cbn [fst snd].
  apply (getStatusPage_fresh_doc now pageId dbUpdateOk shopifyResult metafield
           _ _ s (mkDbDoc (withSaved page true) saveTime)).
  - apply lookup_insert_eq.
  - exact Hfresh.
Qed.

(** A page saved one hour after its last update and read one hour later. *)
Lemma saved_page_read_back_witness :
  ({[ "00aa11bb22cc33dd" :=
        mkStatusPage "Ada Doe" "#1001" "1Z12345E0205271688" "UPS" "UPS" ""
          "Austin, TX 73301" (mkAddress "Austin" "TX" "73301") None false None
          [] None false None 1706659200000 1706659200000 false ]}
   : gmap string StatusPage) !! "00aa11bb22cc33dd"
  = Some (mkStatusPage "Ada Doe" "#1001" "1Z12345E0205271688" "UPS" "UPS" ""
            "Austin, TX 73301" (mkAddress "Austin" "TX" "73301") None false None
            [] None false None 1706659200000 1706659200000 false) /\
  1706666400000 - 1706659200000 < 4 * (1000 * 60 * 60) /\
  getStatusPage (tz:=UTC) 1706666400000 "00aa11bb22cc33dd" true true
    (ShopifyError "") None
    (snd (fst (saveStatusPage 1706662800000 "00aa11bb22cc33dd" true (Some ∅)
                 {[ "00aa11bb22cc33dd" :=
                      mkStatusPage "Ada Doe" "#1001" "1Z12345E0205271688" "UPS"
                        "UPS" "" "Austin, TX 73301"
                        (mkAddress "Austin" "TX" "73301") None false None []
                        None false None 1706659200000 1706659200000 false ]})))
    (snd (saveStatusPage 1706662800000 "00aa11bb22cc33dd" true (Some ∅)
            {[ "00aa11bb22cc33dd" :=
                 mkStatusPage "Ada Doe" "#1001" "1Z12345E0205271688" "UPS" "UPS"
                   "" "Austin, TX 73301" (mkAddress "Austin" "TX" "73301") None
                   false None [] None false None 1706659200000 1706659200000
                   false ]}))
    (fun _ => 0%nat)
  = (StatusOk
       (withSaved
          (mkStatusPage "Ada Doe" "#1001" "1Z12345E0205271688" "UPS" "UPS" ""
             "Austin, TX 73301" (mkAddress "Austin" "TX" "73301") None false
             None [] None false None 1706659200000 1706659200000 false) true)
       (Some 1706662800000),
     snd (fst (saveStatusPage 1706662800000 "00aa11bb22cc33dd" true (Some ∅)
                 {[ "00aa11bb22cc33dd" :=
                      mkStatusPage "Ada Doe" "#1001" "1Z12345E0205271688" "UPS"
                        "UPS" "" "Austin, TX 73301"
                        (mkAddress "Austin" "TX" "73301") None false None []
                        None false None 1706659200000 1706659200000 false ]})),
     snd (saveStatusPage 1706662800000 "00aa11bb22cc33dd" true (Some ∅)
            {[ "00aa11bb22cc33dd" :=
                 mkStatusPage "Ada Doe" "#1001" "1Z12345E0205271688" "UPS" "UPS"
                   "" "Austin, TX 73301" (mkAddress "Austin" "TX" "73301") None
                   false None [] None false None 1706659200000 1706659200000
                   false ]}),
     fun _ => 0%nat).
Proof.
  assert (Hpage :
    ({[ "00aa11bb22cc33dd" :=
          mkStatusPage "Ada Doe" "#1001" "1Z12345E0205271688" "UPS" "UPS" ""
            "Austin, TX 73301" (mkAddress "Austin" "TX" "73301") None false None
            [] None false None 1706659200000 1706659200000 false ]}
     : gmap string StatusPage) !! "00aa11bb22cc33dd"
    = Some (mkStatusPage "Ada Doe" "#1001" "1Z12345E0205271688" "UPS" "UPS" ""
              "Austin, TX 73301" (mkAddress "Austin" "TX" "73301") None false
              None [] None false None 1706659200000 1706659200000 false))
    by apply lookup_singleton_eq.
  assert (Hfresh : 1706666400000 - 1706659200000 < 4 * (1000 * 60 * 60)) by lia.
  split; [exact Hpage|]. split; [exact Hfresh|].
  exact (saved_page_read_back (tz:=UTC) 1706662800000 1706666400000
           "00aa11bb22cc33dd" true (ShopifyError "") None ∅ _ _
           (fun _ => 0%nat) Hpage Hfresh).
Defined.

Section Refreshing.
Context {tz : TimeZone}.

(** A read, four hours or more after the last update, of a page of the
    temporary store that the database does not hold. *)
Lemma getStatusPage_stale_temp now pageId dbReadOk dbUpdateOk order metafield db
    tempStatusPages s page :
  docOf db pageId = None ->
  tempStatusPages !! pageId = Some page ->
  4 * (1000 * 60 * 60) <= now - sp_lastUpdated page ->
  exists events s1,
    getStatusPage now pageId dbReadOk dbUpdateOk (ShopifyOrder order) metafield db
      tempStatusPages s
    = (StatusOk
         (refreshedPage page
            (detectCarrierAndGenerateUrl (sp_trackingNumber page)) order events
            now) None,
       db,
       match db with
       | Some _ =>
           if sp_saved page then tempStatusPages
           else <[pageId :=
                    refreshedPage page
                      (detectCarrierAndGenerateUrl (sp_trackingNumber page))
                      order events now]> tempStatusPages
       | None =>
           <[pageId :=
               refreshedPage page
                 (detectCarrierAndGenerateUrl (sp_trackingNumber page)) order
                 events now]> tempStatusPages
       end, s1).
Proof.
  intros Hdb Htemp Hstale. unfold getStatusPage. cbv zeta.
  assert (Hread : match db with
                  | Some docs => if dbReadOk then docs !! pageId else None
                  | None => None
                  end = None).
  { destruct db as [docs|]; [|reflexivity]. simpl in Hdb. rewrite Hdb.
    destruct dbReadOk; reflexivity. }
  rewrite Hread, Htemp. rewrite (proj2 (Z.leb_le _ _) Hstale).
  unfold bind, ret.
  destruct (generateRealisticTrackingEventsWithFulfillment _ _ _ _ _ _ _ _ s)
    as [events s1].
  exists events, s1. destruct db as [docs|]; [|reflexivity].
  cbn [sp_saved refreshedPage]. destruct (sp_saved page); [|reflexivity].
  simpl in Hdb. rewrite Hdb. reflexivity.
Qed.

End Refreshing.

(** X17: a refresh settles.  When a page that only the temporary store
    holds (no database, or a page not marked saved) is read four hours or
    more after its last update and the backend answers, the answer is a
    page with the same order number, tracking number, creation stamp,
    pickup date and saved flag, last updated now; it is stored in place of
    the old one, and a second read within four hours returns the very
    same data without drawing anything and without changing the stores. *)
Theorem refreshed_page_settles {tz : TimeZone} (now later : Date)
    (pageId : string) (dbReadOk dbUpdateOk dbReadOk' dbUpdateOk' : bool)
    (order : Order) (metafield : option Metafield)
    (shopifyResult' : ShopifyResult) (metafield' : option Metafield)
    (db : option (gmap string DbDoc)) (tempStatusPages : gmap string StatusPage)
    (page : StatusPage) (s s' : RandomSource) :
  docOf db pageId = None ->
  tempStatusPages !! pageId = Some page ->
  db = None \/ sp_saved page = false ->
  4 * (1000 * 60 * 60) <= now - sp_lastUpdated page ->
  later - now < 4 * (1000 * 60 * 60) ->
  exists data,
    fst (fst (fst (getStatusPage now pageId dbReadOk dbUpdateOk
                     (ShopifyOrder order) metafield db tempStatusPages s)))
    = StatusOk data None /\
    snd (fst (fst (getStatusPage now pageId dbReadOk dbUpdateOk
                     (ShopifyOrder order) metafield db tempStatusPages s))) = db /\
    snd (fst (getStatusPage now pageId dbReadOk dbUpdateOk
                (ShopifyOrder order) metafield db tempStatusPages s))
    = <[pageId := data]> tempStatusPages /\
    sp_lastUpdated data = now /\
    sp_orderNumber data = sp_orderNumber page /\
    sp_trackingNumber data = sp_trackingNumber page /\
    sp_createdAt data = sp_createdAt page /\
    sp_customPickupDate data = sp_customPickupDate page /\
    sp_saved data = sp_saved page /\
    getStatusPage later pageId dbReadOk' dbUpdateOk' shopifyResult' metafield' db
      (<[pageId := data]> tempStatusPages) s'
    = (StatusOk data None, db, <[pageId := data]> tempStatusPages, s').
Proof.
  intros Hdb Htemp Hwhere Hstale Hfresh.
  destruct (getStatusPage_stale_temp now pageId dbReadOk dbUpdateOk order
              metafield db tempStatusPages s page Hdb Htemp Hstale)
    as (events & s1 & ->).
  eexists. cbn [fst snd]. split; [reflexivity|]. split; [reflexivity|]. split.
  { destruct Hwhere as [-> | ->]; [reflexivity|].
    destruct db; reflexivity. }
  cbn [sp_lastUpdated sp_orderNumber sp_trackingNumber sp_createdAt
       sp_customPickupDate sp_saved refreshedPage].
  repeat (split; [reflexivity|]).
  apply getStatusPage_fresh_temp; [exact Hdb | apply lookup_insert_eq | exact Hfresh].
Qed.

(** An unsaved page last updated on 31 January, read on 1 February. *)
Lemma refreshed_page_settles_witness :
  docOf None "00aa11bb22cc33dd" = None /\
  ({[ "00aa11bb22cc33dd" :=
        mkStatusPage "Ada Doe" "#1001" "1Z12345E0205271688" "UPS" "UPS" ""
          "Austin, TX 73301" (mkAddress "Austin" "TX" "73301") None false None
          [] None false None 1706659200000 1706659200000 false ]}
   : gmap string StatusPage) !! "00aa11bb22cc33dd"
  = Some (mkStatusPage "Ada Doe" "#1001" "1Z12345E0205271688" "UPS" "UPS" ""
            "Austin, TX 73301" (mkAddress "Austin" "TX" "73301") None false None
            [] None false None 1706659200000 1706659200000 false) /\
  4 * (1000 * 60 * 60) <= 1706745600000 - 1706659200000 /\
  1706749200000 - 1706745600000 < 4 * (1000 * 60 * 60) /\
  exists data,
    fst (fst (fst (getStatusPage (tz:=UTC) 1706745600000 "00aa11bb22cc33dd" true
                     true
                     (ShopifyOrder
                        (mkOrder 1 "#1001" 1704067200000 (Some "fulfilled") false
                           None (mkAddress "Austin" "TX" "73301")
                           (mkCustomer "Ada" "Doe")
                           [mkFulfillment (Some "1Z12345E0205271688") None
                              1704153600000]))
                     None None
                     {[ "00aa11bb22cc33dd" :=
                          mkStatusPage "Ada Doe" "#1001" "1Z12345E0205271688"
                            "UPS" "UPS" "" "Austin, TX 73301"
                            (mkAddress "Austin" "TX" "73301") None false None []
                            None false None 1706659200000 1706659200000 false ]}
                     (fun _ => 0%nat))))
    = StatusOk data None /\
    sp_lastUpdated data = 1706745600000.
Proof.
  assert (Hpage :
    ({[ "00aa11bb22cc33dd" :=
          mkStatusPage "Ada Doe" "#1001" "1Z12345E0205271688" "UPS" "UPS" ""
            "Austin, TX 73301" (mkAddress "Austin" "TX" "73301") None false None
            [] None false None 1706659200000 1706659200000 false ]}
     : gmap string StatusPage) !! "00aa11bb22cc33dd"
    = Some (mkStatusPage "Ada Doe" "#1001" "1Z12345E0205271688" "UPS" "UPS" ""
              "Austin, TX 73301" (mkAddress "Austin" "TX" "73301") None false
              None [] None false None 1706659200000 1706659200000 false))
    by apply lookup_singleton_eq.
  assert (Hstale : 4 * (1000 * 60 * 60) <= 1706745600000 - 1706659200000) by lia.
  assert (Hfresh : 1706749200000 - 1706745600000 < 4 * (1000 * 60 * 60)) by lia.
  split; [reflexivity|]. split; [exact Hpage|]. split; [exact Hstale|].
  split; [exact Hfresh|].
  destruct (refreshed_page_settles (tz:=UTC) 1706745600000 1706749200000
              "00aa11bb22cc33dd" true true true true
              (mkOrder 1 "#1001" 1704067200000 (Some "fulfilled") false None
                 (mkAddress "Austin" "TX" "73301") (mkCustomer "Ada" "Doe")
                 [mkFulfillment (Some "1Z12345E0205271688") None 1704153600000])
              None (ShopifyError "") None None _ _ (fun _ => 0%nat)
              (fun _ => 0%nat) eq_refl Hpage (or_introl eq_refl) Hstale Hfresh)
    as (data & Hresp & _ & _ & Hupdated & _).
  exists data. split; [exact Hresp | exact Hupdated].
Defined.

(** X18: a page whose save did not reach the database never settles.
    After a save whose write failed, the page is marked saved in the
    temporary store and absent from the collection; a read four hours or
    more after its last update then answers with refreshed data, last
    updated now, but stores it nowhere: both stores stay as the save left
    them, the stored page keeping its old update stamp. *)
Theorem failed_save_never_settles {tz : TimeZone} (saveTime now : Date)
    (pageId : string) (dbReadOk dbUpdateOk : bool) (order : Order)
    (metafield : option Metafield) (docs : gmap string DbDoc)
    (tempStatusPages : gmap string StatusPage) (page : StatusPage)
    (s : RandomSource) :
  tempStatusPages !! pageId = Some page ->
  docs !! pageId = None ->
  4 * (1000 * 60 * 60) <= now - sp_lastUpdated page ->
  snd (fst (saveStatusPage saveTime pageId false (Some docs) tempStatusPages))
  = Some docs /\
  snd (saveStatusPage saveTime pageId false (Some docs) tempStatusPages) !! pageId
  = Some (withSaved page true) /\
  exists data,
    fst (fst (fst (getStatusPage now pageId dbReadOk dbUpdateOk
                     (ShopifyOrder order) metafield
                     (snd (fst (saveStatusPage saveTime pageId false (Some docs)
                                  tempStatusPages)))
                     (snd (saveStatusPage saveTime pageId false (Some docs)
                             tempStatusPages)) s)))
    = StatusOk data None /\
    sp_lastUpdated data = now /\
    snd (fst (fst (getStatusPage now pageId dbReadOk dbUpdateOk
                     (ShopifyOrder order) metafield
                     (snd (fst (saveStatusPage saveTime pageId false (Some docs)
                                  tempStatusPages)))
                     (snd (saveStatusPage saveTime pageId false (Some docs)
                             tempStatusPages)) s)))
    = Some docs /\
    snd (fst (getStatusPage now pageId dbReadOk dbUpdateOk
                (ShopifyOrder order) metafield
                (snd (fst (saveStatusPage saveTime pageId false (Some docs)
                             tempStatusPages)))
                (snd (saveStatusPage saveTime pageId false (Some docs)
                        tempStatusPages)) s))
    = snd (saveStatusPage saveTime pageId false (Some docs) tempStatusPages).
Proof.
  intros Hpage Hdocs Hstale. unfold saveStatusPage. rewrite Hpage. cbn [fst snd].
  split; [reflexivity|]. split; [apply lookup_insert_eq|].
  destruct (getStatusPage_stale_temp now pageId dbReadOk dbUpdateOk order
              metafield (Some docs)
              (<[pageId := withSaved page true]> tempStatusPages) s
              (withSaved page true) Hdocs (lookup_insert_eq _ _ _) Hstale)
    as (events & s1 & ->).
  eexists. cbn [fst snd sp_saved withSaved].
  split; [reflexivity|]. split; [reflexivity|]. split; reflexivity.
Qed.

(** A page last updated on 31 January, saved while the database write
    fails, read on 1 February. *)
Lemma failed_save_never_settles_witness :
  ({[ "00aa11bb22cc33dd" :=
        mkStatusPage "Ada Doe" "#1001" "1Z12345E0205271688" "UPS" "UPS" ""
          "Austin, TX 73301" (mkAddress "Austin" "TX" "73301") None false None
          [] None false None 1706659200000 1706659200000 false ]}
   : gmap string StatusPage) !! "00aa11bb22cc33dd"
  = Some (mkStatusPage "Ada Doe" "#1001" "1Z12345E0205271688" "UPS" "UPS" ""
            "Austin, TX 73301" (mkAddress "Austin" "TX" "73301") None false None
            [] None false None 1706659200000 1706659200000 false) /\
  (∅ : gmap string DbDoc) !! "00aa11bb22cc33dd" = None /\
  4 * (1000 * 60 * 60) <= 1706745600000 - 1706659200000 /\
  snd (fst (saveStatusPage 1706662800000 "00aa11bb22cc33dd" false (Some ∅)
              {[ "00aa11bb22cc33dd" :=
                   mkStatusPage "Ada Doe" "#1001" "1Z12345E0205271688" "UPS"
                     "UPS" "" "Austin, TX 73301"
                     (mkAddress "Austin" "TX" "73301") None false None [] None
                     false None 1706659200000 1706659200000 false ]}))
  = Some ∅.
Proof.
  assert (Hpage :
    ({[ "00aa11bb22cc33dd" :=
          mkStatusPage "Ada Doe" "#1001" "1Z12345E0205271688" "UPS" "UPS" ""
            "Austin, TX 73301" (mkAddress "Austin" "TX" "73301") None false None
            [] None false None 1706659200000 1706659200000 false ]}
     : gmap string StatusPage) !! "00aa11bb22cc33dd"
    = Some (mkStatusPage "Ada Doe" "#1001" "1Z12345E0205271688" "UPS" "UPS" ""
              "Austin, TX 73301" (mkAddress "Austin" "TX" "73301") None false
              None [] None false None 1706659200000 1706659200000 false))
    by apply lookup_singleton_eq.
  assert (Hdocs : (∅ : gmap string DbDoc) !! "00aa11bb22cc33dd" = None)
    by apply lookup_empty.
  assert (Hstale : 4 * (1000 * 60 * 60) <= 1706745600000 - 1706659200000) by lia.
  split; [exact Hpage|]. split; [exact Hdocs|]. split; [exact Hstale|].
  exact (proj1 (failed_save_never_settles (tz:=UTC) 1706662800000 1706745600000
                  "00aa11bb22cc33dd" true true
                  (mkOrder 1 "#1001" 1704067200000 (Some "fulfilled") false None
                     (mkAddress "Austin" "TX" "73301") (mkCustomer "Ada" "Doe")
                     [])
                  None ∅ _ _ (fun _ => 0%nat) Hpage Hdocs Hstale)).
Defined.

Section Isolation.
Context {tz : TimeZone}.

Lemma getStatusPage_other now pageId dbReadOk dbUpdateOk shopifyResult metafield
    db (tempStatusPages : gmap string StatusPage) s other :
  other <> pageId ->
  snd (fst (getStatusPage now pageId dbReadOk dbUpdateOk shopifyResult metafield
              db tempStatusPages s)) !! other = tempStatusPages !! other /\
  docOf (snd (fst (fst (getStatusPage now pageId dbReadOk dbUpdateOk
                          shopifyResult metafield db tempStatusPages s)))) other
  = docOf db other.
Proof.
  intros Hne. unfold getStatusPage. cbv zeta.
  destruct (match match db with
                  | Some docs => if dbReadOk then docs !! pageId else None
                  | None => None
                  end with
            | Some doc => Some (doc_page doc, Some (doc_savedAt doc))
            | None =>
                match tempStatusPages !! pageId with
                | Some page => Some (page, None)
                | None => None
                end
            end) as [[page savedAt]|]; [|split; reflexivity].
  destruct (4 * (1000 * 60 * 60) <=? now - sp_lastUpdated page);
    [|split; reflexivity].
  destruct shopifyResult as [order|err]; [|split; reflexivity].
  unfold bind, ret.
  destruct (generateRealisticTrackingEventsWithFulfillment _ _ _ _ _ _ _ _ s)
    as [events s1].
  destruct db as [docs|].
  - destruct (sp_saved (refreshedPage page _ order events now)); cbn [fst snd].
    + split; [reflexivity|]. unfold docOf.
      destruct (docs !! pageId) as [old|]; [|reflexivity].
      destruct dbUpdateOk; [|reflexivity].
      apply lookup_insert_ne. congruence.
    + split; [|reflexivity]. apply lookup_insert_ne. congruence.
  - cbn [fst snd]. split; [|reflexivity]. apply lookup_insert_ne. congruence.
Qed.

End Isolation.

(** X19: each operation touches the page it names and no other: for any
    other identifier, the temporary store and the database hold after a
    create, a save, a read or the firing of the expiry timer what they
    held before. *)
Theorem operations_touch_one_page {tz : TimeZone} (now : Date) (pageId other : string)
    (body : CreateRequest) (ok ok' : bool) (shopifyResult : ShopifyResult)
    (metafield : option Metafield) (db : option (gmap string DbDoc))
    (tempStatusPages : gmap string StatusPage) (s : RandomSource) :
  other <> pageId ->
  snd (fst (createStatusPage now pageId body shopifyResult metafield
              tempStatusPages s)) !! other = tempStatusPages !! other /\
  snd (saveStatusPage now pageId ok db tempStatusPages) !! other
  = tempStatusPages !! other /\
  docOf (snd (fst (saveStatusPage now pageId ok db tempStatusPages))) other
  = docOf db other /\
  snd (fst (getStatusPage now pageId ok ok' shopifyResult metafield db
              tempStatusPages s)) !! other = tempStatusPages !! other /\
  docOf (snd (fst (fst (getStatusPage now pageId ok ok' shopifyResult metafield
                          db tempStatusPages s)))) other
  = docOf db other /\
  expireTempPage pageId tempStatusPages !! other = tempStatusPages !! other.
Proof.
  intros Hne.
  assert (Hne' : pageId <> other) by congruence.
  split; [|split; [|split; [|split; [|split]]]].
  - destruct (fst (fst (createStatusPage now pageId body shopifyResult metafield
                          tempStatusPages s))) as [code err|id data r] eqn:Hresp.
    + rewrite (createStatusPage_rejected _ _ _ _ _ _ _ _ _ Hresp). reflexivity.
    + destruct (createStatusPage_created _ _ _ _ _ _ _ _ _ _ Hresp) as [-> _].
      apply lookup_insert_ne. exact Hne'.
  - unfold saveStatusPage.
    destruct (tempStatusPages !! pageId) as [page|]; cbn [snd]; [|reflexivity].
    apply lookup_insert_ne. exact Hne'.
  - unfold saveStatusPage.
    destruct (tempStatusPages !! pageId) as [page|]; cbn [fst snd]; [|reflexivity].
    destruct db as [docs|]; [|reflexivity].
    destruct ok; [|reflexivity]. apply lookup_insert_ne. exact Hne'.
  - apply getStatusPage_other. exact Hne.
  - apply getStatusPage_other. exact Hne.
  - unfold expireTempPage.
    destruct (tempStatusPages !! pageId) as [page|]; [|reflexivity].
    destruct (negb (sp_saved page)); [|reflexivity].
    apply lookup_delete_ne. exact Hne'.
Qed.

(** The timer of one page leaves another page in place. *)
Lemma operations_touch_one_page_witness :
  "ffee998877665544" <> "00aa11bb22cc33dd" /\
  expireTempPage "00aa11bb22cc33dd"
    {[ "ffee998877665544" :=
         mkStatusPage "Ada Doe" "#1001" "1Z12345E0205271688" "UPS" "UPS" ""
           "Austin, TX 73301" (mkAddress "Austin" "TX" "73301") None false None
           [] None false None 1706659200000 1706659200000 false ]}
    !! "ffee998877665544"
  = ({[ "ffee998877665544" :=
          mkStatusPage "Ada Doe" "#1001" "1Z12345E0205271688" "UPS" "UPS" ""
            "Austin, TX 73301" (mkAddress "Austin" "TX" "73301") None false None
            [] None false None 1706659200000 1706659200000 false ]}
     : gmap string StatusPage) !! "ffee998877665544".
Proof.
  assert (Hne : "ffee998877665544" <> "00aa11bb22cc33dd") by discriminate.
  split; [exact Hne|].
  exact (proj2 (proj2 (proj2 (proj2 (proj2
           (operations_touch_one_page (tz:=UTC) 0 "00aa11bb22cc33dd"
              "ffee998877665544" (mkRequest "" "" None) true true
              (ShopifyError "") None None _ (fun _ => 0%nat) Hne)))))).
Defined.

(** X20: the clean-up of the database keeps exactly the documents
    created no more than thirty days before the clock, unchanged; it does
    nothing without a database or when the query fails; and running it
    twice at the same instant is running it once. *)
Theorem cleanupExpiredPages_keeps_recent (now : Date) (ok : bool)
    (db : option (gmap string DbDoc)) (id : string) (doc : DbDoc) :
  (docOf (cleanupExpiredPages now true db) id = Some doc <->
   docOf db id = Some doc /\ now - 30 * msPerDay <= sp_createdAt (doc_page doc)) /\
  cleanupExpiredPages now false db = db /\
  cleanupExpiredPages now ok None = None /\
  cleanupExpiredPages now true (cleanupExpiredPages now true db)
  = cleanupExpiredPages now true db.
Proof.
  split; [|split; [|split]].
  - destruct db as [docs|]; simpl.
    + rewrite map_lookup_filter_Some. cbn [snd].
      split; intros [Hdoc Hage]; (split; [exact Hdoc|]);
        unfold shiftDate, msPerDay in *; lia.
    + split; [discriminate | intros [H _]; discriminate].
  - destruct db; reflexivity.
  - reflexivity.
  - destruct db as [docs|]; [|reflexivity]. simpl. f_equal.
    apply map_eq. intros i. apply option_eq. intros x.
    rewrite !map_lookup_filter_Some. tauto.
Qed.

(** ** The synthesizer: the schedule behind every sequence *)

Section Schedule.
Context {tz : TimeZone}.

Lemma eventTemplates_offsets oc label pickup facility city province s :
  exists r d1 d2 d3 d4 d5 : nat,
    (r < 2 /\ 3 <= d1 <= 5 /\ 3 <= d2 <= 5 /\ 3 <= d3 <= 5 /\ 3 <= d4 <= 5 /\
     3 <= d5 <= 5)%nat /\
    fst (eventTemplates oc label pickup facility city province s) =
    [ mkTemplate "Order Confirmed" (Some "Order Processing Center") (Some oc) None;
      mkTemplate "Order Processed" (Some "Fulfillment Center")
        (Some (addBusinessDays oc (r + 1))) None;
      mkTemplate "Label Created" (Some "Origin Facility") (Some label) None;
      mkTemplate "Package Picked Up" (Some "Local Pickup Facility")
        (Some pickup) None;
      mkTemplate "Departed Origin Facility" (Some "Origin Facility")
        None (Some 1%nat);
      mkTemplate "In Transit" None None (Some d1);
      mkTemplate "Arrived at Sorting Facility" None None (Some d2);
      mkTemplate "Departed Sorting Facility" None None (Some d3);
      mkTemplate "Arrived at Destination Facility" facility None (Some d4);
      mkTemplate "Out for Delivery" (Some (city +:+ ", " +:+ province)) None
        (Some d5) ].
Proof.
  unfold eventTemplates, getRandomBusinessDaysInterval, bind, ret.
  pose proof (randomBelow_lt 2 s ltac:(lia)) as H0.
  destruct (randomBelow 2 s) as [r s0].
  pose proof (randomBelow_lt 3 s0 ltac:(lia)) as H1.
  destruct (randomBelow 3 s0) as [r1 s1].
  pose proof (randomBelow_lt 3 s1 ltac:(lia)) as H2.
  destruct (randomBelow 3 s1) as [r2 s2].
  pose proof (randomBelow_lt 3 s2 ltac:(lia)) as H3.
  destruct (randomBelow 3 s2) as [r3 s3].
  pose proof (randomBelow_lt 3 s3 ltac:(lia)) as H4.
  destruct (randomBelow 3 s3) as [r4 s4].
  pose proof (randomBelow_lt 3 s4 ltac:(lia)) as H5.
  destruct (randomBelow 3 s4) as [r5 s5].
  cbn [fst] in *.
  exists r, (r1 + 3)%nat, (r2 + 3)%nat, (r3 + 3)%nat, (r4 + 3)%nat, (r5 + 3)%nat.
  split; [lia | reflexivity].
Qed.

(** The pickup falls on a business day, and so does the label unless a
    custom pickup date dates it. *)
Lemma planLabelAndPickup_business order ff cpd s :
  notWeekend (snd (fst (planLabelAndPickup order ff cpd s))) = true /\
  (cpd = None ->
   notWeekend (fst (fst (planLabelAndPickup order ff cpd s))) = true).
Proof.
  assert (Hadd : forall d n, notWeekend (addBusinessDays d (n + 1)) = true)
    by (intros d n; apply addBusinessDays_loop_lands; lia).
  assert (Hsub : forall d n, notWeekend (subtractBusinessDays d (n + 1)) = true)
    by (intros d n; apply subtractBusinessDays_loop_lands; lia).
  unfold planLabelAndPickup, bind, ret. destruct cpd as [custom|].
  - destruct (randomBelow 2 s) as [r s1].
    destruct (custom <=? order); cbn [fst snd];
      (split; [first [apply Hadd | apply (Hadd _ 0%nat)] | discriminate]).
  - destruct (randomBelow 3 s) as [r1 s1].
    destruct (randomBelow 2 s1) as [r2 s2].
    destruct (find hasTracking ff) as [f|];
      [|cbn [fst snd]; split; [apply Hadd | intros _; apply Hadd]].
    destruct ((0 <? (created_at f - order) / msPerDay)
              && ((created_at f - order) / msPerDay <? 30));
      [|cbn [fst snd]; split; [apply Hadd | intros _; apply Hadd]].
    destruct (randomBelow 2 s2) as [r3 s3].
    destruct (subtractBusinessDays (subtractBusinessDays (created_at f) 1)
                (r3 + 1) <=? order); cbn [fst snd].
    + split; [apply (Hadd _ 0%nat) | intros _; apply (Hadd _ 0%nat)].
    + split; [apply (Hsub _ 0%nat) | intros _; apply Hsub].
Qed.

Lemma map_pair_firstn {A B C} (f : A -> B) (g : A -> C) (l : list A) :
  forall k a b,
    map f l = firstn k a -> map g l = firstn k b ->
    map (fun x => (f x, g x)) l = firstn k (combine a b).
Proof.
  induction l as [|x l IH]; intros k a b Hf Hg.
  - destruct k; [reflexivity|]. destruct a; [reflexivity|].
    destruct b; [reflexivity | discriminate].
  - destruct k; [discriminate|]. destruct a as [|a0 a]; [discriminate|].
    destruct b as [|b0 b]; [discriminate|].
    simpl in *. injection Hf as -> Hf. injection Hg as -> Hg.
    f_equal. apply IH; assumption.
Qed.

Lemma markLastCurrent_pairs isDelivered events :
  map (fun e => (ev_status e, ev_instant e)) (markLastCurrent isDelivered events)
  = map (fun e => (ev_status e, ev_instant e)) events.
Proof.
  destruct isDelivered; [rewrite markLastCurrent_delivered; reflexivity|].
  destruct events as [|last init _] using rev_ind; [reflexivity|].
  rewrite markLastCurrent_snoc, !map_app. reflexivity.
Qed.

(** Every returned sequence follows a schedule: the statuses and dates of
    its events before the Delivered event are the first [k] entries of
    the list below, cut at the first date after [today]. *)
Lemma synthesizer_schedule today order city province isDelivered deliveryDate
    ff cpd s :
  exists (k r d1 d2 d3 d4 d5 : nat) (label pickup : Date)
         (body tail : list TrackingEvent),
    fst (generateRealisticTrackingEventsWithFulfillment today order city province
           isDelivered deliveryDate ff cpd s) = body ++ tail /\
    Forall (fun e => ev_status e = "Delivered") tail /\
    Forall (fun e => ev_instant e <= today) body /\
    (r < 2 /\ 3 <= d1 <= 5 /\ 3 <= d2 <= 5 /\ 3 <= d3 <= 5 /\ 3 <= d4 <= 5 /\
     3 <= d5 <= 5)%nat /\
    order < label /\ label <= pickup /\ notWeekend pickup = true /\
    (cpd = None -> notWeekend label = true) /\
    (k = 0%nat -> today < order) /\
    map (fun e => (ev_status e, ev_instant e)) body =
    firstn k
      [ ("Order Confirmed", order);
        ("Order Processed", addBusinessDays order (r + 1));
        ("Label Created", label);
        ("Package Picked Up", pickup);
        ("Departed Origin Facility", addBusinessDays pickup 1);
        ("In Transit", addBusinessDays (addBusinessDays pickup 1) d1);
        ("Arrived at Sorting Facility",
         addBusinessDays (addBusinessDays (addBusinessDays pickup 1) d1) d2);
        ("Departed Sorting Facility",
         addBusinessDays
           (addBusinessDays (addBusinessDays (addBusinessDays pickup 1) d1) d2)
           d3);
        ("Arrived at Destination Facility",
         addBusinessDays
           (addBusinessDays
              (addBusinessDays (addBusinessDays (addBusinessDays pickup 1) d1) d2)
              d3) d4);
        ("Out for Delivery",
         addBusinessDays
           (addBusinessDays
              (addBusinessDays
                 (addBusinessDays (addBusinessDays (addBusinessDays pickup 1) d1)
                    d2) d3) d4) d5) ].
Proof.
  destruct (synthesizer_decompose today order city province isDelivered
              deliveryDate ff cpd s) as (tail & Hout & _ & Hflags).
  set (plan := planEvents order city province ff cpd s) in *.
  destruct (eventLoop_schedule today (fst (fst plan)) cpd (snd (fst plan)) 0
              order (snd plan)) as (k & Hi & Hs & Hn).
  pose proof (eventLoop_events today (fst (fst plan)) cpd (snd (fst plan)) 0
                order (snd plan)) as Hev.
  set (body := fst (eventLoop today (fst (fst plan)) cpd 0 (snd (fst plan))
                      order [] (snd plan))) in *.
  pose proof (map_pair_firstn ev_status ev_instant body k _ _ Hs Hi) as Hpairs.
  clear Hi Hs. unfold plan in Hpairs, Hn.
  destruct (planEvents_templates order city province ff cpd s)
    as (facility & s1 & s2 & Htemplates).
  rewrite Htemplates in Hpairs, Hn. clear Htemplates.
  destruct (planLabelAndPickup_ordered order ff cpd s1) as [Hlabel Hpickup].
  destruct (planLabelAndPickup_business order ff cpd s1) as [Hbp Hbl].
  match type of Hpairs with
  | context [eventTemplates ?a ?b ?c ?d ?e ?f ?g] =>
      destruct (eventTemplates_offsets a b c d e f g)
        as (r & d1 & d2 & d3 & d4 & d5 & Hoff & Hshape)
  end.
  rewrite Hshape in Hpairs, Hn. clear Hshape.
  cbn [scheduledDates nextEventDate tpl_fixedDate tpl_businessDaysFromPrevious
       tpl_status map combine Nat.ltb Nat.leb default from_option] in Hpairs, Hn.
  exists k, r, d1, d2, d3, d4, d5,
    (fst (fst (planLabelAndPickup order ff cpd s1))),
    (snd (fst (planLabelAndPickup order ff cpd s1))),
    (markLastCurrent isDelivered body), tail.
  split; [exact Hout|]. split.
  { eapply List.Forall_impl; [|exact Hflags]. simpl. tauto. }
  split.
  { apply (map_eq_Forall ev_instant (fun d => d <= today) _ body).
    - apply markLastCurrent_instants.
    - eapply List.Forall_impl; [|exact Hev]. simpl. tauto. }
  split; [exact Hoff|]. split; [exact Hlabel|]. split; [exact Hpickup|].
  split; [exact Hbp|]. split; [exact Hbl|]. split.
  { intros ->. exact Hn. }
  rewrite markLastCurrent_pairs. exact Hpairs.
Qed.

End Schedule.

Section ScheduleFacts.
Context {tz : TimeZone}.

Lemma in_firstn_in {A} (x : A) k l : In x (firstn k l) -> In x l.
Proof.
  intros Hin. rewrite <- (firstn_skipn k l). apply in_or_app. left. exact Hin.
Qed.

Lemma notWeekend_add d n : notWeekend (addBusinessDays d (S n)) = true.
Proof. apply addBusinessDays_loop_lands. lia. Qed.

End ScheduleFacts.

(** X21: in every returned sequence, no event before the Delivered event
    is dated before the order, and, Order Processed left aside, the dates
    of those events never decrease. *)
Theorem synthesizer_dates_in_order {tz : TimeZone} (today order : Date)
    (city province : string) (isDelivered : bool) (deliveryDate : option Date)
    (fulfillments : list Fulfillment) (customPickupDate : option Date)
    (s : RandomSource) :
  exists (k : nat) (body tail : list TrackingEvent),
    fst (generateRealisticTrackingEventsWithFulfillment today order city province
           isDelivered deliveryDate fulfillments customPickupDate s)
      = body ++ tail /\
    Forall (fun e => ev_status e = "Delivered") tail /\
    map ev_status body = firstn k statusVocabulary /\
    Forall (fun e => order <= ev_instant e) body /\
    nonDecreasing (withoutSecond (map ev_instant body)).
Proof.
  destruct (synthesizer_schedule today order city province isDelivered
              deliveryDate fulfillments customPickupDate s)
    as (k & r & d1 & d2 & d3 & d4 & d5 & label & pickup & body & tail &
        Hout & Htail & _ & _ & Hlabel & Hpickup & _ & _ & _ & Hpairs).
  exists k, body, tail. split; [exact Hout|]. split; [exact Htail|].
  assert (Hst : map ev_status body
                = map fst (map (fun e => (ev_status e, ev_instant e)) body))
    by (rewrite map_map; reflexivity).
  assert (Hin : map ev_instant body
                = map snd (map (fun e => (ev_status e, ev_instant e)) body))
    by (rewrite map_map; reflexivity).
  rewrite Hpairs in Hst, Hin. clear Hpairs.
  split; [rewrite Hst|split;
    [apply (proj1 (List.Forall_map ev_instant (fun d => order <= d) body))|];
    rewrite Hin]; clear Hst Hin.
  - do 10 (destruct k as [|k]; [reflexivity|]).
    unfold statusVocabulary. cbn [firstn map fst]. rewrite !firstn_nil.
    reflexivity.
  - pose proof (addBusinessDays_ge order (r + 1)) as G0.
    set (e1 := addBusinessDays pickup 1).
    set (e2 := addBusinessDays e1 d1).
    set (e3 := addBusinessDays e2 d2).
    set (e4 := addBusinessDays e3 d3).
    set (e5 := addBusinessDays e4 d4).
    set (e6 := addBusinessDays e5 d5).
    pose proof (addBusinessDays_ge pickup 1) as G1. fold e1 in G1.
    pose proof (addBusinessDays_ge e1 d1) as G2. fold e2 in G2.
    pose proof (addBusinessDays_ge e2 d2) as G3. fold e3 in G3.
    pose proof (addBusinessDays_ge e3 d3) as G4. fold e4 in G4.
    pose proof (addBusinessDays_ge e4 d4) as G5. fold e5 in G5.
    pose proof (addBusinessDays_ge e5 d5) as G6. fold e6 in G6.
    do 10 (destruct k as [|k]; [simpl; repeat constructor; lia|]).
    cbn [firstn map snd]. rewrite firstn_nil. simpl. repeat constructor; lia.
  - set (e1 := addBusinessDays pickup 1).
    set (e2 := addBusinessDays e1 d1).
    set (e3 := addBusinessDays e2 d2).
    set (e4 := addBusinessDays e3 d3).
    set (e5 := addBusinessDays e4 d4).
    set (e6 := addBusinessDays e5 d5).
    pose proof (addBusinessDays_ge pickup 1) as G1. fold e1 in G1.
    pose proof (addBusinessDays_ge e1 d1) as G2. fold e2 in G2.
    pose proof (addBusinessDays_ge e2 d2) as G3. fold e3 in G3.
    pose proof (addBusinessDays_ge e3 d3) as G4. fold e4 in G4.
    pose proof (addBusinessDays_ge e4 d4) as G5. fold e5 in G5.
    pose proof (addBusinessDays_ge e5 d5) as G6. fold e6 in G6.
    do 10 (destruct k as [|k]; [simpl; intuition lia|]).
    cbn [firstn map snd]. rewrite firstn_nil. simpl. intuition lia.
Qed.

(** X22: the events dated by counting business days (Order Processed,
    Package Picked Up and every later event before Delivered) fall on a
    day from Monday to Friday, and so does Label Created when no custom
    pickup date is given. *)
Theorem synthesizer_business_days {tz : TimeZone} (today order : Date)
    (city province : string) (isDelivered : bool) (deliveryDate : option Date)
    (fulfillments : list Fulfillment) (customPickupDate : option Date)
    (s : RandomSource) (e : TrackingEvent) :
  In e (fst (generateRealisticTrackingEventsWithFulfillment today order city
               province isDelivered deliveryDate fulfillments customPickupDate
               s)) ->
  In (ev_status e)
     (match customPickupDate with
      | None => "Label Created" :: countedStatuses
      | Some _ => countedStatuses
      end) ->
  1 <= getDay (ev_instant e) <= 5.
Proof.
  intros Hin Hst. apply notWeekend_iff.
  destruct (synthesizer_schedule today order city province isDelivered
              deliveryDate fulfillments customPickupDate s)
    as (k & r & d1 & d2 & d3 & d4 & d5 & label & pickup & body & tail &
        Hout & Htail & _ & Hoff & _ & _ & Hbp & Hbl & _ & Hpairs).
  rewrite Hout in Hin. apply in_app_or in Hin as [Hin | Hin].
  2: { rewrite List.Forall_forall in Htail. rewrite (Htail e Hin) in Hst.
       destruct customPickupDate; simpl in Hst;
         repeat (destruct Hst as [Hst | Hst]; [discriminate|]); destruct Hst. }
  apply (in_map (fun e => (ev_status e, ev_instant e))) in Hin.
  rewrite Hpairs in Hin. apply in_firstn_in in Hin.
  replace (r + 1)%nat with (S r) in Hin by lia.
  assert (Hd : forall d n, (3 <= n)%nat -> notWeekend (addBusinessDays d n) = true)
    by (intros d n Hn; apply addBusinessDays_loop_lands; lia).
  simpl in Hin.
  repeat (destruct Hin as [Hin | Hin];
          [injection Hin as Hs Hi; rewrite <- Hi; rewrite <- Hs in Hst;
           clear Hs Hi|]); try destruct Hin.
  - destruct customPickupDate; simpl in Hst;
      repeat (destruct Hst as [Hst | Hst]; [discriminate|]); destruct Hst.
  - apply notWeekend_add.
  - destruct customPickupDate as [c|]; [|apply Hbl; reflexivity].
    simpl in Hst.
    repeat (destruct Hst as [Hst | Hst]; [discriminate|]). destruct Hst.
  - exact Hbp.
  - apply notWeekend_add.
  - apply Hd. lia.
  - apply Hd. lia.
  - apply Hd. lia.
  - apply Hd. lia.
  - apply Hd. lia.
Qed.

(** The order of Monday 1 January 2024 seen on 31 January: the fifth
    event, Departed Origin Facility, falls on a business day. *)
Lemma synthesizer_business_days_witness :
  In (nth 4 (fst (generateRealisticTrackingEventsWithFulfillment (tz:=UTC)
                    1706659200000 1704067200000 "Austin" "TX" false None []
                    None (fun _ => 0%nat)))
        (mkEvent "" "" "" None false false false None 0))
     (fst (generateRealisticTrackingEventsWithFulfillment (tz:=UTC)
             1706659200000 1704067200000 "Austin" "TX" false None []
             None (fun _ => 0%nat))) /\
  In (ev_status
        (nth 4 (fst (generateRealisticTrackingEventsWithFulfillment (tz:=UTC)
                       1706659200000 1704067200000 "Austin" "TX" false None []
                       None (fun _ => 0%nat)))
           (mkEvent "" "" "" None false false false None 0)))
     ("Label Created" :: countedStatuses) /\
  1 <= getDay (tz:=UTC)
         (ev_instant
            (nth 4 (fst (generateRealisticTrackingEventsWithFulfillment (tz:=UTC)
                           1706659200000 1704067200000 "Austin" "TX" false None
                           [] None (fun _ => 0%nat)))
               (mkEvent "" "" "" None false false false None 0))) <= 5.
Proof.
  assert (Hin :
    In (nth 4 (fst (generateRealisticTrackingEventsWithFulfillment (tz:=UTC)
                      1706659200000 1704067200000 "Austin" "TX" false None []
                      None (fun _ => 0%nat)))
          (mkEvent "" "" "" None false false false None 0))
       (fst (generateRealisticTrackingEventsWithFulfillment (tz:=UTC)
               1706659200000 1704067200000 "Austin" "TX" false None []
               None (fun _ => 0%nat))))
    by (vm_compute; do 4 right; left; reflexivity).
  assert (Hst :
    In (ev_status
          (nth 4 (fst (generateRealisticTrackingEventsWithFulfillment (tz:=UTC)
                         1706659200000 1704067200000 "Austin" "TX" false None []
                         None (fun _ => 0%nat)))
             (mkEvent "" "" "" None false false false None 0)))
       ("Label Created" :: countedStatuses))
    by (vm_compute; do 3 right; left; reflexivity).
  split; [exact Hin|]. split; [exact Hst|].
  exact (synthesizer_business_days (tz:=UTC) 1706659200000 1704067200000
           "Austin" "TX" false None [] None (fun _ => 0%nat) _ Hin Hst).
Defined.

(** X23: an order dated after the clock gets no event but, if it is
    delivered and has a delivery date, the Delivered one; any other order
    gets a sequence that starts with Order Confirmed, dated by the order
    date. *)
Theorem synthesizer_first_event {tz : TimeZone} (today order : Date)
    (city province : string) (isDelivered : bool) (deliveryDate : option Date)
    (fulfillments : list Fulfillment) (customPickupDate : option Date)
    (s : RandomSource) :
  if today <? order then
    Forall (fun e => ev_status e = "Delivered")
      (fst (generateRealisticTrackingEventsWithFulfillment today order city
              province isDelivered deliveryDate fulfillments customPickupDate s))
  else
    exists e rest,
      fst (generateRealisticTrackingEventsWithFulfillment today order city
             province isDelivered deliveryDate fulfillments customPickupDate s)
        = e :: rest /\
      ev_status e = "Order Confirmed" /\ ev_instant e = order.
Proof.
  destruct (synthesizer_schedule today order city province isDelivered
              deliveryDate fulfillments customPickupDate s)
    as (k & r & d1 & d2 & d3 & d4 & d5 & label & pickup & body & tail &
        Hout & Htail & Hpast & _ & _ & _ & _ & _ & Hk & Hpairs).
  rewrite Hout. destruct (Z.ltb_spec today order) as [Hfuture | Hnow].
  - destruct k as [|k].
    + destruct body; [exact Htail | discriminate].
    + destruct body as [|e body]; [discriminate|].
      injection Hpairs as _ Hi _. inversion Hpast; subst. lia.
  - destruct k as [|k]; [specialize (Hk eq_refl); lia|].
    destruct body as [|e body]; [discriminate|].
    injection Hpairs as Hs Hi _. exists e, (body ++ tail). auto.
Qed.

(** ** Validation looks at calendar days only *)

(** X24: the verdict of [validatePickupDate], message included, depends
    on the local calendar days of the pickup date, of the order date and
    of the clock only: two calls that agree on those three days give the
    same answer, whatever the times of day. *)
Theorem validatePickupDate_days_only {tz : TimeZone} (now now' : Date)
    (pickup pickup' : Date) (orderCreatedAt orderCreatedAt' : Date) :
  localDay now = localDay now' ->
  localDay pickup = localDay pickup' ->
  localDay orderCreatedAt = localDay orderCreatedAt' ->
  validatePickupDate now (Some pickup) orderCreatedAt
  = validatePickupDate now' (Some pickup') orderCreatedAt'.
Proof.
  intros Hn Hp Ho.
  assert (Hz : forall a b, localDay a = localDay b -> setHoursZero a = setHoursZero b)
    by (intros a b Hab; unfold setHoursZero; rewrite Hab; reflexivity).
  assert (Hy : forall k, setHoursZero (setFullYear now (getFullYear now + k))
                         = setHoursZero (setFullYear now' (getFullYear now' + k))).
  { intros k. apply Hz. rewrite !localDay_setFullYear.
    unfold getFullYear, getMonth1, getDate. rewrite Hn. reflexivity. }
  unfold validatePickupDate.
  rewrite (Hz _ _ Hp), (Hz _ _ Ho), (Hy 1).
  replace (getFullYear now - 2) with (getFullYear now + -2) by lia.
  replace (getFullYear now' - 2) with (getFullYear now' + -2) by lia.
  rewrite (Hy (-2)). reflexivity.
Qed.

(** Two pickups on 20 December 2023, at midnight and at 01:00 UTC. *)
Lemma validatePickupDate_days_only_witness :
  localDay (tz:=UTC) 1706659200000 = localDay (tz:=UTC) 1706662800000 /\
  localDay (tz:=UTC) 1703030400000 = localDay (tz:=UTC) 1703034000000 /\
  localDay (tz:=UTC) 1704067200000 = localDay (tz:=UTC) 1704067200000 /\
  validatePickupDate (tz:=UTC) 1706659200000 (Some 1703030400000) 1704067200000
  = validatePickupDate (tz:=UTC) 1706662800000 (Some 1703034000000)
      1704067200000.
Proof.
  assert (Hn : localDay (tz:=UTC) 1706659200000 = localDay (tz:=UTC) 1706662800000)
    by (vm_compute; reflexivity).
  assert (Hp : localDay (tz:=UTC) 1703030400000 = localDay (tz:=UTC) 1703034000000)
    by (vm_compute; reflexivity).
  split; [exact Hn|]. split; [exact Hp|]. split; [reflexivity|].
  exact (validatePickupDate_days_only (tz:=UTC) 1706659200000 1706662800000
           1703030400000 1703034000000 1704067200000 1704067200000 Hn Hp
           eq_refl).
Defined.

(** ** Every event has a location *)

Section Locations.
Context {tz : TimeZone}.





End Locations.

